(** * Language-model tuning jobs, chat sessions and the persistent
      resource reconciler of the Vertex AI SDK

    A shallow embedding of [vertexai/language_models/_language_models.py]
    (tuning submission, [_LanguageModelTuningJob.get_tuned_model], the chat
    session and its response parser) and of the persistent-resource
    reconciler exercised by [tests/unit/vertexai/test_persistent_resource_util.py].

    Python values are an inductive type, exceptions are data, and every
    call that leaves the process is recorded in a trace, so that "no
    network call was made" is a statement about a list. *)

From stdpp Require Import base numbers list strings gmap.
From Stdlib Require Import Ascii String ZArith Lia.

Set Warnings "-clear-no-such-hyp".

Local Open Scope string_scope.
Local Open Scope Z_scope.

(** ** Python values *)

(** The JSON-like values that travel through prediction responses and
    pipeline parameters.  A finite float is the dyadic rational
    [m * 2^e] it denotes; no arithmetic is done on floats here.  A [dict]
    keeps its items in insertion order, as Python does. *)
#[warnings="-register-all"]
Inductive pyval : Type :=
| PyNone
| PyBool (b : bool)
| PyInt (n : Z)
| PyFloat (m e : Z)
| PyStr (s : string)
| PyList (items : list pyval)
| PyDict (items : list (string * pyval)).

(** [bool(v)] *)
Definition truthy (v : pyval) : bool :=
  match v with
  | PyNone => false
  | PyBool b => b
  | PyInt n => negb (n =? 0)
  | PyFloat m _ => negb (m =? 0)
  | PyStr s => negb (String.eqb s "")
  | PyList l => match l with [] => false | _ => true end
  | PyDict d => match d with [] => false | _ => true end
  end.

(** [a or b] *)
Definition py_or (a b : pyval) : pyval := if truthy a then a else b.

(** Lookup of a key in the items of a dict. *)
Fixpoint dict_lookup (k : string) (d : list (string * pyval)) : option pyval :=
  match d with
  | [] => None
  | (k', v) :: d' => if String.eqb k k' then Some v else dict_lookup k d'
  end.

(** [d[k] = v] on the items of a dict: overwrite in place, or append. *)
Fixpoint dict_set (k : string) (v : pyval) (d : list (string * pyval))
  : list (string * pyval) :=
  match d with
  | [] => [(k, v)]
  | (k', v') :: d' =>
      if String.eqb k k' then (k', v) :: d' else (k', v') :: dict_set k v d'
  end.

(** ** Exceptions *)

Inductive exn_class : Type :=
| ValueError
| RuntimeError
| TypeError
| KeyError
| IndexError
| AttributeError
| NotFound                      (* google.api_core.exceptions.NotFound *)
| OtherError (name : string).   (* any other class, by name *)

(** An exception instance: its class, its [args] and, for
    [raise ... from cause], the chained cause. *)
#[warnings="-register-all"]
Inductive exn : Type :=
| Exc (cls : exn_class) (args : list string) (cause : option exn).

Definition exn_cls (e : exn) : exn_class := let 'Exc c _ _ := e in c.
Definition exn_args (e : exn) : list string := let 'Exc _ a _ := e in a.
Definition exn_cause (e : exn) : option exn := let 'Exc _ _ c := e in c.

Global Instance exn_class_eq_dec : EqDecision exn_class.
Proof. solve_decision. Defined.

(** ** Remote calls and the trace *)

(** What a call to a collaborator asks for.  [EvLog] is local logging;
    every other event is a round trip to a remote service. *)
Inductive event : Type :=
| EvLog (level msg : string)
| EvJobWait (job_name : string)
| EvJobCancel (job_name : string)
| EvModelGet (model_name : string)
| EvModelDeploy (model_name : string)
| EvGetModelInfo (model_id : string)
| EvLaunchTuningJob (model_id : string) (location : option string)
| EvEndpointPredict (endpoint_name : string) (instance parameters : pyval)
| EvPredictStream (endpoint_name : string) (instance parameters : pyval)
| EvGetPersistentResource (name : string)
| EvCreatePersistentResource (name : string) (pools : list (string * Z * string * Z)).

Definition is_network_call (ev : event) : bool :=
  match ev with
  | EvLog _ _ => false
  | _ => true
  end.

Definition network_calls (tr : list event) : list event :=
  List.filter is_network_call tr.

(** ** The monad: object state, trace, exceptions *)

Inductive outcome (A : Type) : Type :=
| Returns (a : A)
| Raises (e : exn).
Arguments Returns {A} a.
Arguments Raises {A} e.

(** A computation over the state [S] of the object it is a method of. *)
Definition M (S A : Type) : Type := S -> list event * S * outcome A.

Definition ret {S A} (a : A) : M S A := fun s => ([], s, Returns a).

Definition bind {S A B} (m : M S A) (f : A -> M S B) : M S B :=
  fun s =>
    match m s with
    | (t, s', Returns a) =>
        let '(t', s'', r) := f a s' in ((t ++ t')%list, s'', r)
    | (t, s', Raises e) => (t, s', Raises e)
    end.

Definition raise {S A} (e : exn) : M S A := fun s => ([], s, Raises e).
Definition emit {S} (ev : event) : M S unit := fun s => ([ev], s, Returns tt).
Definition get_self {S} : M S S := fun s => ([], s, Returns s).
Definition put_self {S} (s : S) : M S unit := fun _ => ([], s, Returns tt).

(** A remote call: recorded in the trace, answered by the collaborator. *)
Definition call {S A} (ev : event) (answer : outcome A) : M S A :=
  fun s => ([ev], s, answer).

(** A local step of a collaborator that may raise. *)
Definition lift {S A} (answer : outcome A) : M S A := fun s => ([], s, answer).

Declare Scope py_scope.
Delimit Scope py_scope with py.
Notation "x <- c1 ;; c2" := (bind c1 (fun x => c2))
  (at level 100, c1 at next level, right associativity) : py_scope.
Notation "c1 ;; c2" := (bind c1 (fun _ => c2))
  (at level 100, right associativity) : py_scope.
Local Open Scope py_scope.

Definition trace_of {S A} (r : list event * S * outcome A) : list event := r.1.1.
Definition state_of {S A} (r : list event * S * outcome A) : S := r.1.2.
Definition outcome_of {S A} (r : list event * S * outcome A) : outcome A := r.2.

Definition raise_ {S A} (cls : exn_class) (msg : string) : M S A :=
  raise (Exc cls [msg] None).

(** ** Strings *)

(** A character of a string stands for the code point of its number, so
    strings range over the code points below 256.  [is_space] holds of those
    for which [str.isspace] does: tab to carriage return, the four
    separators, the space, the next-line control U+0085 and the no-break
    space U+00A0. *)
Definition is_space (c : ascii) : bool :=
  let n := nat_of_ascii c in
  ((9 <=? n) && (n <=? 13) || (28 <=? n) && (n <=? 32)
   || (n =? 133) || (n =? 160))%nat.

Fixpoint lstrip (s : string) : string :=
  match s with
  | EmptyString => EmptyString
  | String c s' => if is_space c then lstrip s' else s
  end.

Fixpoint rstrip (s : string) : string :=
  match s with
  | EmptyString => EmptyString
  | String c s' =>
      match rstrip s' with
      | EmptyString => if is_space c then EmptyString else String c EmptyString
      | r => String c r
      end
  end.

(** [s.strip()] *)
Definition strip (s : string) : string := rstrip (lstrip s).

Fixpoint last_char (s : string) : option ascii :=
  match s with
  | EmptyString => None
  | String c EmptyString => Some c
  | String _ s' => last_char s'
  end.

(** The string starts or ends with whitespace. *)
Definition padded (s : string) : bool :=
  match s with
  | String c _ => is_space c
  | EmptyString => false
  end
  || match last_char s with
     | Some c => is_space c
     | None => false
     end.

(** [s.startswith(p)] *)
Definition startswith (s p : string) : bool := String.prefix p s.

(** The split of [s.rpartition("-")] when a ["-"] occurs: the text before
    the last one and the text after it. *)
Fixpoint rsplit_dash (s : string) : option (string * string) :=
  match s with
  | EmptyString => None
  | String c s' =>
      match rsplit_dash s' with
      | Some (h, t) => Some (String c h, t)
      | None => if Ascii.eqb c "-"%char then Some (EmptyString, s') else None
      end
  end.

(** [s.rpartition("-")], without the separator component. *)
Definition rpartition_dash (s : string) : string * string :=
  match rsplit_dash s with
  | Some p => p
  | None => (EmptyString, s)
  end.

Definition dquote : string := String (ascii_of_nat 34) EmptyString.

(** ** Model tuning *)

Module Tuning.

(** Endpoint label/metadata key to preserve the base model ID information *)
Definition _TUNING_BASE_MODEL_ID_LABEL_KEY : string :=
  "google-vertex-llm-tuning-base-model-id".

(** Currently, tuning can only work in this location *)
Definition _TUNING_LOCATIONS : list string := ["europe-west4"; "us-central1"].
(** Currently, deployment can only work in this location *)
Definition _TUNED_MODEL_LOCATION : string := "us-central1".

(** [repr(_TUNING_LOCATIONS)], as the f-string of the error message prints it. *)
Definition _TUNING_LOCATIONS_repr : string := "('europe-west4', 'us-central1')".

(** [_get_model_id_from_tuning_model_id] *)
Definition _get_model_id_from_tuning_model_id (tuning_model_id : string) : string :=
  let '(model_name, version) := rpartition_dash tuning_model_id in
  "publishers/google/models/" ++ model_name ++ "@" ++ version.

(** A language-model class: what [type(self)] and [cls] stand for. *)
Record model_class : Type := {
  class_name : string;
  _INSTANCE_SCHEMA_URI : string
}.

(** A [_LanguageModel] object. *)
Record LanguageModel : Type := {
  model_cls : model_class;
  _model_id : string;
  _endpoint_name : string
}.

(** [aiplatform.Model]: the registry entry of a tuned model. *)
Record VertexModel : Type := {
  resource_name : string;
  labels : gmap string string;
  deployed_models : list string    (* the [endpoint] of each deployment *)
}.

(** [_model_garden_models._ModelInfo], the fields this file reads. *)
Record ModelInfo : Type := {
  tuning_pipeline_uri : option string;
  tuning_model_id : string;
  publisher_model_resource : string;
  interface_class : model_class
}.

Record Execution : Type := {
  schema_title : string;
  metadata : gmap string pyval
}.

Record PipelineTaskDetail : Type := { execution : Execution }.

(** Modelled from the spec: the states of a job, whose declaration is in
    a library outside the sources. *)
Inductive PipelineState : Type :=
| PIPELINE_STATE_PENDING
| PIPELINE_STATE_RUNNING
| PIPELINE_STATE_SUCCEEDED
| PIPELINE_STATE_FAILED
| PIPELINE_STATE_CANCELLED.

(** The remote resource of a pipeline job, as last fetched. *)
Record GcaPipelineJob : Type := {
  state : PipelineState;
  task_details : list PipelineTaskDetail   (* job_detail.task_details *)
}.

(** [aiplatform.PipelineJob]: the local projection of the remote job;
    [gca_resource] is refreshed by polling. *)
Record PipelineJob : Type := {
  name : string;
  gca_resource : GcaPipelineJob
}.

Inductive training_data_t : Type :=
| TrainingUri (uri : string)
| TrainingDataFrame (rows : pyval)
| TrainingOther.

Inductive tensorboard_t : Type :=
| TbObject (location tb_resource_name : string)   (* an aiplatform.Tensorboard *)
| TbStr (uri : string)
| TbOther.

Record TuningEvaluationSpec : Type := {
  evaluation_data : pyval;
  evaluation_interval : option pyval;
  enable_early_stopping : option pyval;
  tensorboard : option tensorboard_t
}.

(** The collaborators of this file that live outside it: the pipeline
    service, the model registry and model garden, and the launcher. *)
Record Backend : Type := {
  (* PipelineJob.wait() on the job of that name: blocks until the job is
     terminal; answers with the refreshed resource, raises when the job
     failed or was cancelled *)
  job_wait : string -> outcome GcaPipelineJob;
  (* PipelineJob.cancel() *)
  job_cancel : string -> outcome unit;
  (* aiplatform.Model(name) *)
  Model_init : string -> outcome VertexModel;
  (* Model.deploy().resource_name *)
  Model_deploy : VertexModel -> outcome string;
  (* _model_garden_models._get_model_info(model_id, {uri: cls}) *)
  _get_model_info : string -> model_class -> outcome ModelInfo;
  (* cls._validate_launch_stage(cls, publisher_model_resource) *)
  _validate_launch_stage : model_class -> string -> outcome unit;
  (* aiplatform.Tensorboard._parse_resource_name *)
  Tensorboard_parse_resource_name : string -> gmap string string;
  (* the pipeline submission at the end of _launch_tuning_job *)
  pipeline_submit :
    training_data_t -> string -> string -> gmap string pyval ->
    option string -> option string -> outcome PipelineJob
}.

(** [_LanguageModelTuningJob] *)
Record TuningJob : Type := {
  _base_model : LanguageModel;
  _job : PipelineJob;
  _model : option LanguageModel
}.

(** [_LanguageModelTuningJob.__init__] *)
Definition TuningJob_init (base_model : LanguageModel) (job : PipelineJob)
  : TuningJob :=
  {| _base_model := base_model; _job := job; _model := None |}.

Section WithBackend.

Variable B : Backend.

(** [_launch_tuning_job]: staging-bucket lookup, optional upload of the
    training data, display-name formatting and the pipeline submission,
    taken as one remote step. *)
Definition _launch_tuning_job {S}
    (training_data : training_data_t) (model_id tuning_pipeline_uri : string)
    (tuning_parameters : gmap string pyval)
    (model_display_name tuning_job_location : option string)
  : M S PipelineJob :=
  call (EvLaunchTuningJob model_id tuning_job_location)
       (pipeline_submit B training_data model_id tuning_pipeline_uri
          tuning_parameters model_display_name tuning_job_location).

(** [_TunableModelMixin.get_tuned_model] (class method): loads the
    specified tuned language model. *)
Definition cls_get_tuned_model {S} (cls : model_class) (tuned_model_name : string)
  : M S LanguageModel :=
  tuned_vertex_model <- call (EvModelGet tuned_model_name)
                             (Model_init B tuned_model_name);;
  let tuned_model_labels := labels tuned_vertex_model in
  match tuned_model_labels !! _TUNING_BASE_MODEL_ID_LABEL_KEY with
  | None =>
      raise_ ValueError
        ("The provided model " ++ tuned_model_name
           ++ " does not have a base model ID.")
  | Some tuning_model_id =>
      let tuned_model_deployments := deployed_models tuned_vertex_model in
      endpoint_name <-
        match tuned_model_deployments with
        | [] =>
            (* Deploying the model *)
            call (EvModelDeploy (resource_name tuned_vertex_model))
                 (Model_deploy B tuned_vertex_model)
        | d :: _ => ret d
        end;;
      let base_model_id := _get_model_id_from_tuning_model_id tuning_model_id in
      model_info <- call (EvGetModelInfo base_model_id)
                         (_get_model_info B base_model_id cls);;
      lift (_validate_launch_stage B cls (publisher_model_resource model_info));;
      ret {| model_cls := interface_class model_info;
             _model_id := base_model_id;
             _endpoint_name := endpoint_name |}
  end.

(** [_TunableModelMixin._tune_model] *)
Definition _tune_model {S} (self : LanguageModel)
    (training_data : training_data_t)
    (tuning_parameters : gmap string pyval)
    (tuning_job_location tuned_model_location model_display_name : option string)
  : M S TuningJob :=
  if negb (match tuning_job_location with
           | Some l => bool_decide (l ∈ _TUNING_LOCATIONS)
           | None => false
           end)
  then
    raise_ ValueError
      ("Please specify the tuning job location (`tuning_job_location`)."
         ++ "Tuning is supported in the following locations: "
         ++ _TUNING_LOCATIONS_repr)
  else if negb (bool_decide (tuned_model_location = Some _TUNED_MODEL_LOCATION))
  then
    raise_ ValueError
      ("Model deployment is only supported in the following locations: "
         ++ "tuned_model_location=" ++ dquote ++ _TUNED_MODEL_LOCATION ++ dquote)
  else
    model_info <- call (EvGetModelInfo (_model_id self))
                       (_get_model_info B (_model_id self) (model_cls self));;
    match tuning_pipeline_uri model_info with
    | None | Some EmptyString =>
        raise_ RuntimeError
          ("The " ++ _model_id self ++ " model does not support tuning")
    | Some uri =>
        pipeline_job <- _launch_tuning_job training_data
                          (tuning_model_id model_info) uri tuning_parameters
                          model_display_name tuning_job_location;;
        ret (TuningJob_init self pipeline_job)
    end.

(** The arguments of [_TunableModelMixin.tune_model]. *)
Record tune_args : Type := {
  training_data : training_data_t;
  train_steps : option pyval;
  learning_rate : option pyval;
  learning_rate_multiplier : option pyval;
  tuning_job_location : option string;
  tuned_model_location : option string;
  model_display_name : option string;
  tuning_evaluation_spec : option TuningEvaluationSpec;
  default_context : option string
}.

Definition set_opt (k : string) (v : option pyval) (d : gmap string pyval)
  : gmap string pyval :=
  match v with
  | Some x => <[k := x]> d
  | None => d
  end.

(** [_TunableModelMixin.tune_model] *)
Definition tune_model {S} (self : LanguageModel) (a : tune_args) : M S TuningJob :=
  let tuning_parameters : gmap string pyval := ∅ in
  let tuning_parameters := set_opt "train_steps" (train_steps a) tuning_parameters in
  tuning_parameters <-
    match learning_rate a with
    | Some v =>
        emit (EvLog "warning"
                ("The learning_rate parameter is deprecated."
                   ++ "Use the learning_rate_multiplier parameter instead."));;
        ret (<["learning_rate" := v]> tuning_parameters)
    | None => ret tuning_parameters
    end;;
  let tuning_parameters :=
    set_opt "learning_rate_multiplier" (learning_rate_multiplier a)
      tuning_parameters in
  tuning_parameters <-
    match tuning_evaluation_spec a with
    | None => ret tuning_parameters
    | Some eval_spec =>
        tuning_parameters <-
          match evaluation_data eval_spec with
          | PyStr uri =>
              if startswith uri "gs://"
              then ret (<["evaluation_data_uri" := PyStr uri]> tuning_parameters)
              else raise_ ValueError "evaluation_data should be a GCS URI"
          | _ => raise_ TypeError "evaluation_data should be a URI string"
          end;;
        let tuning_parameters :=
          set_opt "evaluation_interval" (evaluation_interval eval_spec)
            tuning_parameters in
        let tuning_parameters :=
          set_opt "enable_early_stopping" (enable_early_stopping eval_spec)
            tuning_parameters in
        match tensorboard eval_spec with
        | None => ret tuning_parameters
        | Some (TbObject location tb_name) =>
            if negb (bool_decide (Some location = tuning_job_location a))
            then raise_ ValueError
                   "The Tensorboard must be in the same location as the tuning job."
            else ret (<["tensorboard_resource_id" := PyStr tb_name]>
                        tuning_parameters)
        | Some (TbStr uri) =>
            let resource_name_parts := Tensorboard_parse_resource_name B uri in
            match resource_name_parts !! "location" with
            | None => raise (Exc KeyError ["location"] None)
            | Some location =>
                if negb (bool_decide (Some location = tuning_job_location a))
                then raise_ ValueError
                       "The Tensorboard must be in the same location as the tuning job."
                else ret (<["tensorboard_resource_id" := PyStr uri]>
                            tuning_parameters)
            end
        | Some TbOther => raise_ TypeError "tensorboard should be a URI string"
        end
    end;;
  let tuning_parameters :=
    match default_context a with
    | Some ctx =>
        if negb (String.eqb ctx "")
        then <["default_context" := PyStr ctx]> tuning_parameters
        else tuning_parameters
    | None => tuning_parameters
    end in
  _tune_model self (training_data a) tuning_parameters
    (tuning_job_location a) (tuned_model_location a) (model_display_name a).

(** The tasks of a job resource whose execution is a root run. *)
Definition root_pipeline_tasks (g : GcaPipelineJob) : list PipelineTaskDetail :=
  filter (fun task_detail =>
            schema_title (execution task_detail) = "system.Run")
         (task_details g).

(** [_LanguageModelTuningJob.get_tuned_model]: blocks until the tuning is
    complete and returns a [LanguageModel] object.  An object is truthy, so
    [if self._model] is the test for a cached model. *)
Definition get_tuned_model : M TuningJob LanguageModel :=
  self <- get_self;;
  match _model self with
  | Some m => ret m
  | None =>
      g <- call (EvJobWait (name (_job self))) (job_wait B (name (_job self)));;
      let job := {| name := name (_job self); gca_resource := g |} in
      put_self {| _base_model := _base_model self; _job := job; _model := None |};;
      let tasks := root_pipeline_tasks (gca_resource job) in
      if negb (Nat.eqb (List.length tasks) 1)
      then raise_ RuntimeError
             ("Failed to get the model name from the tuning pipeline: " ++ name job)
      else
        match tasks with
        | [] => raise_ IndexError "list index out of range"
        | root_pipeline_task :: _ =>
            (* Trying to get model name from output parameter *)
            match metadata (execution root_pipeline_task)
                    !! "output:model_resource_name" with
            | None => raise (Exc KeyError ["output:model_resource_name"] None)
            | Some (PyStr s) =>
                let vertex_model_name := strip s in
                emit (EvLog "info"
                        ("Tuning has completed. Created Vertex Model: "
                           ++ vertex_model_name));;
                m <- cls_get_tuned_model (model_cls (_base_model self))
                       vertex_model_name;;
                put_self {| _base_model := _base_model self; _job := job;
                            _model := Some m |};;
                ret m
            | Some _ => raise_ AttributeError "object has no attribute 'strip'"
            end
        end
  end.

(** [_LanguageModelTuningJob._status] *)
Definition _status (self : TuningJob) : PipelineState :=
  state (gca_resource (_job self)).

(** [_LanguageModelTuningJob._cancel] *)
Definition _cancel : M TuningJob unit :=
  self <- get_self;;
  call (EvJobCancel (name (_job self))) (job_cancel B (name (_job self))).







End WithBackend.

(** *** Handles and traces *)

(** The message of the [RuntimeError] raised for a malformed graph. *)
Definition integrity_error (job_name : string) : exn :=
  Exc RuntimeError
      ["Failed to get the model name from the tuning pipeline: " ++ job_name]
      None.

(** The handles a caller can hold for the job [job] of the model [base]:
    the one the constructor builds, and those left by calls of the
    handle's methods. *)
Inductive reachable (B : Backend) (base : LanguageModel) (job : PipelineJob)
  : TuningJob -> Prop :=
| reachable_init : reachable B base job (TuningJob_init base job)
| reachable_get_tuned_model h :
    reachable B base job h ->
    reachable B base job (state_of (get_tuned_model B h))
| reachable_cancel h :
    reachable B base job h ->
    reachable B base job (state_of (_cancel B h)).

(** The job resource a handle holds after a successful wait. *)
Definition synced (h : TuningJob) (g : GcaPipelineJob) : TuningJob :=
  {| _base_model := _base_model h;
     _job := {| name := name (_job h); gca_resource := g |};
     _model := None |}.

Definition resolved (h : TuningJob) (g : GcaPipelineJob) (m : LanguageModel)
  : TuningJob :=
  {| _base_model := _base_model h;
     _job := {| name := name (_job h); gca_resource := g |};
     _model := Some m |}.

(** The number of remote poll sequences in a trace. *)
Definition poll_count (tr : list event) : nat :=
  List.length (List.filter (fun ev => match ev with EvJobWait _ => true | _ => false end) tr).

Definition completion_log (vertex_model_name : string) : event :=
  EvLog "info" ("Tuning has completed. Created Vertex Model: " ++ vertex_model_name).

(** The key under which the root run carries the name of the tuned model. *)
Definition output_key : string := "output:model_resource_name".

(** What holds of every handle a caller can hold: it is a handle on that
    job of that model, and a cached model is the one the loader gave for
    the stripped output parameter of the single root of the job's graph. *)
Definition handle_inv (B : Backend) (base : LanguageModel) (job : PipelineJob)
    (h : TuningJob) : Prop :=
  name (_job h) = name job /\ _base_model h = base /\
  forall m, _model h = Some m ->
    exists g root N,
      job_wait B (name job) = Returns g
      /\ root_pipeline_tasks g = [root]
      /\ metadata (execution root) !! output_key = Some (PyStr N)
      /\ outcome_of (cls_get_tuned_model B (model_cls base) (strip N) tt)
         = Returns m.

Definition is_model_get (ev : event) : bool :=
  match ev with
  | EvModelGet _ => true
  | _ => false
  end.

(** A graph with every output parameter of every record deleted. *)
Definition erase_outputs (g : GcaPipelineJob) : GcaPipelineJob :=
  {| state := state g;
     task_details :=
       map (fun td =>
              {| execution :=
                   {| schema_title := schema_title (execution td);
                      metadata := ∅ |} |})
           (task_details g) |}.

(** *** Region validation *)

(** The error of the first check of [_tune_model]. *)
Definition location_error : exn :=
  Exc ValueError
      ["Please specify the tuning job location (`tuning_job_location`)."
         ++ "Tuning is supported in the following locations: "
         ++ _TUNING_LOCATIONS_repr]
      None.

(** The error of the second check of [_tune_model]. *)
Definition deployment_error : exn :=
  Exc ValueError
      ["Model deployment is only supported in the following locations: "
         ++ "tuned_model_location=" ++ dquote ++ _TUNED_MODEL_LOCATION ++ dquote]
      None.

(** A submission names an unsupported region: the job is to run outside
    the two allowed regions, or the tuned model is to be deployed outside
    the single allowed one. *)
Definition unsupported_region (tuning_job_location tuned_model_location : option string)
  : Prop :=
  (tuning_job_location <> Some "europe-west4"
   /\ tuning_job_location <> Some "us-central1")
  \/ tuned_model_location <> Some "us-central1".

(** The error a submission with an unsupported region fails with: the
    job location is checked first. *)
Definition region_error (tuning_job_location : option string) : exn :=
  if bool_decide (tuning_job_location = Some "europe-west4")
     || bool_decide (tuning_job_location = Some "us-central1")
  then deployment_error
  else location_error.



(** The same submission with an evaluation spec whose data is a number. *)
Definition ex_args_bad_spec (job_location model_location : option string)
  : tune_args :=
  {| training_data := TrainingUri "gs://bucket/train.jsonl";
     train_steps := Some (PyInt 100);
     learning_rate := Some (PyFloat 1 (-3));
     learning_rate_multiplier := None;
     tuning_job_location := job_location;
     tuned_model_location := model_location;
     model_display_name := None;
     tuning_evaluation_spec :=
       Some {| evaluation_data := PyInt 42;
               evaluation_interval := None;
               enable_early_stopping := None;
               tensorboard := None |};
     default_context := None |}.

Definition deprecation_warning : event :=
  EvLog "warning"
        ("The learning_rate parameter is deprecated."
           ++ "Use the learning_rate_multiplier parameter instead.").


Definition ex_args (job_location model_location : option string) : tune_args :=
  {| training_data := TrainingUri "gs://bucket/train.jsonl";
     train_steps := Some (PyInt 100);
     learning_rate := Some (PyFloat 1 (-3));
     learning_rate_multiplier := None;
     tuning_job_location := job_location;
     tuned_model_location := model_location;
     model_display_name := None;
     tuning_evaluation_spec := None;
     default_context := None |}.

(** *** Sample data *)

Definition ex_class : model_class :=
  {| class_name := "TextGenerationModel";
     _INSTANCE_SCHEMA_URI :=
       "gs://google-cloud-aiplatform/schema/predict/instance/text_generation_1.0.0.yaml" |}.

Definition ex_base : LanguageModel :=
  {| model_cls := ex_class;
     _model_id := "text-bison@001";
     _endpoint_name := "publishers/google/models/text-bison@001" |}.

Definition ex_job : PipelineJob :=
  {| name := "projects/p/locations/europe-west4/pipelineJobs/tune-1";
     gca_resource := {| state := PIPELINE_STATE_PENDING; task_details := [] |} |}.

Definition ex_root (N : string) : PipelineTaskDetail :=
  {| execution := {| schema_title := "system.Run";
                     metadata := {[ output_key := PyStr N ]} |} |}.

Definition ex_task : PipelineTaskDetail :=
  {| execution := {| schema_title := "system.ContainerExecution";
                     metadata := ∅ |} |}.

Definition ex_endpoint : string := "projects/p/locations/us-central1/endpoints/e".

(** A backend whose job succeeded with the graph [details] and whose
    registry knows every name, as a deployed tuning of text-bison-001. *)
Definition ex_backend (details : list PipelineTaskDetail) : Backend :=
  {| job_wait := fun _ =>
       Returns {| state := PIPELINE_STATE_SUCCEEDED; task_details := details |};
     job_cancel := fun _ => Returns tt;
     Model_init := fun n =>
       Returns {| resource_name := n;
                  labels := {[ _TUNING_BASE_MODEL_ID_LABEL_KEY := "text-bison-001" ]};
                  deployed_models := [ex_endpoint] |};
     Model_deploy := fun _ => Returns ex_endpoint;
     _get_model_info := fun id cls =>
       Returns {| tuning_pipeline_uri := Some "https://pipelines/tune-large-model";
                  tuning_model_id := "text-bison-001";
                  publisher_model_resource := id;
                  interface_class := cls |};
     _validate_launch_stage := fun _ _ => Returns tt;
     Tensorboard_parse_resource_name := fun _ => ∅;
     pipeline_submit := fun _ _ _ _ _ _ => Returns ex_job |}.

Definition ex_tuned : LanguageModel :=
  {| model_cls := ex_class;
     _model_id := "publishers/google/models/text-bison@001";
     _endpoint_name := ex_endpoint |}.

End Tuning.

(** ** Subscripting and iterating Python values *)

(** [l[i]] on a sequence of length [n]: the position a Python index
    denotes, if it is in range. *)
Definition py_index (n : nat) (i : Z) : option nat :=
  let j := if i <? 0 then i + Z.of_nat n else i in
  if (0 <=? j) && (j <? Z.of_nat n) then Some (Z.to_nat j) else None.

(** [l[i]] on a list *)
Definition list_getitem {A} (l : list A) (i : Z) : outcome A :=
  match py_index (List.length l) i with
  | Some j =>
      match l !! j with
      | Some x => Returns x
      | None => Raises (Exc IndexError ["list index out of range"] None)
      end
  | None => Raises (Exc IndexError ["list index out of range"] None)
  end.

(** [v[k]] with a string key *)
Definition py_getitem_key (v : pyval) (k : string) : outcome pyval :=
  match v with
  | PyDict d =>
      match dict_lookup k d with
      | Some x => Returns x
      | None => Raises (Exc KeyError [k] None)
      end
  | PyList _ => Raises (Exc TypeError ["list indices must be integers or slices, not str"] None)
  | PyStr _ => Raises (Exc TypeError ["string indices must be integers"] None)
  | _ => Raises (Exc TypeError ["object is not subscriptable"] None)
  end.

(** [v[i]] with an integer index.  A dict decoded from JSON has string
    keys only, so an integer key is never found. *)
Definition py_getitem_idx (v : pyval) (i : Z) : outcome pyval :=
  match v with
  | PyList l => list_getitem l i
  | PyStr s =>
      match py_index (String.length s) i with
      | Some j =>
          match String.get j s with
          | Some c => Returns (PyStr (String c EmptyString))
          | None => Raises (Exc IndexError ["string index out of range"] None)
          end
      | None => Raises (Exc IndexError ["string index out of range"] None)
      end
  | PyDict _ => Raises (Exc KeyError ["<int>"] None)
  | _ => Raises (Exc TypeError ["object is not subscriptable"] None)
  end.

(** [d.get(k, default)] on the items of a dict *)
Definition dict_get (k : string) (d : list (string * pyval)) (default : pyval)
  : pyval :=
  match dict_lookup k d with
  | Some x => x
  | None => default
  end.

(** [v.get(k, default)] *)
Definition py_get (v : pyval) (k : string) (default : pyval) : outcome pyval :=
  match v with
  | PyDict d => Returns (dict_get k d default)
  | _ => Raises (Exc AttributeError ["object has no attribute 'get'"] None)
  end.

(** The characters of a string, each as a string. *)
Fixpoint chars (s : string) : list pyval :=
  match s with
  | EmptyString => []
  | String c s' => PyStr (String c EmptyString) :: chars s'
  end.

(** [iter(v)], run to the end: a list gives its items, a string its
    characters, a dict its keys. *)
Definition py_iter (v : pyval) : outcome (list pyval) :=
  match v with
  | PyList l => Returns l
  | PyStr s => Returns (chars s)
  | PyDict d => Returns (map (fun kv => PyStr kv.1) d)
  | _ => Raises (Exc TypeError ["object is not iterable"] None)
  end.

(** [hash(v)] is defined *)
Definition hashable (v : pyval) : bool :=
  match v with
  | PyList _ | PyDict _ => false
  | _ => true
  end.

(** [zip(a, b)] on two sequences *)
Fixpoint zip_lists (a b : list pyval) : list (pyval * pyval) :=
  match a, b with
  | x :: a', y :: b' => (x, y) :: zip_lists a' b'
  | _, _ => []
  end.

(** [dict(zip(a, b))]: the items handed to [dict], in order; [dict] keeps
    the last value of a repeated key.  Raises on an unhashable key. *)
Definition dict_of_zip (a b : pyval) : outcome (list (pyval * pyval)) :=
  match py_iter a with
  | Raises e => Raises e
  | Returns la =>
      match py_iter b with
      | Raises e => Raises e
      | Returns lb =>
          let items := zip_lists la lb in
          if forallb (fun kv => hashable kv.1) items
          then Returns items
          else Raises (Exc TypeError ["unhashable type"] None)
      end
  end.

Definition obind {A B} (o : outcome A) (f : A -> outcome B) : outcome B :=
  match o with
  | Returns a => f a
  | Raises e => Raises e
  end.

Notation "x <-? c1 ;; c2" := (obind c1 (fun x => c2))
  (at level 100, c1 at next level, right associativity) : py_scope.

(** ** Chat sessions *)

Module Chat.

Record InputOutputTextPair : Type := {
  input_text : string;
  output_text : string
}.

(** A chat message.  [content] is whatever the parser took from the
    response, which may be [None]. *)
Record ChatMessage : Type := {
  content : pyval;
  author : string
}.

(** [aiplatform.models.Prediction], the field this file reads. *)
Record Prediction : Type := {
  predictions : list pyval;
  deployed_model_id : string
}.

Record TextGenerationResponse : Type := {
  text : pyval;
  _prediction_response : Prediction;
  is_blocked : pyval;
  safety_attributes : list (pyval * pyval)
}.

Record _PredictionRequest : Type := {
  instance : pyval;
  parameters : pyval
}.

Definition USER_AUTHOR : string := "user".
Definition MODEL_AUTHOR : string := "bot".

(** [_ChatSessionBase].  [_endpoint_name] stands for [self._model], of
    which only the endpoint is used. *)
Record ChatSession : Type := {
  _endpoint_name : string;
  _context : pyval;
  _examples : option (list InputOutputTextPair);
  _max_output_tokens : pyval;
  _temperature : pyval;
  _top_k : pyval;
  _top_p : pyval;
  _message_history : list ChatMessage;
  _stop_sequences : pyval
}.

(** [_ChatSessionBase.__init__]; [message_history or []].  A non-empty
    list given by the caller is the session's history from then on; what
    the caller does to that list afterwards is outside the session. *)
Definition ChatSession_init (endpoint_name : string) (context : pyval)
    (examples : option (list InputOutputTextPair))
    (max_output_tokens temperature top_k top_p : pyval)
    (message_history : option (list ChatMessage)) (stop_sequences : pyval)
  : ChatSession :=
  {| _endpoint_name := endpoint_name;
     _context := context;
     _examples := examples;
     _max_output_tokens := max_output_tokens;
     _temperature := temperature;
     _top_k := top_k;
     _top_p := top_p;
     _message_history := match message_history with
                         | Some (m :: l) => m :: l
                         | _ => []
                         end;
     _stop_sequences := stop_sequences |}.

(** The [message_history] property. *)
Definition message_history (self : ChatSession) : list ChatMessage :=
  _message_history self.

(** The optional generation arguments of [send_message]. *)
Record send_args : Type := {
  max_output_tokens : pyval;
  temperature : pyval;
  top_k : pyval;
  top_p : pyval;
  stop_sequences : pyval
}.

Definition set_if_truthy (k : string) (v : pyval) (d : list (string * pyval))
  : list (string * pyval) :=
  if truthy v then dict_set k v d else d.

(** [_ChatSessionBase._prepare_request] *)
Definition _prepare_request (self : ChatSession) (message : string) (a : send_args)
  : _PredictionRequest :=
  let prediction_parameters : list (string * pyval) := [] in
  let max_output_tokens := py_or (max_output_tokens a) (_max_output_tokens self) in
  let prediction_parameters :=
    set_if_truthy "maxDecodeSteps" max_output_tokens prediction_parameters in
  let temperature :=
    match temperature a with
    | PyNone => _temperature self
    | t => t
    end in
  let prediction_parameters :=
    match temperature with
    | PyNone => prediction_parameters
    | t => dict_set "temperature" t prediction_parameters
    end in
  let top_p := py_or (top_p a) (_top_p self) in
  let prediction_parameters := set_if_truthy "topP" top_p prediction_parameters in
  let top_k := py_or (top_k a) (_top_k self) in
  let prediction_parameters := set_if_truthy "topK" top_k prediction_parameters in
  let stop_sequences := py_or (stop_sequences a) (_stop_sequences self) in
  let prediction_parameters :=
    set_if_truthy "stopSequences" stop_sequences prediction_parameters in
  let message_structs :=
    (map (fun past_message =>
            PyDict [("author", PyStr (author past_message));
                    ("content", content past_message)])
         (_message_history self)
     ++ [PyDict [("author", PyStr USER_AUTHOR); ("content", PyStr message)]])%list in
  let prediction_instance := [("messages", PyList message_structs)] in
  let prediction_instance :=
    if truthy (_context self)
    then dict_set "context" (_context self) prediction_instance
    else prediction_instance in
  let prediction_instance :=
    match _examples self with
    | Some (ex :: exs) =>
        dict_set "examples"
          (PyList (map (fun example =>
                          PyDict [("input", PyDict [("content", PyStr (input_text example))]);
                                  ("output", PyDict [("content", PyStr (output_text example))])])
                       (ex :: exs)))
          prediction_instance
    | _ => prediction_instance
    end in
  {| instance := PyDict prediction_instance;
     parameters := PyDict prediction_parameters |}.

(** [_ChatSessionBase._parse_chat_prediction_response] *)
Definition _parse_chat_prediction_response
    (prediction_response : Prediction) (prediction_idx candidate_idx : Z)
  : outcome TextGenerationResponse :=
  prediction <-? list_getitem (predictions prediction_response) prediction_idx;;
  (* ! Note: For chat models, the safetyAttributes is a list. *)
  attrs <-? py_getitem_key prediction "safetyAttributes";;
  safety_attributes <-? py_getitem_idx attrs candidate_idx;;
  candidates <-? py_get prediction "candidates" PyNone;;
  text <-? (if truthy candidates
            then (candidates <-? py_getitem_key prediction "candidates";;
                  candidate <-? py_getitem_idx candidates candidate_idx;;
                  py_getitem_key candidate "content")
            else Returns PyNone);;
  blocked <-? py_get safety_attributes "blocked" (PyBool false);;
  categories <-? py_get safety_attributes "categories" PyNone;;
  scores <-? py_get safety_attributes "scores" PyNone;;
  (* Unlike with normal prediction, in streaming prediction
     categories and scores can be None *)
  items <-? dict_of_zip (py_or categories (PyList [])) (py_or scores (PyList []));;
  Returns {| text := text;
             _prediction_response := prediction_response;
             is_blocked := blocked;
             safety_attributes := items |}.

(** The prediction service behind a chat model's endpoint. *)
Record Backend : Type := {
  (* Endpoint.predict(instances=[instance], parameters=parameters) *)
  endpoint_predict : string -> pyval -> pyval -> outcome Prediction;
  (* predict_stream_of_dicts_from_single_dict: the dicts the stream
     yields and, if the stream breaks, the error that ends it *)
  predict_stream : string -> pyval -> pyval -> list pyval * option exn
}.

Definition append_message (m : ChatMessage) : M ChatSession unit :=
  self <- get_self;;
  put_self {| _endpoint_name := _endpoint_name self;
              _context := _context self;
              _examples := _examples self;
              _max_output_tokens := _max_output_tokens self;
              _temperature := _temperature self;
              _top_k := _top_k self;
              _top_p := _top_p self;
              _message_history := (_message_history self ++ [m])%list;
              _stop_sequences := _stop_sequences self |}.

Section WithBackend.

Variable B : Backend.

(** [_ChatSessionBase.send_message] *)
Definition send_message (message : string) (a : send_args)
  : M ChatSession TextGenerationResponse :=
  self <- get_self;;
  let prediction_request := _prepare_request self message a in
  prediction_response <-
    call (EvEndpointPredict (_endpoint_name self)
            (instance prediction_request) (parameters prediction_request))
         (endpoint_predict B (_endpoint_name self)
            (instance prediction_request) (parameters prediction_request));;
  response_obj <- lift (_parse_chat_prediction_response prediction_response 0 0);;
  let response_text := text response_obj in
  append_message {| content := PyStr message; author := USER_AUTHOR |};;
  append_message {| content := response_text; author := MODEL_AUTHOR |};;
  ret response_obj.

(** How far a generator got. *)
Inductive gen_status : Type :=
| GenSuspended               (* stopped at a [yield], waiting for [next] *)
| GenExhausted               (* ran to its end: [StopIteration] *)
| GenRaised (e : exn).

(** The loop of [send_message_streaming], resumed [pulls] times: what it
    yields and where it stops. *)
Fixpoint stream_loop (message : string) (items : list pyval) (err : option exn)
    (full_response_text : string) (pulls : nat) {struct pulls}
  : M ChatSession (list TextGenerationResponse * gen_status) :=
  match pulls with
  | O => ret ([], GenSuspended)
  | S pulls' =>
      match items with
      | [] =>
          match err with
          | Some e => ret ([], GenRaised e)
          | None =>
              (* We only add the question and answer to the history if/when
                 the answer was read fully. *)
              append_message {| content := PyStr message; author := USER_AUTHOR |};;
              append_message {| content := PyStr full_response_text;
                                author := MODEL_AUTHOR |};;
              ret ([], GenExhausted)
          end
      | prediction_dict :: rest =>
          match _parse_chat_prediction_response
                  {| predictions := [prediction_dict]; deployed_model_id := "" |}
                  0 0 with
          | Raises e => ret ([], GenRaised e)
          | Returns text_generation_response =>
              match text text_generation_response with
              | PyStr t =>
                  r <- stream_loop message rest err (full_response_text ++ t) pulls';;
                  ret (text_generation_response :: r.1, r.2)
              | _ =>
                  ret ([], GenRaised
                             (Exc TypeError ["can only concatenate str to str"] None))
              end
          end
      end
  end.

(** [_ChatSessionBase.send_message_streaming], driven by [pulls] calls of
    [next]: a generator runs nothing before the first one.  The streaming
    call has no [stop_sequences] argument. *)
Definition send_message_streaming (message : string) (a : send_args) (pulls : nat)
  : M ChatSession (list TextGenerationResponse * gen_status) :=
  match pulls with
  | O => ret ([], GenSuspended)
  | S _ =>
      self <- get_self;;
      let prediction_request :=
        _prepare_request self message
          {| max_output_tokens := max_output_tokens a;
             temperature := temperature a;
             top_k := top_k a;
             top_p := top_p a;
             stop_sequences := PyNone |} in
      let stream := predict_stream B (_endpoint_name self)
                      (instance prediction_request) (parameters prediction_request) in
      emit (EvPredictStream (_endpoint_name self)
              (instance prediction_request) (parameters prediction_request));;
      stream_loop message stream.1 stream.2 "" pulls
  end.

(** [CodeChatSession.send_message]: only two generation arguments. *)
Definition CodeChat_send_message (message : string)
    (max_output_tokens temperature : pyval)
  : M ChatSession TextGenerationResponse :=
  send_message message
    {| max_output_tokens := max_output_tokens; temperature := temperature;
       top_k := PyNone; top_p := PyNone; stop_sequences := PyNone |}.

(** [CodeChatSession.send_message_streaming] *)
Definition CodeChat_send_message_streaming (message : string)
    (max_output_tokens temperature : pyval) (pulls : nat)
  : M ChatSession (list TextGenerationResponse * gen_status) :=
  send_message_streaming message
    {| max_output_tokens := max_output_tokens; temperature := temperature;
       top_k := PyNone; top_p := PyNone; stop_sequences := PyNone |}
    pulls.

(** The operations a caller can perform on a session. *)
Inductive session_op : Type :=
| OpMessageHistory
| OpPrepareRequest (message : string) (a : send_args)
| OpSendMessage (message : string) (a : send_args)
| OpSendMessageStreaming (message : string) (a : send_args) (pulls : nat).

(** The session after one operation, whatever the operation's outcome. *)
Definition run_op (op : session_op) (self : ChatSession) : ChatSession :=
  match op with
  | OpMessageHistory => self
  | OpPrepareRequest _ _ => self
  | OpSendMessage message a => state_of (send_message message a self)
  | OpSendMessageStreaming message a pulls =>
      state_of (send_message_streaming message a pulls self)
  end.

Definition run_ops (ops : list session_op) (self : ChatSession) : ChatSession :=
  fold_left (fun s op => run_op op s) ops self.

End WithBackend.

(** *** Predictions with and without candidates *)



(** *** Sample data *)

Definition ex_safety : pyval :=
  PyList [PyDict [("blocked", PyBool false);
                  ("categories", PyList [PyStr "Derogatory"]);
                  ("scores", PyList [PyFloat 1 (-3)])]].

Definition ex_prediction : pyval :=
  PyDict [("candidates", PyList [PyDict [("author", PyStr "1");
                                         ("content", PyStr "Hello!")]]);
          ("safetyAttributes", ex_safety)].

(** A blocked answer: no candidates, only safety attributes. *)
Definition ex_blocked_prediction : pyval :=
  PyDict [("safetyAttributes",
           PyList [PyDict [("blocked", PyBool true)]])].

Definition ex_chat_backend (answer : pyval) : Backend :=
  {| endpoint_predict := fun _ _ _ =>
       Returns {| predictions := [answer]; deployed_model_id := "1" |};
     predict_stream := fun _ _ _ => ([answer; answer], None) |}.

Definition ex_history : list ChatMessage :=
  [{| content := PyStr "Hi"; author := "user" |};
   {| content := PyStr "Hello!"; author := "bot" |}].

Definition ex_session : ChatSession :=
  ChatSession_init "projects/p/locations/us-central1/endpoints/chat"
    (PyStr "You are a helpful assistant.") None (PyInt 128) PyNone PyNone PyNone
    (Some ex_history) PyNone.

Definition no_args : send_args :=
  {| max_output_tokens := PyNone; temperature := PyNone; top_k := PyNone;
     top_p := PyNone; stop_sequences := PyNone |}.

End Chat.

(** ** The persistent-resource reconciler *)

Module Reconciler.

(** Modelled from the spec: the states of a persistent resource, whose
    declaration is in a library outside the sources. *)
Inductive ResourceState : Type :=
| PROVISIONING
| RUNNING
| ERROR
| STOPPING
| STOPPED.

Global Instance ResourceState_eq_dec : EqDecision ResourceState.
Proof. solve_decision. Defined.

Record ResourcePool : Type := {
  machine_type : string;
  replica_count : Z;
  boot_disk_type : string;
  boot_disk_size_gb : Z
}.

Record PersistentResource : Type := {
  state : ResourceState;
  resource_pools : list ResourcePool
}.

(** The pool of [_TEST_REQUEST_RUNNING_DEFAULT] in the unit test: the
    shape every created resource is expected to have. *)
Definition resource_pool : ResourcePool :=
  {| machine_type := "n1-standard-4";
     replica_count := 1;
     boot_disk_type := "pd-ssd";
     boot_disk_size_gb := 100 |}.

Definition _TEST_REQUEST_RUNNING_DEFAULT : list ResourcePool := [resource_pool].

Definition pool_tuple (p : ResourcePool) : string * Z * string * Z :=
  (machine_type p, replica_count p, boot_disk_type p, boot_disk_size_gb p).

(** The cluster-management service. *)
Record Backend : Type := {
  (* PersistentResourceServiceClient.get_persistent_resource *)
  get_persistent_resource : string -> outcome PersistentResource;
  (* PersistentResourceServiceClient.create_persistent_resource *)
  create_persistent_resource_rpc : string -> list ResourcePool -> outcome unit
}.

(** The error the unit test expects for a resource that exists and is not
    running: a [ValueError] whose args are these three strings. *)
Definition PreconditionError (cluster_resource_name : string) : exn :=
  Exc ValueError
      ["The existing cluster `"; cluster_resource_name;
       "` isn't running, please specify a different cluster_name."]
      None.

(** The error the unit test expects for a failed creation: a [ValueError]
    chained to its cause. *)
Definition ProvisioningError (cause : exn) : exn :=
  Exc ValueError ["Failed in cluster creation due to: "] (Some cause).

(** [try: m except Exception as e: handler(e)] *)
Definition try_except {S A} (m : M S A) (handler : exn -> M S A) : M S A :=
  fun s =>
    match m s with
    | (t, s', Raises e) =>
        let '(t', s'', r) := handler e s' in ((t ++ t')%list, s'', r)
    | r => r
    end.

Section WithBackend.

Variable B : Backend.

(** Modelled from the spec: [persistent_resource_util.check_persistent_resource]
    is missing from the sources (only its unit test is there).  Steps 1, 2,
    3 and 5 of the contract of [ensure]: query the remote state; found and
    RUNNING is a success; found in any other state fails with
    [PreconditionError]; a not-found condition means the resource is
    absent; any other error of the lookup propagates unchanged. *)
Definition check_persistent_resource {S} (cluster_resource_name : string)
  : M S bool :=
  response <-
    try_except
      (r <- call (EvGetPersistentResource cluster_resource_name)
                 (get_persistent_resource B cluster_resource_name);;
       ret (Some r))
      (fun e => if bool_decide (exn_cls e = NotFound) then ret None else raise e);;
  match response with
  | None => ret false
  | Some r =>
      if bool_decide (state r = RUNNING)
      then ret true
      else raise (PreconditionError cluster_resource_name)
  end.

(** Modelled from the spec: [persistent_resource_util.create_persistent_resource]
    is missing from the sources (only its unit test is there).  Step 4 of
    the contract of [ensure]: attempt creation with the fixed default
    shape; any failure during creation is wrapped and re-raised as
    [ProvisioningError] with the underlying cause attached. *)
Definition create_persistent_resource {S} (cluster_resource_name : string)
  : M S unit :=
  try_except
    (call (EvCreatePersistentResource cluster_resource_name
             (map pool_tuple _TEST_REQUEST_RUNNING_DEFAULT))
          (create_persistent_resource_rpc B cluster_resource_name
             _TEST_REQUEST_RUNNING_DEFAULT))
    (fun e => raise (ProvisioningError e)).

(** Modelled from the spec: the reconciliation [ensure(name)] of the
    missing [persistent_resource_util], steps 1 to 5 of its contract:
    check, and create when the resource is absent. *)
Definition ensure {S} (name : string) : M S unit :=
  found <- check_persistent_resource name;;
  if found then ret tt else create_persistent_resource name.

End WithBackend.

(** The creation calls of a trace. *)
Definition creation_calls (tr : list event) : list event :=
  List.filter (fun ev => match ev with
                         | EvCreatePersistentResource _ _ => true
                         | _ => false
                         end) tr.

(** *** The fixtures of the unit test *)

Definition _TEST_CLUSTER_RESOURCE_NAME : string :=
  "projects/test-project/locations/us-central1/persistentResources/test-cluster".

Definition _TEST_PERSISTENT_RESOURCE_ERROR : PersistentResource :=
  {| state := ERROR; resource_pools := [] |}.

Definition _TEST_PERSISTENT_RESOURCE_RUNNING : PersistentResource :=
  {| state := RUNNING; resource_pools := [] |}.

(** [side_effect = Exception] *)
Definition mock_exception : exn := Exc (OtherError "Exception") [] None.

Definition not_found (name : string) : exn :=
  Exc NotFound ["Persistent resource not found: " ++ name] None.

(** A client whose two calls are mocked by [get] and [create]. *)
Definition mock_client (get : outcome PersistentResource) (create : outcome unit)
  : Backend :=
  {| get_persistent_resource := fun _ => get;
     create_persistent_resource_rpc := fun _ _ => create |}.

End Reconciler.

(** ** URIs and model identifiers *)

Module Uri.

(** [s.lstrip(c)] for a single character [c] *)
Fixpoint lstrip_char (c : ascii) (s : string) : string :=
  match s with
  | EmptyString => EmptyString
  | String c' s' => if Ascii.eqb c' c then lstrip_char c s' else s
  end.

(** [s.rstrip(c)] for a single character [c] *)
Fixpoint rstrip_char (c : ascii) (s : string) : string :=
  match s with
  | EmptyString => EmptyString
  | String c' s' =>
      match rstrip_char c s' with
      | EmptyString => if Ascii.eqb c' c then EmptyString else String c' EmptyString
      | r => String c' r
      end
  end.

(** [_uri_join]: appends path fragment to URI. *)
Definition _uri_join (uri path_fragment : string) : string :=
  rstrip_char "/" uri ++ "/" ++ lstrip_char "/" path_fragment.

(** [n] copies of the character [c] *)
Fixpoint repeat_char (c : ascii) (n : nat) : string :=
  match n with
  | O => EmptyString
  | S n' => String c (repeat_char c n')
  end.

(** [s.replace(a, b)] for single characters [a] and [b] *)
Fixpoint replace_char (a b : ascii) (s : string) : string :=
  match s with
  | EmptyString => EmptyString
  | String c s' => String (if Ascii.eqb c a then b else c) (replace_char a b s')
  end.

(** The character [c] occurs in [s]. *)
Fixpoint has_char (c : ascii) (s : string) : bool :=
  match s with
  | EmptyString => false
  | String c' s' => Ascii.eqb c' c || has_char c s'
  end.

(** The label value under which [_list_tuned_model_names] looks for the
    tuned versions of a model: [model_id.replace("@", "-")]. *)
Definition tuning_label_of (model_id : string) : string :=
  replace_char "@" "-" model_id.

(** The filter [_list_tuned_model_names] hands to [aiplatform.Model.list]. *)
Definition tuned_models_filter (model_id : string) : string :=
  "labels." ++ Tuning._TUNING_BASE_MODEL_ID_LABEL_KEY ++ "=" ++ dquote
    ++ tuning_label_of model_id ++ dquote.

End Uri.

(** ** Text generation, code generation and embeddings *)

(** [for x in l: results.append(f(x))]: the first exception ends the loop. *)
Fixpoint for_each {A B} (f : A -> outcome B) (l : list A) : outcome (list B) :=
  match l with
  | [] => Returns []
  | x :: l' =>
      y <-? f x;;
      ys <-? for_each f l';;
      Returns (y :: ys)
  end.

Module TextGeneration.
Import Chat.

(** The endpoint of a model. *)
Record Endpoint : Type := {
  (* Endpoint.predict(instances=instances, parameters=parameters) *)
  predict_rpc : string -> list pyval -> pyval -> outcome Prediction;
  (* predict_stream_of_dicts_from_single_dict: the dicts the stream
     yields and, if the stream breaks, the error that ends it *)
  stream_rpc : string -> pyval -> pyval -> list pyval * option exn
}.

Definition _DEFAULT_MAX_OUTPUT_TOKENS : Z := 128.

(** The parameters [_TextGenerationModel._batch_predict] sends. *)
Definition batch_parameters (a : send_args) : list (string * pyval) :=
  let prediction_parameters : list (string * pyval) := [] in
  let prediction_parameters :=
    set_if_truthy "maxDecodeSteps" (max_output_tokens a) prediction_parameters in
  let prediction_parameters :=
    match temperature a with
    | PyNone => prediction_parameters
    | t => dict_set "temperature" t prediction_parameters
    end in
  let prediction_parameters := set_if_truthy "topP" (top_p a) prediction_parameters in
  let prediction_parameters := set_if_truthy "topK" (top_k a) prediction_parameters in
  set_if_truthy "stopSequences" (stop_sequences a) prediction_parameters.

(** The body of the loop of [_batch_predict]: the response built from one
    prediction. *)
Definition batch_response (prediction_response : Prediction) (prediction : pyval)
  : outcome TextGenerationResponse :=
  safety_attributes_dict <-? py_get prediction "safetyAttributes" (PyDict []);;
  text <-? py_getitem_key prediction "content";;
  blocked <-? py_get safety_attributes_dict "blocked" (PyBool false);;
  categories <-? py_get safety_attributes_dict "categories" (PyList []);;
  scores <-? py_get safety_attributes_dict "scores" (PyList []);;
  items <-? dict_of_zip categories scores;;
  Returns {| text := text;
             _prediction_response := prediction_response;
             is_blocked := blocked;
             safety_attributes := items |}.

(** The body of the loop of [_TextGenerationModel.predict_streaming]: the
    response built from one chunk of the stream. *)
Definition stream_response (prediction_dict : pyval) : outcome TextGenerationResponse :=
  safety_attributes_dict <-? py_get prediction_dict "safetyAttributes" (PyDict []);;
  text <-? py_getitem_key prediction_dict "content";;
  blocked <-? py_get safety_attributes_dict "blocked" (PyBool false);;
  categories <-? py_get safety_attributes_dict "categories" PyNone;;
  scores <-? py_get safety_attributes_dict "scores" PyNone;;
  items <-? dict_of_zip (py_or categories (PyList [])) (py_or scores (PyList []));;
  Returns {| text := text;
             _prediction_response :=
               {| predictions := [prediction_dict]; deployed_model_id := "" |};
             is_blocked := blocked;
             safety_attributes := items |}.

Section WithEndpoint.

Variable E : Endpoint.

(** [_TextGenerationModel._batch_predict] on the model whose endpoint is
    [endpoint_name]. *)
Definition _batch_predict {S} (endpoint_name : string) (prompts : list string)
    (a : send_args) : M S (list TextGenerationResponse) :=
  let instances := map (fun prompt => PyDict [("content", PyStr prompt)]) prompts in
  let prediction_parameters := PyDict (batch_parameters a) in
  prediction_response <-
    call (EvEndpointPredict endpoint_name (PyList instances) prediction_parameters)
         (predict_rpc E endpoint_name instances prediction_parameters);;
  lift (for_each (batch_response prediction_response)
                 (predictions prediction_response)).

(** [_TextGenerationModel.predict] *)
Definition predict {S} (endpoint_name : string) (prompt : string) (a : send_args)
  : M S TextGenerationResponse :=
  results <- _batch_predict endpoint_name [prompt] a;;
  lift (list_getitem results 0).

(** The loop of [predict_streaming], resumed [pulls] times. *)
Fixpoint text_stream_loop (items : list pyval) (err : option exn) (pulls : nat)
  {struct pulls} : list TextGenerationResponse * gen_status :=
  match pulls with
  | O => ([], GenSuspended)
  | S pulls' =>
      match items with
      | [] =>
          match err with
          | Some e => ([], GenRaised e)
          | None => ([], GenExhausted)
          end
      | prediction_dict :: rest =>
          match stream_response prediction_dict with
          | Raises e => ([], GenRaised e)
          | Returns r =>
              let rs := text_stream_loop rest err pulls' in
              (r :: rs.1, rs.2)
          end
      end
  end.

(** [_TextGenerationModel.predict_streaming], driven by [pulls] calls of
    [next].  The instance key is "prompt", not "content", and there are no
    stop sequences. *)
Definition predict_streaming {S} (endpoint_name : string) (prompt : string)
    (a : send_args) (pulls : nat)
  : M S (list TextGenerationResponse * gen_status) :=
  match pulls with
  | O => ret ([], GenSuspended)
  | S _ =>
      let instance := PyDict [("prompt", PyStr prompt)] in
      let prediction_parameters : list (string * pyval) := [] in
      let prediction_parameters :=
        set_if_truthy "maxDecodeSteps" (max_output_tokens a) prediction_parameters in
      let prediction_parameters :=
        match temperature a with
        | PyNone => prediction_parameters
        | t => dict_set "temperature" t prediction_parameters
        end in
      let prediction_parameters :=
        set_if_truthy "topP" (top_p a) prediction_parameters in
      let prediction_parameters :=
        set_if_truthy "topK" (top_k a) prediction_parameters in
      let stream := stream_rpc E endpoint_name instance (PyDict prediction_parameters) in
      emit (EvPredictStream endpoint_name instance (PyDict prediction_parameters));;
      ret (text_stream_loop stream.1 stream.2 pulls)
  end.

(** *** The session of [_ChatModel] *)

Definition newline : string := String (ascii_of_nat 10) EmptyString.

(** [_ChatSession]: the history as pairs and as one text. *)
Record _ChatSession : Type := {
  session_endpoint : string;                 (* self._model *)
  _history : list (string * pyval);
  _history_text : string;
  session_max_output_tokens : pyval;
  session_temperature : pyval;
  session_top_k : pyval;
  session_top_p : pyval
}.

(** [_ChatSession.__init__] *)
Definition _ChatSession_init (endpoint_name : string)
    (max_output_tokens temperature top_k top_p : pyval) : _ChatSession :=
  {| session_endpoint := endpoint_name;
     _history := [];
     _history_text := "";
     session_max_output_tokens := max_output_tokens;
     session_temperature := temperature;
     session_top_k := top_k;
     session_top_p := top_p |}.

(** [x if x is not None else y] *)
Definition if_not_none (x y : pyval) : pyval :=
  match x with
  | PyNone => y
  | _ => x
  end.

(** The prompt [_ChatSession.send_message] sends for [message]. *)
Definition chat_prompt (history_text message : string) : string :=
  let new_history_text :=
    if negb (String.eqb history_text "")
    then Uri.rstrip_char (ascii_of_nat 10) history_text ++ newline ++ newline
    else "" in
  new_history_text ++ Uri.rstrip_char (ascii_of_nat 10) message ++ newline.

(** [_ChatSession.send_message] *)
Definition send_message (message : string)
    (max_output_tokens temperature top_k top_p : pyval)
  : M _ChatSession TextGenerationResponse :=
  self <- get_self;;
  let new_history_text := chat_prompt (_history_text self) message in
  response_obj <-
    predict (session_endpoint self) new_history_text
      {| Chat.max_output_tokens :=
           if_not_none max_output_tokens (session_max_output_tokens self);
         Chat.temperature := if_not_none temperature (session_temperature self);
         Chat.top_k := if_not_none top_k (session_top_k self);
         Chat.top_p := if_not_none top_p (session_top_p self);
         Chat.stop_sequences := PyNone |};;
  let response_text := text response_obj in
  put_self {| session_endpoint := session_endpoint self;
              _history := (_history self ++ [(message, response_text)])%list;
              _history_text := _history_text self;
              session_max_output_tokens := session_max_output_tokens self;
              session_temperature := session_temperature self;
              session_top_k := session_top_k self;
              session_top_p := session_top_p self |};;
  match response_text with
  | PyStr t =>
      put_self {| session_endpoint := session_endpoint self;
                  _history := (_history self ++ [(message, response_text)])%list;
                  _history_text :=
                    new_history_text ++ Uri.rstrip_char (ascii_of_nat 10) t ++ newline;
                  session_max_output_tokens := session_max_output_tokens self;
                  session_temperature := session_temperature self;
                  session_top_k := session_top_k self;
                  session_top_p := session_top_p self |};;
      ret response_obj
  | _ => raise_ AttributeError "object has no attribute 'rstrip'"
  end.

(** A session after a sequence of messages, each sent with the session's
    own settings, whatever the outcome of each. *)
Definition send_all (messages : list string) (self : _ChatSession) : _ChatSession :=
  fold_left (fun s message =>
               state_of (send_message message PyNone PyNone PyNone PyNone s))
            messages self.

(** *** Code generation *)

(** [CodeGenerationModel._create_prediction_request] *)
Definition _create_prediction_request (prefix : string) (suffix : option string)
    (max_output_tokens temperature stop_sequences : pyval) : _PredictionRequest :=
  let instance := [("prefix", PyStr prefix)] in
  let instance :=
    match suffix with
    | Some s => if negb (String.eqb s "") then dict_set "suffix" (PyStr s) instance
                else instance
    | None => instance
    end in
  let prediction_parameters : list (string * pyval) := [] in
  let prediction_parameters :=
    match temperature with
    | PyNone => prediction_parameters
    | t => dict_set "temperature" t prediction_parameters
    end in
  let prediction_parameters :=
    set_if_truthy "maxOutputTokens" max_output_tokens prediction_parameters in
  let prediction_parameters :=
    set_if_truthy "stopSequences" stop_sequences prediction_parameters in
  {| instance := PyDict instance; parameters := PyDict prediction_parameters |}.

(** [CodeGenerationModel.predict] *)
Definition code_predict {S} (endpoint_name : string) (prefix : string)
    (suffix : option string) (max_output_tokens temperature stop_sequences : pyval)
  : M S TextGenerationResponse :=
  let prediction_request :=
    _create_prediction_request prefix suffix max_output_tokens temperature
      stop_sequences in
  prediction_response <-
    call (EvEndpointPredict endpoint_name
            (PyList [instance prediction_request]) (parameters prediction_request))
         (predict_rpc E endpoint_name [instance prediction_request]
            (parameters prediction_request));;
  prediction <- lift (list_getitem (predictions prediction_response) 0);;
  text <- lift (py_getitem_key prediction "content");;
  ret {| text := text;
         _prediction_response := prediction_response;
         is_blocked := PyBool false;
         safety_attributes := [] |}.

(** *** Embeddings *)

(** An element of the [texts] of [get_embeddings]: a string, a
    [TextEmbeddingInput], or some other object, of which only its [str] is
    used. *)
Inductive embedding_input : Type :=
| InputStr (text : string)
| TextEmbeddingInput (text : string) (task_type title : option string)
| InputOther (shown : string).

Record TextEmbeddingStatistics : Type := {
  token_count : pyval;
  truncated : pyval
}.

Record TextEmbedding : Type := {
  values : pyval;
  statistics : TextEmbeddingStatistics;
  embedding_response : Prediction           (* _prediction_response *)
}.

Definition set_if_given (k : string) (v : option string) (d : list (string * pyval))
  : list (string * pyval) :=
  match v with
  | Some s => if negb (String.eqb s "") then dict_set k (PyStr s) d else d
  | None => d
  end.

(** The body of the first loop of [get_embeddings]: the instance of one
    input. *)
Definition embedding_instance (input : embedding_input) : outcome pyval :=
  match input with
  | TextEmbeddingInput text task_type title =>
      let instance := [("content", PyStr text)] in
      let instance := set_if_given "taskType" task_type instance in
      let instance := set_if_given "title" title instance in
      Returns (PyDict instance)
  | InputStr text => Returns (PyDict [("content", PyStr text)])
  | InputOther shown =>
      Raises (Exc TypeError
                  ["Unsupported text embedding input type: " ++ shown ++ "."] None)
  end.

(** The body of the second loop of [get_embeddings]: the embedding of one
    prediction. *)
Definition embedding_result (prediction_response : Prediction) (prediction : pyval)
  : outcome TextEmbedding :=
  embeddings <-? py_getitem_key prediction "embeddings";;
  statistics <-? py_getitem_key embeddings "statistics";;
  values <-? py_getitem_key embeddings "values";;
  token_count <-? py_getitem_key statistics "token_count";;
  truncated <-? py_getitem_key statistics "truncated";;
  Returns {| values := values;
             statistics := {| token_count := token_count; truncated := truncated |};
             embedding_response := prediction_response |}.

(** [TextEmbeddingModel.get_embeddings] *)
Definition get_embeddings {S} (endpoint_name : string) (texts : list embedding_input)
    (auto_truncate : bool) : M S (list TextEmbedding) :=
  instances <- lift (for_each embedding_instance texts);;
  let parameters := PyDict [("autoTruncate", PyBool auto_truncate)] in
  prediction_response <-
    call (EvEndpointPredict endpoint_name (PyList instances) parameters)
         (predict_rpc E endpoint_name instances parameters);;
  lift (for_each (embedding_result prediction_response)
                 (predictions prediction_response)).

End WithEndpoint.

(** *** Sample data *)

(** An endpoint that answers every request with [answers]. *)
Definition ex_endpoint (answers : list pyval) : Endpoint :=
  {| predict_rpc := fun _ _ _ =>
       Returns {| predictions := answers; deployed_model_id := "1" |};
     stream_rpc := fun _ _ _ => (answers, None) |}.

Definition ex_text_prediction (content : string) : pyval :=
  PyDict [("content", PyStr content);
          ("safetyAttributes",
           PyDict [("blocked", PyBool false);
                   ("categories", PyList [PyStr "Health"]);
                   ("scores", PyList [PyFloat 1 (-1)])])].

(** A chunk whose categories and scores are null, as streams send them. *)
Definition ex_null_categories : pyval :=
  PyDict [("content", PyStr "partial");
          ("safetyAttributes",
           PyDict [("categories", PyNone); ("scores", PyNone)])].

Definition ex_embedding_prediction : pyval :=
  PyDict [("embeddings",
           PyDict [("values", PyList [PyFloat 1 (-2); PyFloat 3 (-2)]);
                   ("statistics",
                    PyDict [("token_count", PyInt 4); ("truncated", PyBool false)])])].

(** The text of an input of [get_embeddings]. *)
Definition input_text (input : embedding_input) : string :=
  match input with
  | InputStr text => text
  | TextEmbeddingInput text _ _ => text
  | InputOther shown => shown
  end.

(** A string ends in a newline. *)
Definition ends_with_newline (s : string) : Prop :=
  exists u, s = u ++ newline.

(** A prediction that reports blocked content. *)
Definition ex_blocked_code : pyval :=
  PyDict [("content", PyStr "");
          ("safetyAttributes", PyDict [("blocked", PyBool true)])].

End TextGeneration.

(** ** Computations without an object, over their own remote calls *)

Definition W (E A : Type) : Type := (list E * outcome A)%type.

Definition wret {E A} (a : A) : W E A := ([], Returns a).

Definition wbind {E A B} (m : W E A) (f : A -> W E B) : W E B :=
  match m with
  | (t, Returns a) => let '(t', r) := f a in ((t ++ t')%list, r)
  | (t, Raises e) => (t, Raises e)
  end.

Definition wraise {E A} (e : exn) : W E A := ([], Raises e).
Definition wcall {E A} (ev : E) (answer : outcome A) : W E A := ([ev], answer).
Definition wlift {E A} (answer : outcome A) : W E A := ([], answer).

Notation "x <-! c1 ;; c2" := (wbind c1 (fun x => c2))
  (at level 100, c1 at next level, right associativity) : py_scope.

(** ** More strings *)

(** [s[n:]] for [n >= 0] *)
Fixpoint drop_chars (n : nat) (s : string) : string :=
  match n, s with
  | O, _ => s
  | S n', String _ s' => drop_chars n' s'
  | S _, EmptyString => EmptyString
  end.

(** [s[:n]] for [n >= 0] *)
Fixpoint take_chars (n : nat) (s : string) : string :=
  match n, s with
  | O, _ => EmptyString
  | S n', String c s' => String c (take_chars n' s')
  | S _, EmptyString => EmptyString
  end.

(** [s[i:]] for any integer [i]: a negative [i] counts from the end. *)
Definition slice_from (i : Z) (s : string) : string :=
  if i <? 0
  then drop_chars (Z.to_nat (Z.max 0 (Z.of_nat (String.length s) + i))) s
  else drop_chars (Z.to_nat i) s.

(** [s.find(sub)]: the lowest index at which [sub] occurs in [s]. *)
Fixpoint find_sub (sub s : string) : option nat :=
  if String.prefix sub s then Some O
  else match s with
       | EmptyString => None
       | String _ s' => option_map S (find_sub sub s')
       end.

(** [sub in s] *)
Definition contains (sub s : string) : bool :=
  match find_sub sub s with
  | Some _ => true
  | None => false
  end.

(** ** Batch prediction *)

Module BatchPredict.

(** The [dataset] argument: one URI or a list of URIs. *)
Inductive dataset_t : Type :=
| DatasetUri (uri : string)
| DatasetList (uris : list string).

Definition dataset_value (d : dataset_t) : pyval :=
  match d with
  | DatasetUri uri => PyStr uri
  | DatasetList uris => PyList (map PyStr uris)
  end.

(** [bool(dataset)] for an optional dataset *)
Definition dataset_truthy (d : option dataset_t) : bool :=
  match d with
  | None => false
  | Some (DatasetUri uri) => negb (String.eqb uri "")
  | Some (DatasetList uris) => match uris with [] => false | _ => true end
  end.

Inductive batch_event : Type :=
| EvWarn (msg : string)                       (* warnings.warn: local *)
| EvListModels (endpoint_name : string)       (* Endpoint.list_models() *)
| EvBatchPredictionJobCreate (model_name : string)
    (arguments : list (string * pyval)) (model_parameters : option pyval).

Definition is_remote (ev : batch_event) : bool :=
  match ev with
  | EvWarn _ => false
  | _ => true
  end.

(** The batch prediction service and the endpoint of the model. *)
Record Backend : Type := {
  (* the [model] of each model deployed on the endpoint *)
  list_models : string -> outcome (list string);
  (* aiplatform.BatchPredictionJob.create: the name of the job *)
  create_job : string -> list (string * pyval) -> option pyval -> outcome string;
  (* how an f-string prints a list of strings *)
  repr_list : list string -> string
}.

Section WithBackend.

Variable B : Backend.

(** How an f-string prints the dataset. *)
Definition show_dataset (d : dataset_t) : string :=
  match d with
  | DatasetUri uri => uri
  | DatasetList uris => repr_list B uris
  end.

(** [_LanguageModel._model_resource_name]: full resource name of the
    model. *)
Definition _model_resource_name (endpoint_name : string) : W batch_event string :=
  if contains "publishers/" endpoint_name
  then wret endpoint_name
  else
    (* This is a ModelRegistry resource name *)
    models <-! wcall (EvListModels endpoint_name) (list_models B endpoint_name);;
    wlift (list_getitem models 0).

(** The argument checks of [_ModelWithBatchPredict.batch_predict]: the
    keyword arguments for the job, or the error of the first check that
    fails. *)
Definition batch_arguments (dataset : dataset_t) (destination_uri_prefix : string)
  : outcome (list (string * pyval)) :=
  let arguments : list (string * pyval) := [] in
  first_source_uri <-?
    match dataset with
    | DatasetUri uri => Returns uri
    | DatasetList uris => list_getitem uris 0
    end;;
  arguments <-?
    (if startswith first_source_uri "gs://"
     then
       match dataset with
       | DatasetList uris =>
           if negb (forallb (fun uri => startswith uri "gs://") uris)
           then Raises (Exc ValueError
                          ["All URIs in the list must start with 'gs://': "
                             ++ show_dataset dataset] None)
           else Returns (dict_set "gcs_source" (dataset_value dataset) arguments)
       | DatasetUri _ =>
           Returns (dict_set "gcs_source" (dataset_value dataset) arguments)
       end
     else if startswith first_source_uri "bq://"
     then
       match dataset with
       | DatasetList _ =>
           Raises (Exc ValueError
                     ["Only single BigQuery source can be specified: "
                        ++ show_dataset dataset] None)
       | DatasetUri _ =>
           Returns (dict_set "bigquery_source" (dataset_value dataset) arguments)
       end
     else Raises (Exc ValueError
                    ["Unsupported source_uri: " ++ show_dataset dataset] None));;
  if startswith destination_uri_prefix "gs://"
  then Returns (dict_set "gcs_destination_prefix" (PyStr destination_uri_prefix)
                  arguments)
  else if startswith destination_uri_prefix "bq://"
  then Returns (dict_set "bigquery_destination_prefix"
                  (PyStr destination_uri_prefix) arguments)
  else Raises (Exc ValueError
                 ["Unsupported destination_uri: " ++ destination_uri_prefix] None).

(** The model name [batch_predict] hands to the job: the batch prediction
    service does not support fully qualified publisher model names, so what
    precedes "publishers/" is cut off.  [str.index] raises when there is no
    "/publishers/". *)
Definition publisher_model_name (model_name : string) : outcome string :=
  match find_sub "/publishers/" model_name with
  | Some publishers_index =>
      Returns (if (0 <? publishers_index)%nat
               then drop_chars (publishers_index + 1) model_name
               else model_name)
  | None => Raises (Exc ValueError ["substring not found"] None)
  end.

(** [_ModelWithBatchPredict.batch_predict] on the model whose endpoint is
    [endpoint_name]. *)
Definition batch_predict (endpoint_name : string) (dataset : dataset_t)
    (destination_uri_prefix : string) (model_parameters : option pyval)
  : W batch_event string :=
  arguments <-! wlift (batch_arguments dataset destination_uri_prefix);;
  model_name <-! _model_resource_name endpoint_name;;
  model_name <-! wlift (publisher_model_name model_name);;
  wcall (EvBatchPredictionJobCreate model_name arguments model_parameters)
        (create_job B model_name arguments model_parameters).

(** [_PreviewModelWithBatchPredict.batch_predict]; [source_uri] is the
    deprecated keyword: absent, or given with a value that may be [None]. *)
Definition Preview_batch_predict (endpoint_name : string)
    (destination_uri_prefix : string) (dataset : option dataset_t)
    (model_parameters : option pyval) (source_uri : option (option dataset_t))
  : W batch_event string :=
  dataset <-!
    match source_uri with
    | Some given =>
        _ <-! (([EvWarn "source_uri is deprecated, use dataset instead."],
                Returns tt) : W batch_event unit);;
        if dataset_truthy dataset
        then wraise (Exc ValueError
                       ["source_uri is deprecated, use dataset instead."] None)
        else wret given
    | None => wret dataset
    end;;
  match dataset with
  | Some d =>
      if dataset_truthy dataset
      then batch_predict endpoint_name d destination_uri_prefix model_parameters
      else wraise (Exc ValueError ["dataset must be specified"] None)
  | None => wraise (Exc ValueError ["dataset must be specified"] None)
  end.

End WithBackend.

(** A source the batch prediction accepts: a "gs://" URI, a non-empty
    list of "gs://" URIs, or a single "bq://" URI. *)
Definition source_ok (dataset : dataset_t) : bool :=
  match dataset with
  | DatasetUri uri => startswith uri "gs://" || startswith uri "bq://"
  | DatasetList uris =>
      match uris with
      | [] => false
      | _ => forallb (fun uri => startswith uri "gs://") uris
      end
  end.

(** A destination the batch prediction accepts. *)
Definition destination_ok (destination_uri_prefix : string) : bool :=
  startswith destination_uri_prefix "gs://"
  || startswith destination_uri_prefix "bq://".

(** The scheme of the first source URI decides the source argument. *)
Definition first_uri (dataset : dataset_t) : string :=
  match dataset with
  | DatasetUri uri => uri
  | DatasetList uris => match uris with u :: _ => u | [] => EmptyString end
  end.

Definition ex_batch_backend : Backend :=
  {| list_models := fun _ => Returns ["projects/p/locations/us-central1/models/123"];
     create_job := fun _ _ _ => Returns "projects/p/locations/us-central1/batchPredictionJobs/1";
     repr_list := fun uris => "[...]" |}.

Definition ex_publisher_endpoint : string :=
  "projects/p/locations/us-central1/publishers/google/models/text-bison@001".

End BatchPredict.

(** ** More sample data for tuned models *)

(** A registry whose models are tunings of text-bison-001 that have not
    been deployed yet. *)
Definition ex_undeployed_backend : Tuning.Backend :=
  {| Tuning.job_wait := Tuning.job_wait (Tuning.ex_backend []);
     Tuning.job_cancel := fun _ => Returns tt;
     Tuning.Model_init := fun n =>
       Returns {| Tuning.resource_name := n;
                  Tuning.labels :=
                    {[ Tuning._TUNING_BASE_MODEL_ID_LABEL_KEY := "text-bison-001" ]};
                  Tuning.deployed_models := [] |};
     Tuning.Model_deploy := fun _ => Returns Tuning.ex_endpoint;
     Tuning._get_model_info := Tuning._get_model_info (Tuning.ex_backend []);
     Tuning._validate_launch_stage := fun _ _ => Returns tt;
     Tuning.Tensorboard_parse_resource_name := fun _ =>
       {[ "location" := "us-central1" ]};
     Tuning.pipeline_submit := fun _ _ _ _ _ _ => Returns Tuning.ex_job |}.

(** A submission to supported regions whose evaluation spec names a
    Tensorboard of another region. *)
Definition ex_args_tensorboard : Tuning.tune_args :=
  {| Tuning.training_data := Tuning.TrainingUri "gs://bucket/train.jsonl";
     Tuning.train_steps := Some (PyInt 100);
     Tuning.learning_rate := None;
     Tuning.learning_rate_multiplier := None;
     Tuning.tuning_job_location := Some "europe-west4";
     Tuning.tuned_model_location := Some "us-central1";
     Tuning.model_display_name := None;
     Tuning.tuning_evaluation_spec :=
       Some {| Tuning.evaluation_data := PyStr "gs://bucket/eval.jsonl";
               Tuning.evaluation_interval := None;
               Tuning.enable_early_stopping := None;
               Tuning.tensorboard :=
                 Some (Tuning.TbStr
                         "projects/p/locations/us-central1/tensorboards/1") |};
     Tuning.default_context := None |}.

(** ** Launching a tuning pipeline *)

(** [s.replace(old, new)] for a non-empty [old]; [skip] counts the
    characters of an occurrence that are still to be passed over. *)
Fixpoint replace_from (old new : string) (skip : nat) (s : string) : string :=
  match s with
  | EmptyString => EmptyString
  | String c s' =>
      match skip with
      | S k => replace_from old new k s'
      | O =>
          if String.prefix old s
          then new ++ replace_from old new (String.length old - 1)%nat s'
          else String c (replace_from old new O s')
      end
  end.

Definition replace_sub (old new s : string) : string := replace_from old new O s.

Module Launch.

(** What [_launch_tuning_job] asks of the services around it. *)
Inductive launch_event : Type :=
| EvStagingBucket
| EvUploadDataFrame (df : pyval) (upload_gcs_path : string)
| EvPipelineSubmit (template_path : string)
    (parameter_values : gmap string pyval) (location : option string).

Definition is_upload (ev : launch_event) : bool :=
  match ev with
  | EvUploadDataFrame _ _ => true
  | _ => false
  end.

(** The collaborators of [_launch_tuning_job] and the global configuration
    it reads. *)
Record Env : Type := {
  (* gcs_utils.create_gcs_bucket_for_pipeline_artifacts_if_it_does_not_exist() *)
  create_gcs_bucket_for_pipeline_artifacts_if_it_does_not_exist : outcome string;
  (* aiplatform_utils.timestamped_unique_name() *)
  timestamped_unique_name : string;
  (* gcs_utils._upload_pandas_df_to_gcs(df, upload_gcs_path) *)
  _upload_pandas_df_to_gcs : pyval -> string -> outcome unit;
  (* aiplatform_initializer.global_config.project *)
  project : outcome string;
  (* aiplatform_initializer.global_config.encryption_spec_key_name *)
  encryption_spec_key_name : option string;
  (* aiplatform.PipelineJob(template_path, parameter_values, location),
     then job.submit() *)
  PipelineJob_submit :
    string -> gmap string pyval -> option string -> outcome Tuning.PipelineJob;
  (* str(v), as an f-string prints a parameter value *)
  py_str : pyval -> string;
  (* str(type(training_data)) of training data that is neither a string
     nor a DataFrame *)
  training_data_type : string
}.

Section WithEnv.

Variable E : Env.

(** [_get_tuned_models_dir_uri] *)
Definition _get_tuned_models_dir_uri (model_id : string) : W launch_event string :=
  staging_gcs_bucket <-!
    wcall EvStagingBucket
      (create_gcs_bucket_for_pipeline_artifacts_if_it_does_not_exist E);;
  wret (replace_sub "/output_artifacts/" "/tuned_language_models/" staging_gcs_bucket
          ++ model_id).

(** [_generate_tuned_model_dir_uri] *)
Definition _generate_tuned_model_dir_uri (model_id : string)
  : W launch_event string :=
  let tuned_model_id := "tuned_model_" ++ timestamped_unique_name E in
  tuned_models_dir_uri <-! _get_tuned_models_dir_uri model_id;;
  let tuned_model_dir_uri := Uri._uri_join tuned_models_dir_uri tuned_model_id in
  wret tuned_model_dir_uri.

(** One optional part of the display name: [if value: name += ...]. *)
Definition name_part (tuning_parameters : gmap string pyval) (key : string)
    (before after : string) (name : string) : string :=
  match tuning_parameters !! key with
  | Some value =>
      if truthy value then name ++ before ++ py_str E value ++ after else name
  | None => name
  end.

(** The human-readable display name up to the dataset. *)
Definition display_name_prefix (model_id : string)
    (tuning_parameters : gmap string pyval) : string :=
  let name := model_id ++ " tuned" in
  let name := name_part tuning_parameters "train_steps" " for " " steps" name in
  let name :=
    name_part tuning_parameters "learning_rate" " with learning rate " "" name in
  let name :=
    name_part tuning_parameters "learning_rate_multiplier"
      " with learning_rate_multiplier=" "" name in
  name ++ " on ".

(** Creating a human-readable model display name *)
Definition generated_display_name (model_id : string)
    (tuning_parameters : gmap string pyval) (dataset_name_or_uri : string)
  : string :=
  let name := display_name_prefix model_id tuning_parameters in
  (* Truncating the start of the dataset URI to keep total length <= 128. *)
  let max_display_name_length := 128 in
  let name :=
    if Z.of_nat (String.length (dataset_name_or_uri ++ name))
       <=? max_display_name_length
    then name ++ dataset_name_or_uri
    else
      let name := name ++ "..." in
      let remaining_length :=
        max_display_name_length - Z.of_nat (String.length name) in
      name ++ slice_from (- remaining_length) dataset_name_or_uri in
  take_chars (Z.to_nat max_display_name_length) name.

(** [if not model_display_name: ...] *)
Definition display_name (model_display_name : option string) (model_id : string)
    (tuning_parameters : gmap string pyval) (dataset_name_or_uri : string)
  : string :=
  match model_display_name with
  | Some (String c n) => String c n
  | _ => generated_display_name model_id tuning_parameters dataset_name_or_uri
  end.

(** The parameter values of the pipeline. *)
Definition pipeline_arguments (project : string) (model_id model_display_name : string)
    (dataset_name_or_uri : string) (tuning_parameters : gmap string pyval)
  : gmap string pyval :=
  let pipeline_arguments : gmap string pyval :=
    <["model_display_name" := PyStr model_display_name]>
      (<["large_model_reference" := PyStr model_id]>
         (<["location" := PyStr Tuning._TUNED_MODEL_LOCATION]>
            (<["project" := PyStr project]> ∅))) in
  let pipeline_arguments :=
    if startswith dataset_name_or_uri "projects/"
    then <["dataset_name" := PyStr dataset_name_or_uri]> pipeline_arguments
    else pipeline_arguments in
  let pipeline_arguments :=
    if startswith dataset_name_or_uri "gs://"
    then <["dataset_uri" := PyStr dataset_name_or_uri]> pipeline_arguments
    else pipeline_arguments in
  let pipeline_arguments :=
    match encryption_spec_key_name E with
    | Some (String c k) =>
        <["encryption_spec_key_name" := PyStr (String c k)]> pipeline_arguments
    | _ => pipeline_arguments
    end in
  (* pipeline_arguments.update(tuning_parameters) *)
  tuning_parameters ∪ pipeline_arguments.

(** [_launch_tuning_job] *)
Definition _launch_tuning_job (training_data : Tuning.training_data_t)
    (model_id tuning_pipeline_uri : string)
    (tuning_parameters : gmap string pyval)
    (model_display_name tuning_job_location : option string)
  : W launch_event Tuning.PipelineJob :=
  output_dir_uri <-! _generate_tuned_model_dir_uri model_id;;
  dataset_name_or_uri <-!
    match training_data with
    | Tuning.TrainingUri uri => wret uri
    | Tuning.TrainingDataFrame df =>
        let dataset_uri := Uri._uri_join output_dir_uri "training_data.jsonl" in
        _ <-! wcall (EvUploadDataFrame df dataset_uri)
                (_upload_pandas_df_to_gcs E df dataset_uri);;
        wret dataset_uri
    | Tuning.TrainingOther =>
        wraise (Exc TypeError
                  ["Unsupported training_data type: " ++ training_data_type E]
                  None)
    end;;
  let model_display_name :=
    display_name model_display_name model_id tuning_parameters
      dataset_name_or_uri in
  project <-! wlift (project E);;
  let pipeline_arguments :=
    pipeline_arguments project model_id model_display_name dataset_name_or_uri
      tuning_parameters in
  wcall (EvPipelineSubmit tuning_pipeline_uri pipeline_arguments tuning_job_location)
    (PipelineJob_submit E tuning_pipeline_uri pipeline_arguments
       tuning_job_location).

(** The directory of the tuned model in a staging bucket. *)
Definition tuned_model_dir (staging_gcs_bucket model_id : string) : string :=
  Uri._uri_join
    (replace_sub "/output_artifacts/" "/tuned_language_models/" staging_gcs_bucket
       ++ model_id)
    ("tuned_model_" ++ timestamped_unique_name E).

End WithEnv.

(** *** Sample data *)

Definition ex_env : Env :=
  {| create_gcs_bucket_for_pipeline_artifacts_if_it_does_not_exist :=
       Returns "gs://p-vertex-pipelines-us-central1/output_artifacts/";
     timestamped_unique_name := "2023-08-01-12-00-00-abcde";
     _upload_pandas_df_to_gcs := fun _ _ => Returns tt;
     project := Returns "p";
     encryption_spec_key_name := None;
     PipelineJob_submit := fun _ _ _ => Returns Tuning.ex_job;
     py_str := fun v => match v with
                        | PyStr s => s
                        | PyInt 100 => "100"
                        | _ => "<value>"
                        end;
     training_data_type := "<class 'int'>" |}.

End Launch.

(** * Properties *)

(** Case analysis on whatever the goal scrutinises next. *)
Ltac step_match :=
  match goal with
  | |- context [match ?x with _ => _ end] =>
      lazymatch x with
      | context [match _ with _ => _ end] => fail
      | _ => destruct x eqn:?
      end
  end.

Ltac run_monad :=
  unfold bind, ret, raise_, raise, emit, call, lift, get_self, put_self; cbn.

Ltac run_reconciler :=
  unfold Reconciler.ensure, Reconciler.check_persistent_resource,
    Reconciler.create_persistent_resource, Reconciler.try_except, bind, ret, raise, call; cbn.

Module TuningSpec.
Import Tuning.

#[local] Arguments cls_get_tuned_model : simpl never.

Lemma get_tuned_model_cached B h m :
  _model h = Some m -> get_tuned_model B h = ([], h, Returns m).
Proof.
  intros Hm. unfold get_tuned_model, bind, get_self, ret. cbn. rewrite Hm. reflexivity.
Qed.

Lemma get_tuned_model_wait_fails B h e :
  _model h = None -> job_wait B (name (_job h)) = Raises e ->
  get_tuned_model B h = ([EvJobWait (name (_job h))], h, Raises e).
Proof.
  intros Hm Hw. unfold get_tuned_model, bind, get_self, call. cbn.
  rewrite Hm. cbn. rewrite Hw. reflexivity.
Qed.

Lemma get_tuned_model_malformed B h g :
  _model h = None -> job_wait B (name (_job h)) = Returns g ->
  List.length (root_pipeline_tasks g) <> 1%nat ->
  get_tuned_model B h
  = ([EvJobWait (name (_job h))], synced h g,
     Raises (integrity_error (name (_job h)))).
Proof.
  intros Hm Hw Hn. unfold get_tuned_model, bind, get_self, call, put_self. cbn.
  rewrite Hm. cbn. rewrite Hw. cbn.
  destruct (Nat.eqb (List.length (root_pipeline_tasks g)) 1) eqn:E.
  - apply Nat.eqb_eq in E. contradiction.
  - reflexivity.
Qed.

(** The loader is a class method: it leaves the calling object alone, and
    what it does is the same from within any object. *)
Lemma cls_get_tuned_model_state {S} B cls n (s : S) :
  cls_get_tuned_model B cls n s
  = (trace_of (cls_get_tuned_model B cls n tt), s,
     outcome_of (cls_get_tuned_model B cls n tt)).
Proof.
  unfold cls_get_tuned_model. run_monad.
  repeat (step_match; cbn; try reflexivity).
Qed.

Lemma cls_get_tuned_model_no_poll B cls n :
  poll_count (trace_of (cls_get_tuned_model B cls n tt)) = 0%nat.
Proof.
  unfold cls_get_tuned_model. run_monad.
  repeat (step_match; cbn; try reflexivity).
Qed.

(** The first thing the loader does is fetch the registry entry of the
    name it is given; it fetches no other. *)
Lemma cls_get_tuned_model_lookup B cls n :
  List.filter (fun ev => match ev with EvModelGet _ => true | _ => false end)
    (trace_of (cls_get_tuned_model B cls n tt)) = [EvModelGet n].
Proof.
  unfold cls_get_tuned_model. run_monad.
  repeat (step_match; cbn; try reflexivity).
Qed.

Lemma get_tuned_model_one_root B h g root N :
  _model h = None -> job_wait B (name (_job h)) = Returns g ->
  root_pipeline_tasks g = [root] ->
  metadata (execution root) !! "output:model_resource_name" = Some (PyStr N) ->
  let r := cls_get_tuned_model B (model_cls (_base_model h)) (strip N) tt in
  get_tuned_model B h
  = (EvJobWait (name (_job h)) :: completion_log (strip N) :: trace_of r,
     match outcome_of r with
     | Returns m => resolved h g m
     | Raises _ => synced h g
     end,
     outcome_of r).
Proof.
  intros Hm Hw Hr Hk r.
  unfold get_tuned_model, bind at 1 2 3, get_self, call, put_self. cbn.
  rewrite Hm. cbn. rewrite Hw. cbn. rewrite Hr. cbn. rewrite Hk.
  unfold bind at 1, emit. cbn. unfold bind at 1.
  rewrite cls_get_tuned_model_state. subst r.
  destruct (cls_get_tuned_model B (model_cls (_base_model h)) (strip N) tt)
    as [[t u] [m|e]]; cbn; rewrite ?app_nil_r; reflexivity.
Qed.

Lemma reachable_inv B base job h :
  reachable B base job h -> handle_inv B base job h.
Proof.
  induction 1 as [|h Hr [Hn [Hb Hc]]|h Hr IH].
  - repeat split; [discriminate].
  - destruct (_model h) as [m|] eqn:Hm.
    + rewrite (get_tuned_model_cached B h m Hm). cbn.
      repeat split; auto. rewrite Hm. exact Hc.
    + unfold get_tuned_model, bind at 1 2 3, get_self, call, put_self. cbn.
      rewrite Hm. cbn.
      destruct (job_wait B (name (_job h))) as [g|e] eqn:Hw; cbn.
      2:{ repeat split; auto. rewrite Hm. discriminate. }
      destruct (root_pipeline_tasks g) as [|root [|]] eqn:Hg; cbn;
        try (repeat split; auto; discriminate).
      destruct (metadata (execution root) !! "output:model_resource_name")
        as [[]|] eqn:Hk; run_monad; try (repeat split; auto; discriminate).
      rewrite cls_get_tuned_model_state.
      destruct (cls_get_tuned_model B (model_cls (_base_model h)) (strip s) tt)
        as [[t u] [m|e]] eqn:Hl; cbn; try (repeat split; auto; discriminate).
      repeat split; auto. intros m' [= <-].
      exists g, root, s. rewrite <- Hn, <- Hb, Hl. auto.
  - unfold _cancel. run_monad. exact IH.
Qed.

Lemma root_pipeline_tasks_erase g :
  List.length (root_pipeline_tasks (erase_outputs g))
  = List.length (root_pipeline_tasks g).
Proof.
  unfold root_pipeline_tasks, erase_outputs. cbn.
  induction (task_details g) as [|td l IH]; [reflexivity|].
  cbn. destruct (decide (schema_title (execution td) = "system.Run"));
    cbn [List.length]; [f_equal|]; exact IH.
Qed.

Lemma reachable_unresolved_of_malformed B base job h g :
  reachable B base job h ->
  job_wait B (name job) = Returns g ->
  List.length (root_pipeline_tasks g) <> 1%nat ->
  _model h = None.
Proof.
  intros Hr Hw Hn. destruct (reachable_inv _ _ _ _ Hr) as (_ & _ & Hc).
  destruct (_model h) as [m|]; [|reflexivity].
  destruct (Hc m eq_refl) as (g' & root & N & Hw' & Hg & _).
  rewrite Hw in Hw'. injection Hw' as <-. rewrite Hg in Hn. cbn in Hn. lia.
Qed.

(** A single root without the output parameter: the read fails. *)
Example resolve_missing_output_parameter :
  outcome_of
    (get_tuned_model
       (ex_backend [{| execution := {| schema_title := "system.Run";
                                       metadata := ∅ |} |}])
       (TuningJob_init ex_base ex_job))
  = Raises (Exc KeyError ["output:model_resource_name"] None).
Proof. reflexivity. Qed.

(** A job that failed: the error of the wait is the error of the call. *)
Example resolve_failed_job :
  let failed := Exc RuntimeError ["Job failed with: pipeline error"] None in
  get_tuned_model
    {| job_wait := fun _ => Raises failed;
       job_cancel := job_cancel (ex_backend []);
       Model_init := Model_init (ex_backend []);
       Model_deploy := Model_deploy (ex_backend []);
       _get_model_info := _get_model_info (ex_backend []);
       _validate_launch_stage := _validate_launch_stage (ex_backend []);
       Tensorboard_parse_resource_name := Tensorboard_parse_resource_name (ex_backend []);
       pipeline_submit := pipeline_submit (ex_backend []) |}
    (TuningJob_init ex_base ex_job)
  = ([EvJobWait (name ex_job)], TuningJob_init ex_base ex_job, Raises failed).
Proof. reflexivity. Qed.

(** C1.  A completed tuning job whose execution graph does not contain
    exactly one root execution record (none, or more than one): resolving
    any handle on it polls once and raises the [RuntimeError] "Failed to get
    the model name from the tuning pipeline", caches nothing and makes no
    registry call.  No output parameter is read: the answer is the same
    when every output parameter of every record has been deleted, where any
    read would have raised [KeyError]. *)
Theorem resolve_malformed_graph_raises B base job h g :
  reachable B base job h ->
  job_wait B (name job) = Returns g ->
  List.length (root_pipeline_tasks g) <> 1%nat ->
  get_tuned_model B h
  = ([EvJobWait (name job)], synced h g, Raises (integrity_error (name job)))
  /\ _model (state_of (get_tuned_model B h)) = None
  /\ forall B' h',
       reachable B' base job h' ->
       job_wait B' (name job) = Returns (erase_outputs g) ->
       trace_of (get_tuned_model B' h') = trace_of (get_tuned_model B h)
       /\ outcome_of (get_tuned_model B' h') = outcome_of (get_tuned_model B h).
Proof.
  intros Hr Hw Hn.
  assert (Hres : forall B0 h0 g0,
             reachable B0 base job h0 -> job_wait B0 (name job) = Returns g0 ->
             List.length (root_pipeline_tasks g0) <> 1%nat ->
             get_tuned_model B0 h0
             = ([EvJobWait (name job)], synced h0 g0,
                Raises (integrity_error (name job)))).
  { intros B0 h0 g0 Hr0 Hw0 Hn0.
    pose proof (reachable_unresolved_of_malformed _ _ _ _ _ Hr0 Hw0 Hn0) as Hm.
    destruct (reachable_inv _ _ _ _ Hr0) as (Hname & _ & _).
    rewrite <- Hname in Hw0 |- *.
    exact (get_tuned_model_malformed B0 h0 g0 Hm Hw0 Hn0). }
  rewrite (Hres B h g Hr Hw Hn).
  split; [reflexivity|]. split; [reflexivity|].
  intros B' h' Hr' Hw'.
  rewrite (Hres B' h' (erase_outputs g) Hr' Hw').
  - split; reflexivity.
  - rewrite root_pipeline_tasks_erase. exact Hn.
Qed.

(** C1, at a graph without a root and at a graph with two roots. *)
Lemma resolve_malformed_graph_raises_witness :
  (let B := ex_backend [ex_task] in
   let h := TuningJob_init ex_base ex_job in
   get_tuned_model B h
   = ([EvJobWait (name ex_job)],
      synced h {| state := PIPELINE_STATE_SUCCEEDED; task_details := [ex_task] |},
      Raises (integrity_error (name ex_job))))
  /\ (let B := ex_backend [ex_root "projects/p/models/m"; ex_task;
                           ex_root "projects/p/models/m2"] in
      let h := TuningJob_init ex_base ex_job in
      outcome_of (get_tuned_model B h) = Raises (integrity_error (name ex_job))).
Proof.
  split.
  - apply (resolve_malformed_graph_raises (ex_backend [ex_task]) ex_base ex_job
             (TuningJob_init ex_base ex_job)
             {| state := PIPELINE_STATE_SUCCEEDED; task_details := [ex_task] |}).
    + apply reachable_init.
    + reflexivity.
    + vm_compute. lia.
  - cbv zeta.
    rewrite (proj1 (resolve_malformed_graph_raises
               (ex_backend [ex_root "projects/p/models/m"; ex_task;
                            ex_root "projects/p/models/m2"])
               ex_base ex_job (TuningJob_init ex_base ex_job)
               {| state := PIPELINE_STATE_SUCCEEDED;
                  task_details := [ex_root "projects/p/models/m"; ex_task;
                                   ex_root "projects/p/models/m2"] |}
               (reachable_init _ _ _) eq_refl
               ltac:(vm_compute; lia))).
    reflexivity.
Defined.

(** A successful first resolution caches its result and polled once. *)
Lemma get_tuned_model_success B h tr h' m :
  _model h = None ->
  get_tuned_model B h = (tr, h', Returns m) ->
  _model h' = Some m /\ poll_count tr = 1%nat.
Proof.
  intros Hm. unfold get_tuned_model, bind at 1 2 3, get_self, call, put_self. cbn.
  rewrite Hm. cbn.
  destruct (job_wait B (name (_job h))) as [g|e]; cbn; [|discriminate].
  destruct (root_pipeline_tasks g) as [|root [|]]; cbn; try discriminate.
  destruct (metadata (execution root) !! "output:model_resource_name")
    as [[]|]; run_monad; try discriminate.
  rewrite cls_get_tuned_model_state.
  pose proof (cls_get_tuned_model_no_poll B (model_cls (_base_model h)) (strip s))
    as Hp.
  destruct (cls_get_tuned_model B (model_cls (_base_model h)) (strip s) tt)
    as [[t u] [m0|e]]; cbn in *; [|discriminate].
  intros [= <- <- <-]. split; [reflexivity|].
  unfold poll_count in *. cbn. rewrite List.filter_app, List.length_app, Hp.
  reflexivity.
Qed.

Lemma strip_example : strip " projects/p/models/m" = "projects/p/models/m".
Proof. reflexivity. Qed.

(** The next-line control and the no-break space are whitespace too. *)
Example strip_unicode_spaces :
  strip (String (ascii_of_nat 160)
           ("projects/p/models/m" ++ String (ascii_of_nat 133) EmptyString))
  = "projects/p/models/m".
Proof. reflexivity. Qed.

Lemma rstrip_last s c :
  last_char s = Some c -> is_space c = false -> rstrip s = s.
Proof.
  induction s as [|a s IH]; [discriminate|].
  destruct s as [|b s'].
  - intros [= ->] Hc. cbn. rewrite Hc. reflexivity.
  - intros Hl Hc. change (last_char (String a (String b s'))) with
      (last_char (String b s')) in Hl.
    change (rstrip (String a (String b s'))) with
      (match rstrip (String b s') with
       | EmptyString => if is_space a then EmptyString else String a EmptyString
       | r => String a r
       end).
    rewrite (IH Hl Hc). reflexivity.
Qed.

Lemma last_char_some c s : exists l, last_char (String c s) = Some l.
Proof.
  revert c. induction s as [|b s IH]; intros c; [exists c; reflexivity|].
  destruct (IH b) as [l Hl]. exists l. exact Hl.
Qed.

(** A string that neither starts nor ends with whitespace is its own
    strip. *)
Lemma strip_not_padded s : padded s = false -> strip s = s.
Proof.
  unfold padded, strip. intros H. apply orb_false_iff in H as [Hfirst Hlast].
  destruct s as [|c s]; [reflexivity|].
  cbn [lstrip]. rewrite Hfirst.
  destruct (last_char (String c s)) as [l|] eqn:Hl.
  - exact (rstrip_last _ l Hl Hlast).
  - destruct (last_char_some c s) as [l Hl']. congruence.
Qed.

(** A root whose output parameter is padded: the registry is asked for
    the stripped name, and for no other. *)
Lemma resolve_padded_name :
  let N := " projects/p/models/m" in
  let r := get_tuned_model (ex_backend [ex_root N]) (TuningJob_init ex_base ex_job) in
  outcome_of r = Returns ex_tuned
  /\ List.filter is_model_get (trace_of r) = [EvModelGet "projects/p/models/m"].
Proof. vm_compute. split; reflexivity. Qed.

(** C2 as stated fails: with exactly one root carrying the output
    parameter [N], the handle returned need not come from the registry
    entry named exactly [N].  Here [N] starts with a space and the entry
    fetched is the one named without it. *)
Lemma resolve_exact_name_counterexample :
  ~ (forall B base job g root N,
       job_wait B (name job) = Returns g ->
       root_pipeline_tasks g = [root] ->
       metadata (execution root) !! output_key = Some (PyStr N) ->
       exists m,
         outcome_of (get_tuned_model B (TuningJob_init base job)) = Returns m
         /\ In (EvModelGet N)
               (trace_of (get_tuned_model B (TuningJob_init base job)))).
Proof.
  intros H.
  destruct (H (ex_backend [ex_root " projects/p/models/m"]) ex_base ex_job
              {| state := PIPELINE_STATE_SUCCEEDED;
                 task_details := [ex_root " projects/p/models/m"] |}
              (ex_root " projects/p/models/m") " projects/p/models/m"
              eq_refl eq_refl eq_refl) as (m & _ & Hin).
  vm_compute in Hin.
  repeat (destruct Hin as [Hin|Hin]; [discriminate Hin|]). exact Hin.
Qed.

(** C2, amended.  A completed tuning job whose execution graph contains
    exactly one root execution record carrying the output parameter
    [output:model_resource_name = N]: resolving a handle on it hands [N]
    with its leading and trailing whitespace stripped to the tuned-model
    loader, whose only registry lookup is for that stripped name.  On a
    handle that has not resolved yet this is a poll, a log line and the
    loader's calls; the loader's handle is returned and cached, and an error
    of the loader propagates.  On any handle, the handle the loader gives
    for the stripped name is the one returned and the one cached.  When [N]
    neither starts nor ends with whitespace the stripped name is [N] itself,
    and the only registry lookup is for exactly [N]. *)
Theorem resolve_returns_loader_result B base job h g root N :
  reachable B base job h ->
  job_wait B (name job) = Returns g ->
  root_pipeline_tasks g = [root] ->
  metadata (execution root) !! output_key = Some (PyStr N) ->
  let r := cls_get_tuned_model B (model_cls base) (strip N) tt in
  (_model h = None ->
   get_tuned_model B h
   = (EvJobWait (name job) :: completion_log (strip N) :: trace_of r,
      match outcome_of r with
      | Returns m => resolved h g m
      | Raises _ => synced h g
      end,
      outcome_of r))
  /\ (forall m, outcome_of r = Returns m ->
        outcome_of (get_tuned_model B h) = Returns m
        /\ _model (state_of (get_tuned_model B h)) = Some m)
  /\ List.filter is_model_get (trace_of r) = [EvModelGet (strip N)]
  /\ (padded N = false ->
      strip N = N
      /\ List.filter is_model_get
           (trace_of (cls_get_tuned_model B (model_cls base) N tt))
         = [EvModelGet N]).
Proof.
  intros Hr Hw Hg Hk r.
  destruct (reachable_inv _ _ _ _ Hr) as (Hname & Hbase & Hc).
  assert (Hfresh : _model h = None ->
            get_tuned_model B h
            = (EvJobWait (name job) :: completion_log (strip N) :: trace_of r,
               match outcome_of r with
               | Returns m => resolved h g m
               | Raises _ => synced h g
               end,
               outcome_of r)).
  { intros Hm. subst r. rewrite <- Hname, <- Hbase.
    rewrite <- Hname in Hw.
    exact (get_tuned_model_one_root B h g root N Hm Hw Hg Hk). }
  split; [exact Hfresh|]. split.
  - intros m Hout. destruct (_model h) as [m'|] eqn:Hm.
    + rewrite (get_tuned_model_cached B h m' Hm). cbn.
      destruct (Hc m' eq_refl) as (g' & root' & N' & Hw' & Hg' & Hk' & Hl').
      rewrite Hw in Hw'. injection Hw' as <-.
      rewrite Hg in Hg'. injection Hg' as <-.
      unfold output_key in *. rewrite Hk in Hk'. injection Hk' as <-.
      fold r in Hl'. rewrite Hout in Hl'. injection Hl' as <-.
      split; [reflexivity|exact Hm].
    + rewrite (Hfresh eq_refl), Hout. cbn. split; reflexivity.
  - split; [apply cls_get_tuned_model_lookup|].
    intros Hp. split; [exact (strip_not_padded N Hp)|].
    apply cls_get_tuned_model_lookup.
Qed.

(** C2 amended, at a graph whose single root carries a padded name. *)
Lemma resolve_returns_loader_result_witness :
  let N := " projects/p/models/m" in
  let B := ex_backend [ex_task; ex_root N] in
  let h := TuningJob_init ex_base ex_job in
  outcome_of (get_tuned_model B h) = Returns ex_tuned
  /\ _model (state_of (get_tuned_model B h)) = Some ex_tuned.
Proof.
  cbv zeta.
  apply (proj1 (proj2 (resolve_returns_loader_result
           (ex_backend [ex_task; ex_root " projects/p/models/m"])
           ex_base ex_job (TuningJob_init ex_base ex_job)
           {| state := PIPELINE_STATE_SUCCEEDED;
              task_details := [ex_task; ex_root " projects/p/models/m"] |}
           (ex_root " projects/p/models/m") " projects/p/models/m"
           (reachable_init _ _ _) eq_refl eq_refl eq_refl))).
  reflexivity.
Defined.

(** C3.  Once a resolution has returned a model, a second call on the
    handle it left returns that same model from the cache, whatever the
    remote service would now answer: it makes no call at all and leaves the
    handle as it is.  When the first call was the one that resolved the
    handle, the two calls together contain exactly one remote poll
    sequence. *)
Theorem resolve_twice_polls_once B B' h tr h' m :
  get_tuned_model B h = (tr, h', Returns m) ->
  get_tuned_model B' h' = ([], h', Returns m)
  /\ poll_count (trace_of (get_tuned_model B' h')) = 0%nat
  /\ (_model h = None ->
      poll_count (tr ++ trace_of (get_tuned_model B' h')) = 1%nat).
Proof.
  intros Hrun.
  assert (Hcache : _model h' = Some m).
  { destruct (_model h) as [m0|] eqn:Hm.
    - rewrite (get_tuned_model_cached B h m0 Hm) in Hrun.
      injection Hrun as <- <- <-. exact Hm.
    - exact (proj1 (get_tuned_model_success B h tr h' m Hm Hrun)). }
  rewrite (get_tuned_model_cached B' h' m Hcache). cbn.
  split; [reflexivity|]. split; [reflexivity|].
  intros Hm. rewrite app_nil_r.
  exact (proj2 (get_tuned_model_success B h tr h' m Hm Hrun)).
Qed.

(** C3, on a fresh handle resolved against one backend and asked again
    against another whose job would now fail. *)
Lemma resolve_twice_polls_once_witness :
  let B := ex_backend [ex_root "projects/p/models/m"] in
  let B' := ex_backend [] in
  let h := TuningJob_init ex_base ex_job in
  let r := get_tuned_model B h in
  get_tuned_model B' (state_of r) = ([], state_of r, Returns ex_tuned)
  /\ poll_count (trace_of (get_tuned_model B' (state_of r))) = 0%nat
  /\ (_model h = None ->
      poll_count (trace_of r ++ trace_of (get_tuned_model B' (state_of r))) = 1%nat).
Proof.
  cbv zeta.
  apply (resolve_twice_polls_once
           (ex_backend [ex_root "projects/p/models/m"]) (ex_backend [])
           (TuningJob_init ex_base ex_job)).
  vm_compute. reflexivity.
Defined.

End TuningSpec.

Module SubmitSpec.
Import Tuning.

#[local] Arguments _tune_model : simpl never.

Lemma _tune_model_rejects {S} B self data params tjl tml display (s : S) :
  unsupported_region tjl tml ->
  _tune_model B self data params tjl tml display s
  = ([], s, Raises (region_error tjl)).
Proof.
  intros Hu. unfold _tune_model, region_error, _TUNING_LOCATIONS, unsupported_region,
    _TUNED_MODEL_LOCATION in *.
  destruct tjl as [l|]; cbn; [|reflexivity].
  repeat case_bool_decide; cbn; try reflexivity; exfalso; set_solver.
Qed.





(** With both regions supported, the submission does reach the network. *)
Example tune_model_supported_region_submits :
  tune_model (ex_backend []) ex_base
    (ex_args (Some "europe-west4") (Some "us-central1")) tt
  = ([deprecation_warning; EvGetModelInfo "text-bison@001";
      EvLaunchTuningJob "text-bison-001" (Some "europe-west4")],
     tt, Returns (TuningJob_init ex_base ex_job)).
Proof. reflexivity. Qed.

(** An unsupported region behind a malformed evaluation spec: the type
    check of the spec is the one that fails, still before any remote call. *)
Example tune_model_bad_spec_first :
  tune_model (ex_backend []) ex_base
    (ex_args_bad_spec (Some "asia-east1") (Some "us-central1")) tt
  = ([deprecation_warning], tt,
     Raises (Exc TypeError ["evaluation_data should be a URI string"] None)).
Proof. reflexivity. Qed.




End SubmitSpec.

Module ReconcilerSpec.
Import Reconciler.

(** The unit test's four scenarios, replayed. *)
Example test_check_persistent_resource_true :
  check_persistent_resource
    (mock_client (Returns _TEST_PERSISTENT_RESOURCE_RUNNING) (Returns tt))
    _TEST_CLUSTER_RESOURCE_NAME tt
  = ([EvGetPersistentResource _TEST_CLUSTER_RESOURCE_NAME], tt, Returns true).
Proof. reflexivity. Qed.

Example test_check_persistent_resource_false :
  outcome_of
    (check_persistent_resource
       (mock_client (Raises mock_exception) (Returns tt))
       _TEST_CLUSTER_RESOURCE_NAME tt)
  = Raises (A:=bool) mock_exception.
Proof. reflexivity. Qed.

Example test_check_persistent_resource_error :
  outcome_of
    (check_persistent_resource
       (mock_client (Returns _TEST_PERSISTENT_RESOURCE_ERROR) (Returns tt))
       _TEST_CLUSTER_RESOURCE_NAME tt)
  = Raises (A:=bool)
      (Exc ValueError
           ["The existing cluster `";
            "projects/test-project/locations/us-central1/persistentResources/test-cluster";
            "` isn't running, please specify a different cluster_name."]
           None).
Proof. reflexivity. Qed.

Example test_create_persistent_resource_default_success :
  create_persistent_resource
    (mock_client (Returns _TEST_PERSISTENT_RESOURCE_RUNNING) (Returns tt))
    _TEST_CLUSTER_RESOURCE_NAME tt
  = ([EvCreatePersistentResource _TEST_CLUSTER_RESOURCE_NAME
        [("n1-standard-4", 1, "pd-ssd", 100)]], tt, Returns tt).
Proof. reflexivity. Qed.

Example test_create_ray_cluster_state_error :
  outcome_of
    (create_persistent_resource
       (mock_client (Raises mock_exception) (Raises mock_exception))
       _TEST_CLUSTER_RESOURCE_NAME tt)
  = Raises (A:=unit)
      (Exc ValueError ["Failed in cluster creation due to: "] (Some mock_exception)).
Proof. reflexivity. Qed.

(** C5.  When the lookup finds the resource in a state other than
    RUNNING (ERROR, say), the reconciliation raises the [PreconditionError]
    that names the cluster and asks for a different cluster name, after the
    lookup alone: no creation call is made. *)
Theorem ensure_unusable_resource_fails {S} B name r (s : S) :
  get_persistent_resource B name = Returns r ->
  state r <> RUNNING ->
  ensure B name s
  = ([EvGetPersistentResource name], s, Raises (PreconditionError name))
  /\ creation_calls (trace_of (ensure B name s)) = []
  /\ exn_cls (PreconditionError name) = ValueError
  /\ exn_args (PreconditionError name)
     = ["The existing cluster `"; name;
        "` isn't running, please specify a different cluster_name."].
Proof.
  intros Hget Hst.
  assert (H : ensure B name s
              = ([EvGetPersistentResource name], s, Raises (PreconditionError name))).
  { run_reconciler. rewrite Hget. cbn.
    rewrite bool_decide_eq_false_2 by exact Hst. reflexivity. }
  rewrite H. repeat split.
Qed.

(** C5, at the ERROR resource of the unit test. *)
Lemma ensure_unusable_resource_fails_witness :
  ensure (mock_client (Returns _TEST_PERSISTENT_RESOURCE_ERROR) (Returns tt))
    _TEST_CLUSTER_RESOURCE_NAME tt
  = ([EvGetPersistentResource _TEST_CLUSTER_RESOURCE_NAME], tt,
     Raises (PreconditionError _TEST_CLUSTER_RESOURCE_NAME)).
Proof.
  apply (ensure_unusable_resource_fails
           (mock_client (Returns _TEST_PERSISTENT_RESOURCE_ERROR) (Returns tt))
           _TEST_CLUSTER_RESOURCE_NAME _TEST_PERSISTENT_RESOURCE_ERROR tt).
  - reflexivity.
  - discriminate.
Defined.

(** C6.  When the lookup raises a not-found condition, the reconciliation
    issues exactly one creation call, whatever comes of it, and the
    resource it asks for is the default shape: a single pool of one
    "n1-standard-4" replica with a 100 GB "pd-ssd" boot disk. *)
Theorem ensure_absent_resource_creates_default {S} B name e (s : S) :
  get_persistent_resource B name = Raises e ->
  exn_cls e = NotFound ->
  trace_of (ensure B name s)
  = [EvGetPersistentResource name;
     EvCreatePersistentResource name [("n1-standard-4", 1, "pd-ssd", 100)]]
  /\ creation_calls (trace_of (ensure B name s))
     = [EvCreatePersistentResource name [("n1-standard-4", 1, "pd-ssd", 100)]]
  /\ (create_persistent_resource_rpc B name _TEST_REQUEST_RUNNING_DEFAULT = Returns tt ->
      outcome_of (ensure B name s) = Returns tt).
Proof.
  intros Hget Hcls.
  assert (H : trace_of (ensure B name s)
              = [EvGetPersistentResource name;
                 EvCreatePersistentResource name [("n1-standard-4", 1, "pd-ssd", 100)]]).
  { run_reconciler. rewrite Hget. cbn.
    rewrite bool_decide_eq_true_2 by exact Hcls. cbn.
    destruct (create_persistent_resource_rpc B name _TEST_REQUEST_RUNNING_DEFAULT);
      reflexivity. }
  split; [exact H|]. split; [rewrite H; reflexivity|].
  intros Hc. run_reconciler. rewrite Hget. cbn.
  rewrite bool_decide_eq_true_2 by exact Hcls. cbn. rewrite Hc. reflexivity.
Qed.

(** C6, at a backend that does not know the test cluster. *)
Lemma ensure_absent_resource_creates_default_witness :
  creation_calls
    (trace_of (ensure (mock_client (Raises (not_found _TEST_CLUSTER_RESOURCE_NAME))
                                   (Returns tt))
                 _TEST_CLUSTER_RESOURCE_NAME tt))
  = [EvCreatePersistentResource _TEST_CLUSTER_RESOURCE_NAME
       [("n1-standard-4", 1, "pd-ssd", 100)]].
Proof.
  apply (ensure_absent_resource_creates_default
           (mock_client (Raises (not_found _TEST_CLUSTER_RESOURCE_NAME)) (Returns tt))
           _TEST_CLUSTER_RESOURCE_NAME (not_found _TEST_CLUSTER_RESOURCE_NAME) tt).
  - reflexivity.
  - reflexivity.
Defined.

(** C7.  When the remote creation call raises, whatever the error, the
    creation raises a [ProvisioningError] whose cause is that very error;
    so does the reconciliation that was led to create. *)
Theorem creation_failure_is_wrapped {S} B name e (s : S) :
  create_persistent_resource_rpc B name _TEST_REQUEST_RUNNING_DEFAULT = Raises e ->
  outcome_of (create_persistent_resource B name s) = Raises (ProvisioningError e)
  /\ exn_cause (ProvisioningError e) = Some e
  /\ (forall e0, get_persistent_resource B name = Raises e0 ->
                 exn_cls e0 = NotFound ->
                 outcome_of (ensure B name s) = Raises (ProvisioningError e)).
Proof.
  intros Hc. split; [|split].
  - run_reconciler. rewrite Hc. reflexivity.
  - reflexivity.
  - intros e0 Hget Hcls. run_reconciler. rewrite Hget. cbn.
    rewrite bool_decide_eq_true_2 by exact Hcls. cbn. rewrite Hc. reflexivity.
Qed.

(** C7, at the creation mock of the unit test. *)
Lemma creation_failure_is_wrapped_witness :
  outcome_of
    (create_persistent_resource
       (mock_client (Raises (not_found _TEST_CLUSTER_RESOURCE_NAME))
                    (Raises mock_exception))
       _TEST_CLUSTER_RESOURCE_NAME tt)
  = Raises (A:=unit) (ProvisioningError mock_exception).
Proof.
  apply (creation_failure_is_wrapped
           (mock_client (Raises (not_found _TEST_CLUSTER_RESOURCE_NAME))
                        (Raises mock_exception))
           _TEST_CLUSTER_RESOURCE_NAME mock_exception tt).
  reflexivity.
Defined.

(** C8.  When the lookup raises an error that is not a not-found
    condition, the reconciliation raises that same error, as it is, after
    the lookup alone: no creation call is made. *)
Theorem ensure_lookup_error_propagates {S} B name e (s : S) :
  get_persistent_resource B name = Raises e ->
  exn_cls e <> NotFound ->
  ensure B name s = ([EvGetPersistentResource name], s, Raises e)
  /\ creation_calls (trace_of (ensure B name s)) = [].
Proof.
  intros Hget Hcls.
  assert (H : ensure B name s = ([EvGetPersistentResource name], s, Raises e)).
  { run_reconciler. rewrite Hget. cbn.
    rewrite bool_decide_eq_false_2 by exact Hcls. reflexivity. }
  rewrite H. split; reflexivity.
Qed.

(** C8, at the lookup mock of the unit test that raises [Exception]. *)
Lemma ensure_lookup_error_propagates_witness :
  ensure (mock_client (Raises mock_exception) (Returns tt))
    _TEST_CLUSTER_RESOURCE_NAME tt
  = ([EvGetPersistentResource _TEST_CLUSTER_RESOURCE_NAME], tt,
     Raises mock_exception).
Proof.
  apply (ensure_lookup_error_propagates
           (mock_client (Raises mock_exception) (Returns tt))
           _TEST_CLUSTER_RESOURCE_NAME mock_exception tt).
  - reflexivity.
  - discriminate.
Defined.

End ReconcilerSpec.

Module ChatSpec.
Import Chat.

Example parse_with_candidates :
  _parse_chat_prediction_response
    {| predictions := [ex_prediction]; deployed_model_id := "1" |} 0 0
  = Returns {| text := PyStr "Hello!";
               _prediction_response :=
                 {| predictions := [ex_prediction]; deployed_model_id := "1" |};
               is_blocked := PyBool false;
               safety_attributes := [(PyStr "Derogatory", PyFloat 1 (-3))] |}.
Proof. reflexivity. Qed.

Example parse_blocked :
  _parse_chat_prediction_response
    {| predictions := [ex_blocked_prediction]; deployed_model_id := "1" |} 0 0
  = Returns {| text := PyNone;
               _prediction_response :=
                 {| predictions := [ex_blocked_prediction]; deployed_model_id := "1" |};
               is_blocked := PyBool true;
               safety_attributes := [] |}.
Proof. reflexivity. Qed.

(** A prediction without [safetyAttributes] is not parsed at all. *)
Example parse_empty_prediction :
  _parse_chat_prediction_response
    {| predictions := [PyDict []]; deployed_model_id := "1" |} 0 0
  = Raises (Exc KeyError ["safetyAttributes"] None).
Proof. reflexivity. Qed.





Lemma append_message_history m s :
  _message_history (state_of (append_message m s)) = (_message_history s ++ [m])%list.
Proof. reflexivity. Qed.

(** [send_message] either fails and leaves the session as it was, or
    returns and appends the question and the answer. *)
Lemma send_message_cases B message a s :
  (exists tr e, send_message B message a s = (tr, s, Raises e))
  \/ (exists tr s' r,
        send_message B message a s = (tr, s', Returns r)
        /\ _message_history s'
           = (_message_history s
              ++ [{| content := PyStr message; author := "user" |};
                  {| content := text r; author := "bot" |}])%list).
Proof.
  unfold send_message. run_monad.
  destruct (endpoint_predict B _ _ _) as [resp|e]; [|left; eauto].
  destruct (_parse_chat_prediction_response resp 0 0) as [r|e]; cbn; [|left; eauto].
  right. eexists _, _, r. split; [reflexivity|]. cbn. rewrite <- app_assoc. reflexivity.
Qed.

(** The loop of the streaming call leaves the history as it was, or, once
    the stream is exhausted, appends the question and the full answer. *)
Lemma stream_loop_history message items err full pulls s :
  _message_history s
    `prefix_of` _message_history (state_of (stream_loop message items err full pulls s)).
Proof.
  revert items full s. induction pulls as [|pulls IH]; intros items full s; cbn.
  - reflexivity.
  - destruct items as [|d rest].
    + destruct err; cbn; [reflexivity|]. rewrite <- app_assoc. apply prefix_app_r.
      reflexivity.
    + destruct (_parse_chat_prediction_response _ 0 0) as [r|e]; cbn; [|reflexivity].
      destruct (text r); cbn; try reflexivity.
      unfold bind. specialize (IH rest (full ++ s0) s).
      destruct (stream_loop message rest err (full ++ s0) pulls s) as [[t s'] [x|e]];
        exact IH.
Qed.

Lemma run_op_history B op s :
  _message_history s `prefix_of` _message_history (run_op B op s).
Proof.
  destruct op as [| |message a|message a pulls]; unfold run_op; try reflexivity.
  - destruct (send_message_cases B message a s)
      as [(tr & e & ->)|(tr & s' & r & -> & Hh)]; cbn.
    + reflexivity.
    + rewrite Hh. apply prefix_app_r. reflexivity.
  - unfold send_message_streaming. destruct pulls as [|pulls]; [reflexivity|].
    unfold bind at 1, get_self. unfold bind at 1, emit.
    match goal with
    | |- context [stream_loop ?m ?items ?err ?full ?n s] =>
        pose proof (stream_loop_history m items err full n s) as H;
        destruct (stream_loop m items err full n s) as [[t s'] o]
    end.
    exact H.
Qed.

(** A stream of two chunks: read to the end, the question and the full
    answer join the history; left after the first chunk, nothing does. *)
Example streaming_read_fully :
  _message_history
    (state_of (send_message_streaming (ex_chat_backend ex_prediction)
                 "How are you?" no_args 3 ex_session))
  = (ex_history
     ++ [{| content := PyStr "How are you?"; author := "user" |};
         {| content := PyStr "Hello!Hello!"; author := "bot" |}])%list.
Proof. reflexivity. Qed.

Example streaming_read_partly :
  _message_history
    (state_of (send_message_streaming (ex_chat_backend ex_prediction)
                 "How are you?" no_args 1 ex_session))
  = ex_history.
Proof. reflexivity. Qed.

(** A blocked answer is recorded in the history with [None] as content. *)
Example send_message_blocked :
  _message_history
    (state_of (send_message (ex_chat_backend ex_blocked_prediction)
                 "How are you?" no_args ex_session))
  = (ex_history
     ++ [{| content := PyStr "How are you?"; author := "user" |};
         {| content := PyNone; author := "bot" |}])%list.
Proof. reflexivity. Qed.

(** C10.  The message history of a chat session is append-only.  A
    [send_message] that returns has appended exactly two entries to what
    was there: the caller's message with author "user", then the text of the
    response with author "bot".  And over any sequence of operations on the
    session, whatever their outcomes (reading the history, preparing a
    request, sending, streaming with any number of reads), the history at
    the start is a prefix of the history at the end: no entry is removed or
    rewritten. *)
Theorem chat_history_append_only B s :
  (forall message a tr s' r,
      send_message B message a s = (tr, s', Returns r) ->
      _message_history s'
      = (_message_history s
         ++ [{| content := PyStr message; author := "user" |};
             {| content := text r; author := "bot" |}])%list)
  /\ (forall ops,
        _message_history s `prefix_of` _message_history (run_ops B ops s)).
Proof.
  split.
  - intros message a tr s' r Hrun.
    destruct (send_message_cases B message a s)
      as [(tr0 & e & H)|(tr0 & s0 & r0 & H & Hh)];
      rewrite H in Hrun; [discriminate|].
    injection Hrun as <- <- <-. exact Hh.
  - intros ops. revert s. unfold run_ops.
    induction ops as [|op ops IH]; intros s; cbn; [reflexivity|].
    etransitivity; [apply (run_op_history B op s)|apply IH].
Qed.

(** C10, on a session with two earlier messages. *)
Lemma chat_history_append_only_witness :
  _message_history
    (state_of (send_message (ex_chat_backend ex_prediction) "How are you?" no_args ex_session))
  = [{| content := PyStr "Hi"; author := "user" |};
     {| content := PyStr "Hello!"; author := "bot" |};
     {| content := PyStr "How are you?"; author := "user" |};
     {| content := PyStr "Hello!"; author := "bot" |}].
Proof.
  apply (proj1 (chat_history_append_only (ex_chat_backend ex_prediction) ex_session)
           "How are you?" no_args
           (trace_of (send_message (ex_chat_backend ex_prediction) "How are you?"
                        no_args ex_session))
           _
           {| text := PyStr "Hello!";
              _prediction_response :=
                {| predictions := [ex_prediction]; deployed_model_id := "1" |};
              is_blocked := PyBool false;
              safety_attributes := [(PyStr "Derogatory", PyFloat 1 (-3))] |}).
  reflexivity.
Defined.

End ChatSpec.

Module UriSpec.
Import Uri.

Lemma append_String c u v : String c u ++ v = String c (u ++ v).
Proof. reflexivity. Qed.

Lemma append_Empty v : EmptyString ++ v = v.
Proof. reflexivity. Qed.

Lemma append_assoc (u v w : string) : (u ++ v) ++ w = u ++ (v ++ w).
Proof.
  induction u as [|c u IH]; [reflexivity|].
  rewrite !append_String, IH. reflexivity.
Qed.

Lemma length_append (u v : string) :
  String.length (u ++ v) = (String.length u + String.length v)%nat.
Proof.
  induction u as [|c u IH]; [reflexivity|].
  rewrite append_String. cbn. rewrite IH. reflexivity.
Qed.

Ltac str_cbn := rewrite ?append_String, ?append_Empty; cbn.

Lemma lstrip_char_app_empty c u v :
  lstrip_char c u = EmptyString -> lstrip_char c (u ++ v) = lstrip_char c v.
Proof.
  induction u as [|c' u IH]; str_cbn; [reflexivity|].
  destruct (Ascii.eqb c' c); [exact IH|discriminate].
Qed.

Lemma lstrip_char_app_nonempty c u v :
  lstrip_char c u <> EmptyString ->
  lstrip_char c (u ++ v) = lstrip_char c u ++ v.
Proof.
  induction u as [|c' u IH]; str_cbn; [congruence|].
  destruct (Ascii.eqb c' c); [exact IH|reflexivity].
Qed.

Lemma rstrip_char_app_empty c u v :
  rstrip_char c v = EmptyString -> rstrip_char c (u ++ v) = rstrip_char c u.
Proof.
  intros Hv. induction u as [|c' u IH]; str_cbn; [exact Hv|].
  rewrite IH. reflexivity.
Qed.

Lemma rstrip_char_app_nonempty c u v :
  rstrip_char c v <> EmptyString ->
  rstrip_char c (u ++ v) = u ++ rstrip_char c v.
Proof.
  intros Hv. induction u as [|c' u IH]; str_cbn; [reflexivity|].
  rewrite IH. destruct u; str_cbn; destruct (rstrip_char c v); congruence.
Qed.

Lemma rstrip_char_idem c s : rstrip_char c (rstrip_char c s) = rstrip_char c s.
Proof.
  induction s as [|c' s IH]; cbn; [reflexivity|].
  destruct (rstrip_char c s) as [|x r] eqn:E.
  - destruct (Ascii.eqb c' c) eqn:Ec; cbn; [reflexivity|]. rewrite Ec. reflexivity.
  - cbn. cbn in IH. rewrite IH. reflexivity.
Qed.

Lemma lstrip_char_idem c s : lstrip_char c (lstrip_char c s) = lstrip_char c s.
Proof.
  induction s as [|c' s IH]; cbn; [reflexivity|].
  destruct (Ascii.eqb c' c) eqn:Ec; [exact IH|]. cbn. rewrite Ec. reflexivity.
Qed.

Lemma lstrip_empty_rstrip_empty c s :
  lstrip_char c s = EmptyString -> rstrip_char c s = EmptyString.
Proof.
  induction s as [|c' s IH]; cbn; [reflexivity|].
  destruct (Ascii.eqb c' c); [|discriminate].
  intros H. rewrite (IH H). reflexivity.
Qed.

Lemma rstrip_nonempty_head c x t :
  Ascii.eqb x c = false -> rstrip_char c (String x t) <> EmptyString.
Proof.
  intros Hx. cbn. destruct (rstrip_char c t); [rewrite Hx|]; discriminate.
Qed.

Lemma lstrip_head c s x t :
  lstrip_char c s = String x t -> Ascii.eqb x c = false.
Proof.
  induction s as [|c' s IH]; cbn; [discriminate|].
  destruct (Ascii.eqb c' c) eqn:Ec; [exact IH|].
  intros [= <- <-]. exact Ec.
Qed.

Lemma rstrip_head c x t :
  Ascii.eqb x c = false ->
  exists r, rstrip_char c (String x t) = String x r.
Proof.
  intros Hx. cbn. destruct (rstrip_char c t); [rewrite Hx|]; eauto.
Qed.

Lemma strip_commute c s :
  rstrip_char c (lstrip_char c s) = lstrip_char c (rstrip_char c s).
Proof.
  induction s as [|c' s IH]; [reflexivity|].
  cbn [lstrip_char]. destruct (Ascii.eqb c' c) eqn:Ec.
  - rewrite IH. cbn [rstrip_char].
    destruct (rstrip_char c s) as [|x r]; [rewrite Ec; reflexivity|].
    cbn [lstrip_char]. rewrite Ec. reflexivity.
  - destruct (rstrip_head c c' s Ec) as [r Hr]. rewrite Hr.
    cbn [lstrip_char]. rewrite Ec. reflexivity.
Qed.

Lemma rstrip_char_slashes c s n :
  rstrip_char c (s ++ repeat_char c n) = rstrip_char c s.
Proof.
  apply rstrip_char_app_empty. induction n as [|n IH]; cbn; [reflexivity|].
  rewrite IH, Ascii.eqb_refl. reflexivity.
Qed.

Lemma lstrip_char_slashes c s n :
  lstrip_char c (repeat_char c n ++ s) = lstrip_char c s.
Proof.
  induction n as [|n IH]; cbn; str_cbn; [reflexivity|].
  rewrite Ascii.eqb_refl. exact IH.
Qed.

(** X1.  Joining is blind to the slashes at the seam: any number of
    slashes at the end of the URI and at the start of the fragment gives the
    same result as none.  The result is a part that does not end in a slash,
    one slash, and a part that does not start with one. *)
Theorem uri_join_ignores_seam_slashes uri fragment n m :
  _uri_join (uri ++ repeat_char "/" n) (repeat_char "/" m ++ fragment)
  = _uri_join uri fragment
  /\ exists u f,
       _uri_join uri fragment = u ++ "/" ++ f
       /\ rstrip_char "/" u = u /\ lstrip_char "/" f = f.
Proof.
  unfold _uri_join. rewrite rstrip_char_slashes, lstrip_char_slashes.
  split; [reflexivity|].
  exists (rstrip_char "/" uri), (lstrip_char "/" fragment).
  split; [reflexivity|]. split; [apply rstrip_char_idem|apply lstrip_char_idem].
Qed.

(** X2.  Joining is associative: appending two fragments one after the
    other gives the same URI as appending their join. *)
Theorem uri_join_assoc a b c :
  _uri_join (_uri_join a b) c = _uri_join a (_uri_join b c).
Proof.
  unfold _uri_join.
  destruct (lstrip_char "/" b) as [|x t] eqn:Hb.
  - rewrite (lstrip_empty_rstrip_empty _ _ Hb).
    rewrite (rstrip_char_app_empty "/" (rstrip_char "/" a) ("/" ++ "")) by reflexivity.
    rewrite rstrip_char_idem. str_cbn.
    rewrite lstrip_char_idem. reflexivity.
  - pose proof (lstrip_head _ _ _ _ Hb) as Hx.
    assert (Hne : rstrip_char "/" (String x t) <> EmptyString)
      by (apply rstrip_nonempty_head; exact Hx).
    assert (Hmid : rstrip_char "/" ("/" ++ String x t)
                   = "/" ++ rstrip_char "/" (String x t))
      by (apply rstrip_char_app_nonempty; exact Hne).
    rewrite (rstrip_char_app_nonempty "/" (rstrip_char "/" a) ("/" ++ String x t))
      by (rewrite Hmid; discriminate).
    rewrite Hmid.
    assert (Hcomm : rstrip_char "/" (String x t) = lstrip_char "/" (rstrip_char "/" b))
      by (rewrite <- Hb; apply strip_commute).
    rewrite (lstrip_char_app_nonempty "/" (rstrip_char "/" b))
      by (rewrite <- Hcomm; exact Hne).
    rewrite <- Hcomm. rewrite !append_assoc. reflexivity.
Qed.

Lemma replace_char_absent a b s :
  has_char a s = false -> replace_char a b s = s.
Proof.
  induction s as [|c s IH]; cbn; [reflexivity|].
  destruct (Ascii.eqb c a); cbn; [discriminate|].
  intros H. rewrite (IH H). reflexivity.
Qed.

Lemma replace_char_app a b u v :
  replace_char a b (u ++ v) = replace_char a b u ++ replace_char a b v.
Proof.
  induction u as [|c u IH]; [reflexivity|].
  rewrite append_String. cbn. rewrite IH. reflexivity.
Qed.

Lemma rsplit_dash_absent s : has_char "-" s = false -> rsplit_dash s = None.
Proof.
  induction s as [|c s IH]; cbn; [reflexivity|].
  destruct (Ascii.eqb c "-") eqn:Ec; cbn; [discriminate|].
  intros H. rewrite (IH H). reflexivity.
Qed.

Lemma rsplit_dash_last h t :
  has_char "-" t = false -> rsplit_dash (h ++ "-" ++ t) = Some (h, t).
Proof.
  intros Ht. induction h as [|c h IH].
  - rewrite append_Empty, append_String, append_Empty. cbn [rsplit_dash].
    rewrite (rsplit_dash_absent t Ht). reflexivity.
  - rewrite append_String. cbn [rsplit_dash]. rewrite IH. reflexivity.
Qed.

Lemma rsplit_dash_sound s h t :
  rsplit_dash s = Some (h, t) -> s = h ++ "-" ++ t /\ has_char "-" t = false.
Proof.
  revert h t. induction s as [|c s IH]; intros h t; cbn; [discriminate|].
  destruct (rsplit_dash s) as [[h' t']|] eqn:E.
  - intros [= <- <-]. destruct (IH h' t' eq_refl) as [-> Ht].
    split; [reflexivity|exact Ht].
  - destruct (Ascii.eqb c "-") eqn:Ec; [|discriminate].
    intros [= <- <-]. apply Ascii.eqb_eq in Ec. subst c.
    split; [reflexivity|].
    clear IH. induction s as [|c s IHs]; [reflexivity|].
    cbn in E |- *. destruct (rsplit_dash s) as [[]|]; [discriminate|].
    destruct (Ascii.eqb c "-"); [discriminate|]. cbn. apply IHs. reflexivity.
Qed.

(** X3.  The label under which the tuned versions of a model are listed
    and the loader's way back agree: for a model "name@version" (no "@" in
    the name, neither "@" nor "-" in the version) the listing filter asks
    for the label "name-version", and the loader turns that label back into
    the publisher model "publishers/google/models/name@version". *)
Theorem tuning_label_round_trip model_name version :
  has_char "@" model_name = false ->
  has_char "@" version = false ->
  has_char "-" version = false ->
  tuning_label_of (model_name ++ "@" ++ version) = model_name ++ "-" ++ version
  /\ Tuning._get_model_id_from_tuning_model_id
       (tuning_label_of (model_name ++ "@" ++ version))
     = "publishers/google/models/" ++ model_name ++ "@" ++ version.
Proof.
  intros Hn Hv Hd.
  assert (Hl : tuning_label_of (model_name ++ "@" ++ version)
               = model_name ++ "-" ++ version).
  { unfold tuning_label_of. rewrite !replace_char_app.
    rewrite (replace_char_absent _ _ _ Hn), (replace_char_absent _ _ _ Hv).
    reflexivity. }
  split; [exact Hl|]. rewrite Hl.
  unfold Tuning._get_model_id_from_tuning_model_id, rpartition_dash.
  rewrite (rsplit_dash_last _ _ Hd). reflexivity.
Qed.

(** X3, at text-bison@001. *)
Lemma tuning_label_round_trip_witness :
  tuning_label_of "text-bison@001" = "text-bison-001"
  /\ Tuning._get_model_id_from_tuning_model_id (tuning_label_of "text-bison@001")
     = "publishers/google/models/text-bison@001".
Proof.
  apply (tuning_label_round_trip "text-bison" "001"); reflexivity.
Defined.

(** X4.  The base model ID of a tuning model ID is split at the last
    dash: what follows it is the version, which has no dash of its own, and
    what precedes it is the model name.  An ID without any dash is never
    refused: it becomes the version of a model with an empty name. *)
Theorem model_id_splits_at_last_dash tuning_model_id :
  exists model_name version,
    Tuning._get_model_id_from_tuning_model_id tuning_model_id
    = "publishers/google/models/" ++ model_name ++ "@" ++ version
    /\ has_char "-" version = false
    /\ (if has_char "-" tuning_model_id
        then tuning_model_id = model_name ++ "-" ++ version
        else model_name = EmptyString /\ version = tuning_model_id).
Proof.
  unfold Tuning._get_model_id_from_tuning_model_id, rpartition_dash.
  destruct (rsplit_dash tuning_model_id) as [[h t]|] eqn:E.
  - destruct (rsplit_dash_sound _ _ _ E) as [Hs Ht].
    exists h, t. split; [reflexivity|]. split; [exact Ht|].
    destruct (has_char "-" tuning_model_id) eqn:Hc; [exact Hs|].
    rewrite (rsplit_dash_absent _ Hc) in E. discriminate.
  - exists EmptyString, tuning_model_id. split; [reflexivity|].
    assert (Hc : has_char "-" tuning_model_id = false).
    { clear -E. induction tuning_model_id as [|c s IH]; [reflexivity|].
      cbn in E |- *. destruct (rsplit_dash s) as [[]|]; [discriminate|].
      destruct (Ascii.eqb c "-"); [discriminate|]. cbn. apply IH. reflexivity. }
    rewrite Hc. repeat split.
Qed.

End UriSpec.

Module TextGenerationSpec.
Import Chat TextGeneration.

Lemma for_each_Forall2 {A B} (f : A -> outcome B) l ys :
  for_each f l = Returns ys -> Forall2 (fun y x => f x = Returns y) ys l.
Proof.
  revert ys. induction l as [|x l IH]; intros ys; cbn.
  - intros [= <-]. constructor.
  - destruct (f x) as [y|e] eqn:Hx; cbn; [|discriminate].
    destruct (for_each f l) as [ys'|e]; cbn; [|discriminate].
    intros [= <-]. constructor; [exact Hx|apply IH; reflexivity].
Qed.

Lemma for_each_raises {A B} (f : A -> outcome B) l x e :
  In x l -> f x = Raises e -> exists e', for_each f l = Raises e'.
Proof.
  intros Hin Hx. induction l as [|y l IH]; [destruct Hin|]. cbn.
  destruct Hin as [->|Hin].
  - rewrite Hx. cbn. eauto.
  - destruct (f y); cbn; [|eauto].
    destruct (IH Hin) as [e' ->]. cbn. eauto.
Qed.

Lemma list_getitem_0 {A} (x : A) l : list_getitem (x :: l) 0 = Returns x.
Proof.
  unfold list_getitem, py_index. cbn [List.length Z.ltb Z.compare Z.leb andb].
  destruct (0 <? Z.of_nat (S (List.length l))) eqn:E.
  - reflexivity.
  - apply Z.ltb_ge in E. lia.
Qed.

Lemma py_get_dict d k v : py_get (PyDict d) k v = Returns (dict_get k d v).
Proof. reflexivity. Qed.

Lemma dict_get_some k d v x : dict_lookup k d = Some x -> dict_get k d v = x.
Proof. unfold dict_get. intros ->. reflexivity. Qed.

Lemma batch_response_content resp p r :
  batch_response resp p = Returns r ->
  py_getitem_key p "content" = Returns (text r) /\ _prediction_response r = resp.
Proof.
  unfold batch_response.
  repeat (match goal with
          | |- context [obind ?x _] => destruct x; cbn [obind]; [|discriminate]
          end).
  intros [= <-]. split; reflexivity.
Qed.

(** X5.  A batch prediction that returns gives one response per
    prediction the service sent back, in the service's order, each carrying
    the content of its prediction and the whole service response; the
    number of prompts plays no part.  It made exactly one endpoint call, for
    one instance per prompt, and left the calling object alone. *)
Theorem batch_predict_one_response_per_prediction {S} E name prompts a
    (s s' : S) tr results :
  _batch_predict E name prompts a s = (tr, s', Returns results) ->
  exists resp,
    predict_rpc E name (map (fun p => PyDict [("content", PyStr p)]) prompts)
      (PyDict (batch_parameters a)) = Returns resp
    /\ Forall2 (fun r p => py_getitem_key p "content" = Returns (text r)
                           /\ _prediction_response r = resp)
         results (predictions resp)
    /\ List.length results = List.length (predictions resp)
    /\ tr = [EvEndpointPredict name
               (PyList (map (fun p => PyDict [("content", PyStr p)]) prompts))
               (PyDict (batch_parameters a))]
    /\ s' = s.
Proof.
  unfold _batch_predict, bind, call, lift.
  destruct (predict_rpc E name _ _) as [resp|e]; [|discriminate].
  destruct (for_each (batch_response resp) (predictions resp)) as [rs|e] eqn:Hf;
    [|discriminate].
  intros [= <- <- <-]. exists resp. split; [reflexivity|].
  pose proof (for_each_Forall2 _ _ _ Hf) as HF.
  split; [|split; [exact (Forall2_length _ _ _ HF)|split; reflexivity]].
  eapply Forall2_impl; [exact HF|].
  intros r p Hr. exact (batch_response_content _ _ _ Hr).
Qed.

(** X5, with two prompts answered by three predictions. *)
Lemma batch_predict_one_response_per_prediction_witness :
  exists resp,
    predict_rpc (ex_endpoint [ex_text_prediction "a"; ex_text_prediction "b";
                              ex_text_prediction "c"])
      "endpoint" (map (fun p => PyDict [("content", PyStr p)]) ["one"; "two"])
      (PyDict (batch_parameters no_args)) = Returns resp
    /\ List.length (predictions resp) = 3%nat.
Proof.
  destruct (batch_predict_one_response_per_prediction
              (ex_endpoint [ex_text_prediction "a"; ex_text_prediction "b";
                            ex_text_prediction "c"])
              "endpoint" ["one"; "two"] no_args tt tt _ _ eq_refl)
    as (resp & Hrpc & _ & Hlen & _).
  exists resp. split; [exact Hrpc|]. rewrite <- Hlen. reflexivity.
Defined.

(** X6.  [predict] returns the response of the first prediction and
    drops the others, but only after all of them have been parsed: with no
    prediction at all it raises [IndexError], and a later prediction that
    does not parse makes the whole call fail. *)
Theorem predict_takes_first {S} E name prompt a (s : S) resp :
  predict_rpc E name [PyDict [("content", PyStr prompt)]]
    (PyDict (batch_parameters a)) = Returns resp ->
  (predictions resp = [] ->
   outcome_of (predict E name prompt a s)
   = Raises (Exc IndexError ["list index out of range"] None))
  /\ (forall r rs,
        for_each (batch_response resp) (predictions resp) = Returns (r :: rs) ->
        outcome_of (predict E name prompt a s) = Returns r)
  /\ (forall p e,
        In p (predictions resp) -> batch_response resp p = Raises e ->
        exists e', outcome_of (predict E name prompt a s) = Raises e').
Proof.
  intros Hrpc. unfold predict, _batch_predict, bind, call, lift. cbn [map].
  rewrite Hrpc. split; [|split].
  - intros ->. reflexivity.
  - intros r rs ->. reflexivity.
  - intros p e Hin Hp. destruct (for_each_raises _ _ _ _ Hin Hp) as [e' ->].
    exists e'. reflexivity.
Qed.

(** X6, at an endpoint that sends nothing back. *)
Lemma predict_takes_first_witness :
  outcome_of (predict (ex_endpoint []) "endpoint" "What is life?" no_args tt)
  = Raises (Exc IndexError ["list index out of range"] None).
Proof.
  apply (proj1 (predict_takes_first (ex_endpoint []) "endpoint" "What is life?"
                  no_args tt {| predictions := []; deployed_model_id := "1" |}
                  eq_refl)).
  reflexivity.
Defined.

(** X7.  A prediction without [safetyAttributes] is not an error for the
    text model: batch and streaming both read it as not blocked, with no
    safety attributes.  The chat parser, given the same prediction, raises
    [KeyError]. *)
Theorem missing_safety_attributes_text_vs_chat resp d content :
  dict_lookup "safetyAttributes" d = None ->
  dict_lookup "content" d = Some content ->
  batch_response resp (PyDict d)
  = Returns {| text := content; _prediction_response := resp;
               is_blocked := PyBool false; safety_attributes := [] |}
  /\ stream_response (PyDict d)
     = Returns {| text := content;
                  _prediction_response :=
                    {| predictions := [PyDict d]; deployed_model_id := "" |};
                  is_blocked := PyBool false; safety_attributes := [] |}
  /\ _parse_chat_prediction_response
       {| predictions := [PyDict d]; deployed_model_id := "" |} 0 0
     = Raises (Exc KeyError ["safetyAttributes"] None).
Proof.
  intros Hs Hc. unfold batch_response, stream_response,
    _parse_chat_prediction_response. cbn [predictions]. rewrite list_getitem_0.
  unfold py_get, py_getitem_key, dict_get.
  cbn. rewrite Hs, Hc. cbn. repeat split.
Qed.

(** X7, at a prediction that carries its content only. *)
Lemma missing_safety_attributes_text_vs_chat_witness :
  _parse_chat_prediction_response
    {| predictions := [PyDict [("content", PyStr "Hi")]]; deployed_model_id := "" |}
    0 0
  = Raises (Exc KeyError ["safetyAttributes"] None).
Proof.
  apply (missing_safety_attributes_text_vs_chat
           {| predictions := []; deployed_model_id := "" |}
           [("content", PyStr "Hi")] (PyStr "Hi")); reflexivity.
Defined.

(** X8.  Null categories are tolerated by the streaming path only: when
    the safety attributes of a prediction carry [categories: null], the
    batch path raises [TypeError] while the streaming path returns a
    response without safety attributes. *)
Theorem null_categories_batch_vs_stream resp d sa content scores :
  dict_lookup "safetyAttributes" d = Some (PyDict sa) ->
  dict_lookup "content" d = Some content ->
  dict_lookup "categories" sa = Some PyNone ->
  py_iter (py_or (dict_get "scores" sa PyNone) (PyList [])) = Returns scores ->
  batch_response resp (PyDict d)
  = Raises (Exc TypeError ["object is not iterable"] None)
  /\ stream_response (PyDict d)
     = Returns {| text := content;
                  _prediction_response :=
                    {| predictions := [PyDict d]; deployed_model_id := "" |};
                  is_blocked := dict_get "blocked" sa (PyBool false);
                  safety_attributes := [] |}.
Proof.
  intros Hs Hc Hcat Hsc. unfold batch_response, stream_response.
  rewrite !py_get_dict. cbn [obind].
  rewrite !(dict_get_some "safetyAttributes" d _ _ Hs).
  unfold py_getitem_key. rewrite Hc. cbn [obind].
  rewrite !py_get_dict. cbn [obind].
  rewrite !(dict_get_some "categories" sa _ _ Hcat). split.
  - reflexivity.
  - unfold dict_of_zip. change (py_or PyNone (PyList [])) with (PyList []).
    cbn [py_iter]. rewrite Hsc. reflexivity.
Qed.

(** X8, at a chunk as streams send them. *)
Lemma null_categories_batch_vs_stream_witness :
  batch_response {| predictions := []; deployed_model_id := "" |} ex_null_categories
  = Raises (Exc TypeError ["object is not iterable"] None)
  /\ text_stream_loop [ex_null_categories] None 2
     = ([{| text := PyStr "partial";
            _prediction_response :=
              {| predictions := [ex_null_categories]; deployed_model_id := "" |};
            is_blocked := PyBool false;
            safety_attributes := [] |}], GenExhausted).
Proof.
  split.
  - apply (null_categories_batch_vs_stream
             {| predictions := []; deployed_model_id := "" |}
             [("content", PyStr "partial");
              ("safetyAttributes",
               PyDict [("categories", PyNone); ("scores", PyNone)])]
             [("categories", PyNone); ("scores", PyNone)]
             (PyStr "partial") []); reflexivity.
  - reflexivity.
Defined.

(** X9.  Which generation parameters a batch prediction sends: the
    temperature whenever it is not [None], zero included; the output limit,
    top-p, top-k and the stop sequences only when they are truthy, so that a
    zero or an empty list is left out like [None]. *)
Theorem batch_parameters_sent a :
  dict_lookup "temperature" (batch_parameters a)
  = match temperature a with PyNone => None | t => Some t end
  /\ dict_lookup "maxDecodeSteps" (batch_parameters a)
     = (if truthy (max_output_tokens a) then Some (max_output_tokens a) else None)
  /\ dict_lookup "topP" (batch_parameters a)
     = (if truthy (top_p a) then Some (top_p a) else None)
  /\ dict_lookup "topK" (batch_parameters a)
     = (if truthy (top_k a) then Some (top_k a) else None)
  /\ dict_lookup "stopSequences" (batch_parameters a)
     = (if truthy (stop_sequences a) then Some (stop_sequences a) else None).
Proof.
  destruct a as [m t k p st]. unfold batch_parameters, set_if_truthy. cbn.
  destruct (truthy m), (truthy k), (truthy p), (truthy st), t; cbn; repeat split.
Qed.

Lemma rstrip_char_prefix c s : exists w, s = Uri.rstrip_char c s ++ w.
Proof.
  induction s as [|c' s [w IH]]; cbn; [exists EmptyString; reflexivity|].
  destruct (Uri.rstrip_char c s) as [|x r] eqn:E.
  - destruct (Ascii.eqb c' c).
    + exists (String c' s). reflexivity.
    + exists w. rewrite UriSpec.append_String, UriSpec.append_Empty.
      rewrite UriSpec.append_Empty in IH. rewrite <- IH. reflexivity.
  - exists w. rewrite UriSpec.append_String, <- IH. reflexivity.
Qed.

Lemma rstrip_char_grows c u w :
  exists w', Uri.rstrip_char c (Uri.rstrip_char c u ++ w) = Uri.rstrip_char c u ++ w'.
Proof.
  destruct (Uri.rstrip_char c w) as [|x r] eqn:E.
  - exists EmptyString. rewrite (UriSpec.rstrip_char_app_empty _ _ _ E).
    rewrite UriSpec.rstrip_char_idem.
    clear. induction (Uri.rstrip_char c u) as [|a s IH]; [reflexivity|].
    rewrite UriSpec.append_String, <- IH. reflexivity.
  - exists (String x r). rewrite UriSpec.rstrip_char_app_nonempty by congruence.
    rewrite E. reflexivity.
Qed.

(** The three ways a message to a [_ChatSession] can end. *)
Lemma legacy_send_message_cases E message m t k p s :
  let r := send_message E message m t k p s in
  (exists e, outcome_of r = Raises e /\ state_of r = s)
  \/ (exists v e,
        outcome_of r = Raises e /\ exn_cls e = AttributeError
        /\ (forall txt, v <> PyStr txt)
        /\ _history (state_of r) = (_history s ++ [(message, v)])%list
        /\ _history_text (state_of r) = _history_text s)
  \/ (exists resp txt,
        outcome_of r = Returns resp /\ text resp = PyStr txt
        /\ _history (state_of r) = (_history s ++ [(message, PyStr txt)])%list
        /\ _history_text (state_of r)
           = chat_prompt (_history_text s) message
               ++ Uri.rstrip_char (ascii_of_nat 10) txt ++ newline).
Proof.
  unfold send_message, predict, _batch_predict.
  unfold bind, get_self, call, lift, put_self, ret, raise_, raise. cbn.
  destruct (predict_rpc E _ _ _) as [resp|e]; cbn; [|left; eauto].
  destruct (for_each (batch_response resp) (predictions resp)) as [rs|e]; cbn;
    [|left; eauto].
  destruct (list_getitem rs 0) as [r|e]; cbn; [|left; eauto].
  destruct (text r) as [| | | |txt| |] eqn:Ht; cbn.
  5:{ right. right. exists r, txt. repeat split; assumption. }
  all: right; left; eexists _, _; repeat split; try reflexivity;
    intros txt; discriminate.
Qed.

(** X10.  A message to a [_ChatSession] ends in one of three ways.  The
    prediction fails: the session is as before.  The response text is not a
    string: the call raises [AttributeError], yet the exchange is already in
    the history while the transcript is not updated.  Or it returns: the
    exchange is appended to the history and the transcript becomes the
    prompt that was sent followed by the response, stripped of trailing
    newlines, and a newline. *)
Theorem legacy_send_message_outcomes E message m t k p s :
  (exists e,
      outcome_of (send_message E message m t k p s) = Raises e
      /\ state_of (send_message E message m t k p s) = s)
  \/ (exists v e,
        outcome_of (send_message E message m t k p s) = Raises e
        /\ exn_cls e = AttributeError
        /\ (forall txt, v <> PyStr txt)
        /\ _history (state_of (send_message E message m t k p s))
           = (_history s ++ [(message, v)])%list
        /\ _history_text (state_of (send_message E message m t k p s))
           = _history_text s)
  \/ (exists resp txt,
        outcome_of (send_message E message m t k p s) = Returns resp
        /\ text resp = PyStr txt
        /\ _history (state_of (send_message E message m t k p s))
           = (_history s ++ [(message, PyStr txt)])%list
        /\ _history_text (state_of (send_message E message m t k p s))
           = chat_prompt (_history_text s) message
               ++ Uri.rstrip_char (ascii_of_nat 10) txt ++ newline).
Proof. exact (legacy_send_message_cases E message m t k p s). Qed.

Lemma legacy_send_step E message s :
  let s' := state_of (send_message E message PyNone PyNone PyNone PyNone s) in
  _history s `prefix_of` _history s'
  /\ (exists w, Uri.rstrip_char (ascii_of_nat 10) (_history_text s')
                = Uri.rstrip_char (ascii_of_nat 10) (_history_text s) ++ w)
  /\ (_history_text s = EmptyString \/ ends_with_newline (_history_text s) ->
      _history_text s' = EmptyString \/ ends_with_newline (_history_text s')).
Proof.
  cbv zeta.
  destruct (legacy_send_message_cases E message PyNone PyNone PyNone PyNone s)
    as [(e & _ & ->)|[(v & e & _ & _ & _ & Hh & Ht)|(resp & txt & _ & _ & Hh & Ht)]].
  - split; [reflexivity|]. split; [exists EmptyString|auto].
    clear. induction (Uri.rstrip_char _ _) as [|a u IH]; [reflexivity|].
    rewrite UriSpec.append_String, <- IH. reflexivity.
  - rewrite Hh, Ht. split; [apply prefix_app_r; reflexivity|].
    split; [exists EmptyString|auto].
    clear. induction (Uri.rstrip_char _ _) as [|a u IH]; [reflexivity|].
    rewrite UriSpec.append_String, <- IH. reflexivity.
  - rewrite Hh, Ht. split; [apply prefix_app_r; reflexivity|]. split.
    + unfold chat_prompt. destruct (negb (String.eqb (_history_text s) "")) eqn:En.
      * rewrite !UriSpec.append_assoc. apply rstrip_char_grows.
      * destruct (_history_text s); [|discriminate]. cbn [Uri.rstrip_char].
        rewrite !UriSpec.append_Empty. eexists. reflexivity.
    + intros _. right. unfold ends_with_newline.
      eexists. rewrite <- UriSpec.append_assoc. reflexivity.
Qed.

(** X11.  Over any sequence of messages to a [_ChatSession], whatever
    their outcomes, the history only grows (the history at the start is a
    prefix of the history at the end) and so does the transcript, read
    without its trailing newlines; and a transcript that was empty or ended
    in a newline is still empty or still ends in a newline. *)
Theorem legacy_session_grows E messages s :
  _history s `prefix_of` _history (send_all E messages s)
  /\ (exists w,
        Uri.rstrip_char (ascii_of_nat 10) (_history_text (send_all E messages s))
        = Uri.rstrip_char (ascii_of_nat 10) (_history_text s) ++ w)
  /\ (_history_text s = EmptyString \/ ends_with_newline (_history_text s) ->
      _history_text (send_all E messages s) = EmptyString
      \/ ends_with_newline (_history_text (send_all E messages s))).
Proof.
  revert s. unfold send_all.
  induction messages as [|message messages IH]; intros s; cbn [fold_left].
  - split; [reflexivity|]. split; [|auto]. exists EmptyString.
    induction (Uri.rstrip_char _ _) as [|a u IHu]; [reflexivity|].
    rewrite UriSpec.append_String, <- IHu. reflexivity.
  - destruct (legacy_send_step E message s) as (H1 & [w1 H2] & H3).
    destruct (IH (state_of (send_message E message PyNone PyNone PyNone PyNone s)))
      as (I1 & [w2 I2] & I3).
    split; [etransitivity; eassumption|]. split.
    + exists (w1 ++ w2). rewrite I2, H2, UriSpec.append_assoc. reflexivity.
    + intros H. apply I3, H3, H.
Qed.

(** X11, on a fresh session after two messages. *)
Lemma legacy_session_grows_witness :
  _history_text
    (send_all (ex_endpoint [ex_text_prediction "Fine."]) ["Hi"; "How are you?"]
       (_ChatSession_init "endpoint" (PyInt 128) PyNone PyNone PyNone))
  = EmptyString
  \/ ends_with_newline
       (_history_text
          (send_all (ex_endpoint [ex_text_prediction "Fine."]) ["Hi"; "How are you?"]
             (_ChatSession_init "endpoint" (PyInt 128) PyNone PyNone PyNone))).
Proof.
  apply (proj2 (proj2 (legacy_session_grows
                         (ex_endpoint [ex_text_prediction "Fine."])
                         ["Hi"; "How are you?"]
                         (_ChatSession_init "endpoint" (PyInt 128) PyNone PyNone PyNone)))).
  left. reflexivity.
Defined.

(** X12.  The code model never reports blocked content: the response of
    [predict] has [is_blocked] false and no safety attributes whatever the
    prediction carries, and its text is the content of the first
    prediction. *)
Theorem code_predict_ignores_safety {S} E name prefix suffix m t st (s s' : S) tr r :
  code_predict E name prefix suffix m t st s = (tr, s', Returns r) ->
  is_blocked r = PyBool false
  /\ safety_attributes r = []
  /\ exists p rest,
       predictions (_prediction_response r) = p :: rest
       /\ py_getitem_key p "content" = Returns (text r).
Proof.
  unfold code_predict, bind, call, lift, ret.
  destruct (predict_rpc E name _ _) as [resp|e]; [|discriminate].
  destruct (predictions resp) as [|p rest] eqn:Hp; [discriminate|].
  rewrite list_getitem_0.
  destruct (py_getitem_key p "content") as [c|e] eqn:Hc; [|discriminate].
  intros [= <- <- <-]. cbn. split; [reflexivity|]. split; [reflexivity|].
  exists p, rest. split; [exact Hp|exact Hc].
Qed.

(** X12, at a prediction that says it was blocked. *)
Lemma code_predict_ignores_safety_witness :
  exists r,
    outcome_of (code_predict (ex_endpoint [ex_blocked_code]) "endpoint" "def f():"
                  None PyNone PyNone PyNone tt) = Returns r
    /\ is_blocked r = PyBool false.
Proof.
  eexists. split; [reflexivity|].
  apply (proj1 (code_predict_ignores_safety (S:=unit) (ex_endpoint [ex_blocked_code])
                  "endpoint" "def f():" None PyNone PyNone PyNone tt tt _ _ eq_refl)).
Defined.

Lemma embedding_instance_error input e :
  embedding_instance input = Raises e ->
  exn_cls e = TypeError /\ exists shown, input = InputOther shown.
Proof.
  destruct input; cbn; try discriminate. intros [= <-]. eauto.
Qed.

Lemma for_each_error {A B} (f : A -> outcome B) l e :
  for_each f l = Raises e -> exists x, In x l /\ f x = Raises e.
Proof.
  induction l as [|x l IH]; cbn; [discriminate|].
  destruct (f x) as [y|e'] eqn:Hx; cbn.
  - destruct (for_each f l) as [ys|e'']; cbn; [discriminate|].
    intros [= <-]. destruct (IH eq_refl) as (x' & Hin & Hx'). eauto.
  - intros [= <-]. eauto.
Qed.

(** X13.  An input that is neither a string nor a [TextEmbeddingInput],
    anywhere in the list, makes [get_embeddings] raise [TypeError] before
    the endpoint is called. *)
Theorem get_embeddings_rejects_before_call {S} E name texts auto shown (s : S) :
  In (InputOther shown) texts ->
  exists e,
    get_embeddings E name texts auto s = ([], s, Raises e)
    /\ exn_cls e = TypeError.
Proof.
  intros Hin. unfold get_embeddings, bind, lift.
  destruct (for_each_raises embedding_instance texts (InputOther shown) _ Hin eq_refl)
    as [e He].
  rewrite He. exists e. split; [reflexivity|].
  destruct (for_each_error _ _ _ He) as (x & _ & Hx).
  exact (proj1 (embedding_instance_error _ _ Hx)).
Qed.

(** X13, with an unsupported input after a supported one. *)
Lemma get_embeddings_rejects_before_call_witness :
  exists e,
    get_embeddings (ex_endpoint [ex_embedding_prediction]) "endpoint"
      [InputStr "What is life?"; InputOther "42"] true tt
    = ([], tt, Raises e)
    /\ exn_cls e = TypeError.
Proof.
  apply (get_embeddings_rejects_before_call (ex_endpoint [ex_embedding_prediction])
           "endpoint" [InputStr "What is life?"; InputOther "42"] true "42" tt).
  right. left. reflexivity.
Defined.

Lemma embedding_instance_content input i :
  embedding_instance input = Returns i ->
  py_getitem_key i "content" = Returns (PyStr (input_text input)).
Proof.
  destruct input as [text|text task title|shown]; cbn; [| |discriminate].
  - intros [= <-]. reflexivity.
  - intros [= <-]. unfold set_if_given.
    destruct task as [task|], title as [title|]; cbn;
      repeat (match goal with
              | |- context [negb (String.eqb ?x "")] =>
                  destruct (negb (String.eqb x "")); cbn
              end); reflexivity.
Qed.

(** X14.  When every input is a string or a [TextEmbeddingInput],
    [get_embeddings] calls the endpoint exactly once, with one instance per
    input, in order, whose content is the text of that input, and with the
    single parameter [autoTruncate]. *)
Theorem get_embeddings_instances {S} E name texts auto (s : S) :
  (forall shown, ~ In (InputOther shown) texts) ->
  exists instances,
    trace_of (get_embeddings E name texts auto s)
    = [EvEndpointPredict name (PyList instances)
         (PyDict [("autoTruncate", PyBool auto)])]
    /\ List.length instances = List.length texts
    /\ Forall2 (fun i input =>
                  py_getitem_key i "content" = Returns (PyStr (input_text input)))
         instances texts.
Proof.
  intros Hok. unfold get_embeddings, bind, lift, call.
  destruct (for_each embedding_instance texts) as [instances|e] eqn:Hf.
  - exists instances.
    pose proof (for_each_Forall2 _ _ _ Hf) as HF.
    split; [|split; [exact (Forall2_length _ _ _ HF)|]].
    + destruct (predict_rpc E name instances _) as [resp|e]; cbn; [|reflexivity].
      destruct (for_each _ _); reflexivity.
    + eapply Forall2_impl; [exact HF|].
      intros i input Hi. exact (embedding_instance_content _ _ Hi).
  - destruct (for_each_error _ _ _ Hf) as (x & Hin & Hx).
    destruct (embedding_instance_error _ _ Hx) as (_ & shown & ->).
    destruct (Hok shown Hin).
Qed.

(** X14, with a string and a structured input. *)
Lemma get_embeddings_instances_witness :
  exists instances,
    trace_of (get_embeddings (ex_endpoint [ex_embedding_prediction]) "endpoint"
                [InputStr "What is life?";
                 TextEmbeddingInput "A document" (Some "RETRIEVAL_DOCUMENT") (Some "")]
                true tt)
    = [EvEndpointPredict "endpoint" (PyList instances)
         (PyDict [("autoTruncate", PyBool true)])]
    /\ List.length instances = 2%nat.
Proof.
  destruct (get_embeddings_instances (ex_endpoint [ex_embedding_prediction])
              "endpoint"
              [InputStr "What is life?";
               TextEmbeddingInput "A document" (Some "RETRIEVAL_DOCUMENT") (Some "")]
              true tt) as (instances & Htr & Hlen & _).
  - intros shown [H|[H|[]]]; discriminate.
  - exists instances. split; [exact Htr|exact Hlen].
Defined.

End TextGenerationSpec.

Module BatchPredictSpec.
Import BatchPredict.

Ltac run_w := unfold wbind, wret, wraise, wcall, wlift; cbn.

Lemma list_getitem_nil {A} (i : Z) :
  list_getitem (@nil A) i = Raises (Exc IndexError ["list index out of range"] None).
Proof.
  unfold list_getitem. destruct (py_index _ i); [rewrite lookup_nil|]; reflexivity.
Qed.

Lemma batch_arguments_cases B dataset destination :
  (source_ok dataset && destination_ok destination = false
   /\ exists e,
        batch_arguments B dataset destination = Raises e
        /\ (exn_cls e = ValueError
            \/ (dataset = DatasetList [] /\ exn_cls e = IndexError)))
  \/ (source_ok dataset && destination_ok destination = true
      /\ batch_arguments B dataset destination
         = Returns [(if startswith (first_uri dataset) "gs://"
                     then "gcs_source" else "bigquery_source",
                     dataset_value dataset);
                    (if startswith destination "gs://"
                     then "gcs_destination_prefix"
                     else "bigquery_destination_prefix",
                     PyStr destination)]).
Proof.
  unfold source_ok, destination_ok, batch_arguments, first_uri.
  destruct dataset as [uri|[|u us]].
  - cbn [obind].
    destruct (startswith uri "gs://") eqn:Hg;
      [|destruct (startswith uri "bq://") eqn:Hb]; cbn;
      destruct (startswith destination "gs://") eqn:Dg;
      try destruct (startswith destination "bq://") eqn:Db; cbn; eauto 8.
  - rewrite list_getitem_nil. cbn. left. eauto 8.
  - rewrite TextGenerationSpec.list_getitem_0. cbn [obind forallb].
    destruct (startswith u "gs://") eqn:Hg;
      [destruct (forallb (fun uri => startswith uri "gs://") us) eqn:Hall
      |destruct (startswith u "bq://") eqn:Hb]; cbn;
      destruct (startswith destination "gs://") eqn:Dg;
      try destruct (startswith destination "bq://") eqn:Db; cbn; eauto 8.
Qed.

(** X15.  A batch prediction whose source or destination is not
    supported fails before anything remote happens: no model lookup, no job.
    The source must be a "gs://" URI, a non-empty list of "gs://" URIs or a
    single "bq://" URI, the destination a "gs://" or "bq://" prefix; the
    error is a [ValueError], or the [IndexError] of an empty list. *)
Theorem batch_predict_rejects_before_remote B name dataset destination mp :
  source_ok dataset && destination_ok destination = false ->
  exists e,
    batch_predict B name dataset destination mp = ([], Raises e)
    /\ (exn_cls e = ValueError
        \/ (dataset = DatasetList [] /\ exn_cls e = IndexError)).
Proof.
  intros Hbad. unfold batch_predict.
  destruct (batch_arguments_cases B dataset destination)
    as [(_ & e & He & Hc)|(Hok & _)]; [|congruence].
  rewrite He. exists e. split; [reflexivity|exact Hc].
Qed.

(** X15, at a list that mixes schemes and at an http destination. *)
Lemma batch_predict_rejects_before_remote_witness :
  (exists e,
      batch_predict ex_batch_backend ex_publisher_endpoint
        (DatasetList ["gs://bucket/a.jsonl"; "bq://project.dataset.table"])
        "gs://bucket/out" None = ([], Raises e)
      /\ exn_cls e = ValueError)
  /\ (exists e,
        batch_predict ex_batch_backend ex_publisher_endpoint
          (DatasetUri "gs://bucket/a.jsonl") "https://example.com/out" None
        = ([], Raises e)).
Proof.
  split.
  - destruct (batch_predict_rejects_before_remote ex_batch_backend
                ex_publisher_endpoint
                (DatasetList ["gs://bucket/a.jsonl"; "bq://project.dataset.table"])
                "gs://bucket/out" None eq_refl) as (e & He & [Hc|[Hd _]]).
    + exists e. split; assumption.
    + discriminate Hd.
  - destruct (batch_predict_rejects_before_remote ex_batch_backend
                ex_publisher_endpoint (DatasetUri "gs://bucket/a.jsonl")
                "https://example.com/out" None eq_refl) as (e & He & _).
    exists e. exact He.
Defined.

Lemma find_sub_prefix sub s i :
  find_sub sub s = Some i -> String.prefix sub (drop_chars i s) = true.
Proof.
  revert i. induction s as [|c s IH]; intros i; cbn [find_sub].
  - destruct (String.prefix sub "") eqn:E; [|discriminate].
    intros [= <-]. exact E.
  - destruct (String.prefix sub (String c s)) eqn:E.
    + intros [= <-]. exact E.
    + destruct (find_sub sub s) as [j|]; [|discriminate].
      intros [= <-]. cbn. apply IH. reflexivity.
Qed.

Lemma drop_chars_succ i s c rest :
  String.prefix (String c rest) (drop_chars i s) = true ->
  String.prefix rest (drop_chars (i + 1) s) = true.
Proof.
  revert s. induction i as [|i IH]; intros s; destruct s as [|c' s];
    cbn -[Ascii.ascii_dec]; try (intros; discriminate).
  - destruct (Ascii.ascii_dec c c'); [auto|intros; discriminate].
  - apply IH.
Qed.

Lemma drop_chars_suffix i s : exists u, s = u ++ drop_chars i s.
Proof.
  revert s. induction i as [|i IH]; intros s; cbn.
  - exists EmptyString. reflexivity.
  - destruct s as [|c s]; [exists EmptyString; reflexivity|].
    destruct (IH s) as [u Hu]. exists (String c u).
    rewrite UriSpec.append_String, <- Hu. reflexivity.
Qed.

Lemma model_resource_name_trace B name :
  (_model_resource_name B name).1 = []
  \/ (_model_resource_name B name).1 = [EvListModels name].
Proof.
  unfold _model_resource_name. destruct (contains "publishers/" name); [left; reflexivity|].
  right. run_w. destruct (list_models B name); reflexivity.
Qed.

Lemma prefix_app sub s :
  String.prefix sub s = true <-> exists v, s = sub ++ v.
Proof.
  revert s. induction sub as [|c sub IH]; intros s.
  - split; [intros _; exists s; reflexivity|]. intros _. destruct s; reflexivity.
  - destruct s as [|c' s]; cbn -[Ascii.ascii_dec].
    + split; [discriminate|]. intros [v Hv]. discriminate Hv.
    + destruct (Ascii.ascii_dec c c') as [->|Hne].
      * rewrite IH. split; intros [v Hv]; exists v.
        -- rewrite UriSpec.append_String, <- Hv. reflexivity.
        -- rewrite UriSpec.append_String in Hv. injection Hv as ->. reflexivity.
      * split; [discriminate|]. intros [v Hv].
        rewrite UriSpec.append_String in Hv. injection Hv as <- _. congruence.
Qed.

(** [find_sub] finds nothing exactly when the substring does not occur. *)
Lemma find_sub_none sub s :
  find_sub sub s = None <-> forall u v, s <> u ++ sub ++ v.
Proof.
  induction s as [|c s IH]; cbn [find_sub].
  - destruct (String.prefix sub "") eqn:E.
    + split; [discriminate|]. intros H. exfalso.
      apply prefix_app in E as [v Hv]. exact (H EmptyString v Hv).
    + split; [|reflexivity]. intros _ u v Hs.
      destruct u as [|a u]; [|rewrite UriSpec.append_String in Hs; discriminate].
      rewrite UriSpec.append_Empty in Hs.
      assert (String.prefix sub "" = true) by (apply prefix_app; eauto).
      congruence.
  - destruct (String.prefix sub (String c s)) eqn:E.
    + split; [discriminate|]. intros H. exfalso.
      apply prefix_app in E as [v Hv]. exact (H EmptyString v Hv).
    + split.
      * intros Hn u v Hs.
        destruct (find_sub sub s) as [j|] eqn:Hj; [discriminate|].
        destruct u as [|a u].
        -- rewrite UriSpec.append_Empty in Hs.
           assert (String.prefix sub (String c s) = true)
             by (apply prefix_app; eauto).
           congruence.
        -- rewrite UriSpec.append_String in Hs. injection Hs as _ Hs.
           exact (proj1 IH eq_refl u v Hs).
      * intros H. rewrite (proj2 IH); [reflexivity|].
        intros u v Hs. apply (H (String c u) v).
        rewrite UriSpec.append_String, <- Hs. reflexivity.
Qed.

(** What [find_sub] finds is the first occurrence. *)
Lemma find_sub_some sub s i :
  find_sub sub s = Some i ->
  exists u v,
    s = u ++ sub ++ v /\ String.length u = i
    /\ forall u' v', s = u' ++ sub ++ v' ->
                     (String.length u <= String.length u')%nat.
Proof.
  revert i. induction s as [|c s IH]; intros i; cbn [find_sub].
  - destruct (String.prefix sub "") eqn:E; [|discriminate].
    intros [= <-]. apply prefix_app in E as [v Hv].
    exists EmptyString, v. repeat split; [exact Hv|]. intros; cbn; lia.
  - destruct (String.prefix sub (String c s)) eqn:E.
    + intros [= <-]. apply prefix_app in E as [v Hv].
      exists EmptyString, v. repeat split; [exact Hv|]. intros; cbn; lia.
    + destruct (find_sub sub s) as [j|] eqn:Hj; [|discriminate].
      intros [= <-]. destruct (IH j eq_refl) as (u & v & Hs & Hl & Hmin).
      exists (String c u), v. split; [|split].
      * rewrite UriSpec.append_String, <- Hs. reflexivity.
      * cbn. rewrite Hl. reflexivity.
      * intros u' v' Hs'. destruct u' as [|a u'].
        -- rewrite UriSpec.append_Empty in Hs'.
           assert (String.prefix sub (String c s) = true)
             by (apply prefix_app; eauto).
           congruence.
        -- rewrite UriSpec.append_String in Hs'. injection Hs' as _ Hs'.
           specialize (Hmin u' v' Hs'). cbn. lia.
Qed.

Lemma drop_chars_app u n w :
  drop_chars (String.length u + n) (u ++ w) = drop_chars n w.
Proof.
  induction u as [|c u IH]; [reflexivity|].
  rewrite UriSpec.append_String. exact IH.
Qed.

(** X16.  The model name a batch prediction job is created for.  A
    resource name in which "/publishers/" does not occur raises the
    [ValueError] of [str.index], and one in which it occurs does not.  The
    name handed on is cut at the first occurrence: the resource name itself
    when it starts with "/publishers/", and otherwise what follows the slash,
    "publishers/" and the rest, without the project and location before it.
    Every job [batch_predict] creates is created for the name so computed
    from the model's resource name; when the source and destination are fine
    but "/publishers/" does not occur in the resource name, the call raises
    that [ValueError] and creates no job. *)
Theorem publisher_model_name_cuts_prefix B name dataset destination mp resource :
  ((forall u v, resource <> u ++ "/publishers/" ++ v) ->
   publisher_model_name resource
   = Raises (Exc ValueError ["substring not found"] None))
  /\ (forall u v,
        resource = u ++ "/publishers/" ++ v ->
        exists model_name, publisher_model_name resource = Returns model_name)
  /\ (forall model_name,
        publisher_model_name resource = Returns model_name ->
        exists u v,
          resource = u ++ "/publishers/" ++ v
          /\ (forall u' v',
                resource = u' ++ "/publishers/" ++ v' ->
                (String.length u <= String.length u')%nat)
          /\ model_name
             = if String.eqb u "" then resource else "publishers/" ++ v)
  /\ (forall mn args mp',
        In (EvBatchPredictionJobCreate mn args mp')
           (batch_predict B name dataset destination mp).1 ->
        exists r,
          (_model_resource_name B name).2 = Returns r
          /\ publisher_model_name r = Returns mn)
  /\ (source_ok dataset && destination_ok destination = true ->
      (_model_resource_name B name).2 = Returns resource ->
      (forall u v, resource <> u ++ "/publishers/" ++ v) ->
      batch_predict B name dataset destination mp
      = ((_model_resource_name B name).1,
         Raises (Exc ValueError ["substring not found"] None))
      /\ forall mn args mp',
           ~ In (EvBatchPredictionJobCreate mn args mp')
                (batch_predict B name dataset destination mp).1).
Proof.
  assert (Hnone : forall r,
             (forall u v, r <> u ++ "/publishers/" ++ v) ->
             publisher_model_name r
             = Raises (Exc ValueError ["substring not found"] None)).
  { intros r H. unfold publisher_model_name.
    rewrite (proj2 (find_sub_none "/publishers/" r) H). reflexivity. }
  split; [apply Hnone|]. split; [|split; [|split]].
  - intros u v Hs. unfold publisher_model_name.
    destruct (find_sub "/publishers/" resource) as [i|] eqn:Hi; [eauto|].
    exfalso. exact (proj1 (find_sub_none _ _) Hi u v Hs).
  - intros model_name. unfold publisher_model_name.
    destruct (find_sub "/publishers/" resource) as [i|] eqn:Hi; [|discriminate].
    destruct (find_sub_some _ _ _ Hi) as (u & v & Hs & Hl & Hmin).
    intros [= <-]. exists u, v. split; [exact Hs|]. split; [exact Hmin|].
    destruct u as [|c u]; cbn in Hl; subst i; [reflexivity|].
    cbn [Nat.ltb Nat.leb String.eqb].
    rewrite Hs at 1.
    change (S (String.length u) + 1)%nat
      with (String.length (String c u) + 1)%nat.
    rewrite drop_chars_app. reflexivity.
  - intros mn args mp'. unfold batch_predict.
    destruct (batch_arguments_cases B dataset destination)
      as [(_ & e & He & _)|(_ & Ha)].
    { rewrite He. cbn. intros []. }
    rewrite Ha. unfold wbind, wlift, wcall.
    pose proof (model_resource_name_trace B name) as Ht.
    destruct (_model_resource_name B name) as [t [r|e]]; cbn [fst snd] in *.
    2:{ intros Hin. exfalso.
        destruct Ht as [->| ->]; cbn in Hin; intuition discriminate. }
    destruct (publisher_model_name r) as [model_name|e] eqn:Hm; cbn.
    2:{ rewrite ?app_nil_r. intros Hin. exfalso.
        destruct Ht as [->| ->]; cbn in Hin; intuition discriminate. }
    intros Hin. exists r. split; [reflexivity|].
    assert (Heq : model_name = mn).
    { destruct Ht as [->| ->]; cbn in Hin;
        repeat (destruct Hin as [Hin|Hin]; try discriminate);
        try (injection Hin as <- _ _; reflexivity); destruct Hin. }
    rewrite <- Heq. exact Hm.
  - intros Hok Hr Hno.
    assert (Hrun : batch_predict B name dataset destination mp
                   = ((_model_resource_name B name).1,
                      Raises (Exc ValueError ["substring not found"] None))).
    { unfold batch_predict.
      destruct (batch_arguments_cases B dataset destination)
        as [(Hbad & _)|(_ & Ha)]; [congruence|].
      rewrite Ha. unfold wbind, wlift, wcall.
      destruct (_model_resource_name B name) as [t o]; cbn [fst snd] in *.
      subst o. rewrite (Hnone resource Hno). cbn. rewrite ?app_nil_r.
      reflexivity. }
    split; [exact Hrun|]. intros mn args mp'. rewrite Hrun. cbn [fst].
    destruct (model_resource_name_trace B name) as [->| ->]; cbn;
      intuition discriminate.
Qed.

(** X16, at the resource name of a publisher model and at a model of the
    registry. *)
Lemma publisher_model_name_cuts_prefix_witness :
  (exists u v,
      ex_publisher_endpoint = u ++ "/publishers/" ++ v
      /\ (forall u' v',
            ex_publisher_endpoint = u' ++ "/publishers/" ++ v' ->
            (String.length u <= String.length u')%nat)
      /\ "publishers/google/models/text-bison@001"
         = if String.eqb u "" then ex_publisher_endpoint else "publishers/" ++ v)
  /\ publisher_model_name "projects/p/locations/us-central1/models/123"
     = Raises (Exc ValueError ["substring not found"] None).
Proof.
  split.
  - apply (proj1 (proj2 (proj2 (publisher_model_name_cuts_prefix
                                  ex_batch_backend ex_publisher_endpoint
                                  (DatasetUri "gs://bucket/a.jsonl")
                                  "gs://bucket/out" None
                                  ex_publisher_endpoint)))
                 "publishers/google/models/text-bison@001").
    reflexivity.
  - apply (proj1 (publisher_model_name_cuts_prefix
                    ex_batch_backend ex_publisher_endpoint
                    (DatasetUri "gs://bucket/a.jsonl") "gs://bucket/out" None
                    "projects/p/locations/us-central1/models/123")).
    apply find_sub_none. reflexivity.
Defined.

(** X17.  When a batch prediction creates a job, it does so once, as its
    last step, with the caller's model parameters and with exactly two
    arguments: one source ("gcs_source" or "bigquery_source", by the scheme
    of the first URI) holding the dataset as given, and one destination
    ("gcs_destination_prefix" or "bigquery_destination_prefix"). *)
Theorem batch_predict_job_arguments B name dataset destination mp mn args mp' :
  In (EvBatchPredictionJobCreate mn args mp')
     (batch_predict B name dataset destination mp).1 ->
  mp' = mp
  /\ args = [(if startswith (first_uri dataset) "gs://"
              then "gcs_source" else "bigquery_source", dataset_value dataset);
             (if startswith destination "gs://"
              then "gcs_destination_prefix" else "bigquery_destination_prefix",
              PyStr destination)]
  /\ source_ok dataset && destination_ok destination = true
  /\ exists tr,
       (batch_predict B name dataset destination mp).1
       = (tr ++ [EvBatchPredictionJobCreate mn args mp])%list
       /\ (tr = [] \/ tr = [EvListModels name]).
Proof.
  unfold batch_predict.
  destruct (batch_arguments_cases B dataset destination)
    as [(_ & e & He & _)|(Hok & Ha)].
  { rewrite He. cbn. intros []. }
  rewrite Ha. unfold wbind, wlift, wcall.
  pose proof (model_resource_name_trace B name) as Ht.
  destruct (_model_resource_name B name) as [t [resource|e]]; cbn [fst] in Ht.
  2:{ cbn. intros Hin. exfalso.
      destruct Ht as [->| ->]; cbn in Hin; intuition discriminate. }
  destruct (publisher_model_name resource) as [model_name|e]; cbn.
  2:{ rewrite ?app_nil_r. intros Hin. exfalso.
      destruct Ht as [->| ->]; cbn in Hin; intuition discriminate. }
  intros Hin.
  assert (Heq : EvBatchPredictionJobCreate model_name
                  [(if startswith (first_uri dataset) "gs://"
                    then "gcs_source" else "bigquery_source", dataset_value dataset);
                   (if startswith destination "gs://"
                    then "gcs_destination_prefix"
                    else "bigquery_destination_prefix", PyStr destination)] mp
                = EvBatchPredictionJobCreate mn args mp').
  { destruct Ht as [->| ->]; cbn in Hin; intuition discriminate. }
  injection Heq as <- <- <-.
  split; [reflexivity|]. split; [reflexivity|]. split; [exact Hok|].
  exists t. split; [reflexivity|exact Ht].
Qed.

(** X17, at a single BigQuery table written to a bucket. *)
Lemma batch_predict_job_arguments_witness :
  (batch_predict ex_batch_backend ex_publisher_endpoint
     (DatasetUri "bq://project.dataset.table") "gs://bucket/out" None).1
  = [EvBatchPredictionJobCreate "publishers/google/models/text-bison@001"
       [("bigquery_source", PyStr "bq://project.dataset.table");
        ("gcs_destination_prefix", PyStr "gs://bucket/out")] None].
Proof.
  destruct (batch_predict_job_arguments ex_batch_backend ex_publisher_endpoint
              (DatasetUri "bq://project.dataset.table") "gs://bucket/out" None
              "publishers/google/models/text-bison@001"
              [("bigquery_source", PyStr "bq://project.dataset.table");
               ("gcs_destination_prefix", PyStr "gs://bucket/out")] None)
    as (_ & _ & _ & tr & Htr & _).
  - left. reflexivity.
  - reflexivity.
Defined.

(** X18.  The preview batch prediction and the deprecated [source_uri]:
    given together with a dataset, or with neither of them holding
    anything, the call raises [ValueError] without anything remote; given
    alone, it stands for the dataset, after a deprecation warning. *)
Theorem preview_batch_predict_source_uri B name destination dataset mp source :
  (dataset_truthy dataset = true ->
   Preview_batch_predict B name destination dataset mp (Some source)
   = ([EvWarn "source_uri is deprecated, use dataset instead."],
      Raises (Exc ValueError ["source_uri is deprecated, use dataset instead."] None)))
  /\ (dataset_truthy dataset = false ->
      Preview_batch_predict B name destination dataset mp None
      = ([], Raises (Exc ValueError ["dataset must be specified"] None)))
  /\ (dataset_truthy dataset = false -> dataset_truthy source = false ->
      Preview_batch_predict B name destination dataset mp (Some source)
      = ([EvWarn "source_uri is deprecated, use dataset instead."],
         Raises (Exc ValueError ["dataset must be specified"] None)))
  /\ (forall d,
        dataset_truthy dataset = false -> source = Some d ->
        dataset_truthy source = true ->
        Preview_batch_predict B name destination dataset mp (Some source)
        = (EvWarn "source_uri is deprecated, use dataset instead."
             :: (batch_predict B name d destination mp).1,
           (batch_predict B name d destination mp).2)).
Proof.
  unfold Preview_batch_predict. repeat split.
  - intros ->. reflexivity.
  - intros Hd. run_w. rewrite Hd. destruct dataset; reflexivity.
  - intros Hd Hs. run_w. rewrite Hd. cbn. rewrite Hs. destruct source; reflexivity.
  - intros d Hd -> Hs. unfold wbind, wret, wraise. rewrite Hd. cbv beta iota.
    rewrite Hs. destruct (batch_predict B name d destination mp). reflexivity.
Qed.

(** X18, with both a dataset and a [source_uri]. *)
Lemma preview_batch_predict_source_uri_witness :
  Preview_batch_predict ex_batch_backend ex_publisher_endpoint "gs://bucket/out"
    (Some (DatasetUri "gs://bucket/a.jsonl")) None
    (Some (Some (DatasetUri "gs://bucket/b.jsonl")))
  = ([EvWarn "source_uri is deprecated, use dataset instead."],
     Raises (Exc ValueError ["source_uri is deprecated, use dataset instead."] None)).
Proof.
  apply (proj1 (preview_batch_predict_source_uri ex_batch_backend
                  ex_publisher_endpoint "gs://bucket/out"
                  (Some (DatasetUri "gs://bucket/a.jsonl")) None
                  (Some (DatasetUri "gs://bucket/b.jsonl")))).
  reflexivity.
Defined.

End BatchPredictSpec.

Module TuningExtraSpec.
Import Tuning.

#[local] Arguments cls_get_tuned_model : simpl never.

(** Either a submission names an unsupported region, or its job location
    is one of the supported ones and its model location the supported one. *)
Lemma classic_region tjl tml :
  Tuning.unsupported_region tjl tml
  \/ exists l, tjl = Some l /\ l ∈ Tuning._TUNING_LOCATIONS /\ tml = Some "us-central1".
Proof.
  unfold Tuning.unsupported_region, Tuning._TUNING_LOCATIONS.
  destruct (decide (tml = Some "us-central1")) as [->|Hm]; [|auto].
  destruct tjl as [l|]; [|left; left; split; discriminate].
  destruct (decide (l = "europe-west4")) as [->|H1];
    [right; exists "europe-west4"; repeat split; set_solver|].
  destruct (decide (l = "us-central1")) as [->|H2];
    [right; exists "us-central1"; repeat split; set_solver|].
  left. left. split; congruence.
Qed.


(** X19.  Loading a tuned model deploys it only when it has the
    base-model label and no deployment yet: a model that is already deployed
    is never deployed again, and a model without the label is never
    deployed.  The handle returned is for the base model the label names, on
    the first existing deployment or else on the new one. *)
Theorem loader_deploys_only_undeployed B cls tuned_model_name :
  (forall x,
      In (EvModelDeploy x) (trace_of (cls_get_tuned_model B cls tuned_model_name tt))
      <-> exists vm,
            Model_init B tuned_model_name = Returns vm
            /\ labels vm !! _TUNING_BASE_MODEL_ID_LABEL_KEY <> None
            /\ deployed_models vm = []
            /\ x = resource_name vm)
  /\ (forall m,
        outcome_of (cls_get_tuned_model B cls tuned_model_name tt) = Returns m ->
        exists vm label,
          Model_init B tuned_model_name = Returns vm
          /\ labels vm !! _TUNING_BASE_MODEL_ID_LABEL_KEY = Some label
          /\ _model_id m = _get_model_id_from_tuning_model_id label
          /\ match deployed_models vm with
             | d :: _ => _endpoint_name m = d
             | [] => Model_deploy B vm = Returns (_endpoint_name m)
             end).
Proof.
  unfold cls_get_tuned_model. unfold bind at 1, call.
  destruct (Model_init B tuned_model_name) as [vm|e]; cbn.
  2:{ split; [|discriminate]. intros x. split; [intros [H|[]]; discriminate|].
      intros (vm & H & _). discriminate. }
  destruct (labels vm !! _TUNING_BASE_MODEL_ID_LABEL_KEY) as [label|] eqn:Hl; cbn.
  2:{ split; [|discriminate]. intros x. split; [intros [H|[]]; discriminate|].
      intros (vm' & [= <-] & Hne & _). congruence. }
  destruct (deployed_models vm) as [|d ds] eqn:Hd.
  - run_monad.
    destruct (Model_deploy B vm) as [ep|e] eqn:Hdep; cbn.
    + destruct (_get_model_info B _ cls) as [info|e]; cbn;
        [destruct (_validate_launch_stage B cls _) as [[]|e]; cbn|].
      all: split;
        [intros x; split;
         [intros [H|[H|H]]; try discriminate;
          [injection H as <-; exists vm; repeat split; congruence
          |repeat (destruct H as [H|H]; try discriminate); destruct H]
         |intros (vm' & [= <-] & _ & _ & ->); right; left; reflexivity]
        |try discriminate].
      intros m [= <-]. exists vm, label. rewrite Hd. repeat split; assumption.
    + split; [|discriminate]. intros x. split.
      * intros [H|[H|[]]]; try discriminate. injection H as <-.
        exists vm. repeat split; congruence.
      * intros (vm' & [= <-] & _ & _ & ->). right. left. reflexivity.
  - run_monad.
    destruct (_get_model_info B _ cls) as [info|e]; cbn;
      [destruct (_validate_launch_stage B cls _) as [[]|e]; cbn|].
    all: split;
      [intros x; split;
       [intros H; repeat (destruct H as [H|H]; try discriminate); destruct H
       |intros (vm' & [= <-] & _ & Hnil & _); congruence]
      |try discriminate].
    intros m [= <-]. exists vm, label. rewrite Hd. repeat split; assumption.
Qed.

(** X19, at a tuned model that has no deployment yet. *)
Lemma loader_deploys_only_undeployed_witness :
  In (EvModelDeploy "projects/p/locations/us-central1/models/1")
     (trace_of (cls_get_tuned_model ex_undeployed_backend ex_class
                  "projects/p/locations/us-central1/models/1" tt)).
Proof.
  apply (proj1 (loader_deploys_only_undeployed ex_undeployed_backend ex_class
                  "projects/p/locations/us-central1/models/1")).
  eexists. split; [reflexivity|]. split; [|split; reflexivity].
  vm_compute. discriminate.
Defined.

(** X20.  A resolution that fails caches nothing: whatever went wrong
    (the job failed, the graph was malformed, the output parameter was
    missing or not a string, the loader raised), the handle still has no
    model, and the next call starts over with a new poll of the job. *)
Theorem failed_resolution_caches_nothing B B' h e :
  _model h = None ->
  outcome_of (get_tuned_model B h) = Raises e ->
  _model (state_of (get_tuned_model B h)) = None
  /\ name (_job (state_of (get_tuned_model B h))) = name (_job h)
  /\ exists tr,
       trace_of (get_tuned_model B' (state_of (get_tuned_model B h)))
       = EvJobWait (name (_job h)) :: tr.
Proof.
  intros Hm Hfail.
  assert (Hst : _model (state_of (get_tuned_model B h)) = None
                /\ name (_job (state_of (get_tuned_model B h))) = name (_job h)).
  { revert Hfail.
    unfold get_tuned_model, bind at 1 2 3, get_self, call, put_self. cbn.
    rewrite Hm. cbn.
    destruct (job_wait B (name (_job h))) as [g|e0]; cbn; [|auto].
    destruct (root_pipeline_tasks g) as [|root [|]]; cbn; auto.
    destruct (metadata (execution root) !! "output:model_resource_name")
      as [[]|]; run_monad; auto.
    rewrite TuningSpec.cls_get_tuned_model_state.
    destruct (cls_get_tuned_model B (model_cls (_base_model h)) (strip s) tt)
      as [[t u] [m|e0]]; cbn; [discriminate|auto]. }
  destruct Hst as [Hnone Hname]. split; [exact Hnone|]. split; [exact Hname|].
  remember (state_of (get_tuned_model B h)) as h' eqn:Hh'.
  rewrite <- Hname. clear -Hnone.
  unfold get_tuned_model, bind at 1 2, get_self, call. cbn. rewrite Hnone. cbn.
  destruct (job_wait B' (name (_job h'))) as [g|e0]; cbn; [|eauto].
  match goal with
  | |- context [(if ?c then ?x else ?y) ?st] =>
      destruct ((if c then x else y) st) as [[t' s''] r]
  end. cbn. eauto.
Qed.

(** X20, at a job whose root carries no output parameter. *)
Lemma failed_resolution_caches_nothing_witness :
  _model (state_of (get_tuned_model (ex_backend [ex_task; ex_task])
                      (TuningJob_init ex_base ex_job))) = None.
Proof.
  apply (proj1 (failed_resolution_caches_nothing
                  (ex_backend [ex_task; ex_task]) (ex_backend [])
                  (TuningJob_init ex_base ex_job)
                  (integrity_error (name ex_job)) eq_refl eq_refl)).
Defined.

(** X21.  [_tune_model] launches a tuning pipeline only after all its
    checks: the job location is one of the two supported, the model location
    is us-central1, and the model garden knows a tuning pipeline for the
    model.  The pipeline is launched in the job location for the model's
    tuning model ID, and the job handle returned is unresolved and bound to
    the calling model. *)
Theorem tune_model_launch_guard {S} B self data params tjl tml display (s : S) :
  (forall model_id location,
      In (EvLaunchTuningJob model_id location)
         (trace_of (_tune_model B self data params tjl tml display s)) ->
      ~ unsupported_region tjl tml
      /\ location = tjl
      /\ exists info uri,
           _get_model_info B (_model_id self) (model_cls self) = Returns info
           /\ tuning_pipeline_uri info = Some uri /\ uri <> EmptyString
           /\ model_id = tuning_model_id info)
  /\ (forall job,
        outcome_of (_tune_model B self data params tjl tml display s) = Returns job ->
        _model job = None /\ _base_model job = self
        /\ exists info uri,
             _get_model_info B (_model_id self) (model_cls self) = Returns info
             /\ tuning_pipeline_uri info = Some uri
             /\ pipeline_submit B data (tuning_model_id info) uri params display tjl
                = Returns (_job job)).
Proof.
  destruct (classic_region tjl tml) as [Hu|Hok].
  - rewrite (SubmitSpec._tune_model_rejects B self data params tjl tml display s Hu).
    split; [intros ? ? []|discriminate].
  - destruct Hok as (l & -> & Hl & ->).
    unfold _tune_model, _TUNING_LOCATIONS, _TUNED_MODEL_LOCATION.
    rewrite (bool_decide_eq_true_2 (l ∈ _)) by exact Hl.
    rewrite (bool_decide_eq_true_2 (Some "us-central1" = Some "us-central1"))
      by reflexivity.
    cbn [negb]. run_monad. unfold _launch_tuning_job, call.
    destruct (_get_model_info B (_model_id self) (model_cls self)) as [info|e]; cbn.
    2:{ split; [|discriminate]. intros ? ? [H|[]]. discriminate. }
    destruct (tuning_pipeline_uri info) as [[|c uri]|] eqn:Huri; cbn.
    1,3: split; [|discriminate]; intros ? ? [H|[]]; discriminate.
    assert (Hnot : ~ unsupported_region (Some l) (Some "us-central1")).
    { intros [[H1 H2]|H]; [|congruence].
      assert (l = "europe-west4" \/ l = "us-central1") as [->| ->] by set_solver;
        congruence. }
    split.
    + intros model_id location Hin.
      assert (Heq : EvLaunchTuningJob (tuning_model_id info) (Some l)
                    = EvLaunchTuningJob model_id location).
      { destruct (pipeline_submit B data (tuning_model_id info) (String c uri)
                    params display (Some l)); cbn in Hin;
          repeat (destruct Hin as [Hin|Hin]; try discriminate; try exact Hin);
          destruct Hin. }
      injection Heq as <- <-. split; [exact Hnot|]. split; [reflexivity|].
      exists info, (String c uri). repeat split; [exact Huri|discriminate].
    + intros job.
      destruct (pipeline_submit B data (tuning_model_id info) (String c uri)
                  params display (Some l)) as [pj|e] eqn:Hsub; cbn; [|discriminate].
      intros [= <-]. split; [reflexivity|]. split; [reflexivity|].
      exists info, (String c uri). repeat split; assumption.
Qed.

(** X21, at a submission to europe-west4 of a model that can be tuned. *)
Lemma tune_model_launch_guard_witness :
  _model (TuningJob_init ex_base ex_job) = None
  /\ _base_model (TuningJob_init ex_base ex_job) = ex_base
  /\ exists info uri,
       _get_model_info (ex_backend []) (_model_id ex_base) (model_cls ex_base)
       = Returns info
       /\ tuning_pipeline_uri info = Some uri
       /\ pipeline_submit (ex_backend []) (TrainingUri "gs://bucket/train.jsonl")
            (tuning_model_id info) uri ∅ None (Some "europe-west4")
          = Returns (_job (TuningJob_init ex_base ex_job)).
Proof.
  apply (proj2 (tune_model_launch_guard (ex_backend []) ex_base
                  (TrainingUri "gs://bucket/train.jsonl") ∅
                  (Some "europe-west4") (Some "us-central1") None tt)
               (TuningJob_init ex_base ex_job) eq_refl).
Defined.

(** X22.  [tune_model] checks the evaluation spec before anything else:
    evaluation data that is a string but not a gs:// URI, and a Tensorboard
    (an object, or a resource name) of another location than the tuning job,
    are rejected with a [ValueError] although the regions of the submission
    may be supported, and no remote service has been contacted by then. *)
Theorem evaluation_spec_rejected_before_submission {S} B self a es (s : S) :
  tuning_evaluation_spec a = Some es ->
  (forall uri,
      evaluation_data es = PyStr uri -> startswith uri "gs://" = false ->
      outcome_of (tune_model B self a s)
      = Raises (Exc ValueError ["evaluation_data should be a GCS URI"] None)
      /\ network_calls (trace_of (tune_model B self a s)) = []
      /\ state_of (tune_model B self a s) = s)
  /\ (forall uri location,
        evaluation_data es = PyStr uri -> startswith uri "gs://" = true ->
        (exists tb_name, tensorboard es = Some (TbObject location tb_name))
        \/ (exists tb_uri,
              tensorboard es = Some (TbStr tb_uri)
              /\ Tensorboard_parse_resource_name B tb_uri !! "location"
                 = Some location) ->
        Some location <> tuning_job_location a ->
        outcome_of (tune_model B self a s)
        = Raises (Exc ValueError
                    ["The Tensorboard must be in the same location as the tuning job."]
                    None)
        /\ network_calls (trace_of (tune_model B self a s)) = []
        /\ state_of (tune_model B self a s) = s).
Proof.
  intros Hes. split.
  - intros uri Hd Hgs. unfold tune_model. rewrite Hes, Hd, Hgs.
    destruct (learning_rate a); run_monad; repeat split.
  - intros uri location Hd Hgs Htb Hloc. unfold tune_model. rewrite Hes, Hd, Hgs.
    destruct Htb as [(tb_name & ->)|(tb_uri & -> & Hp)]; [|rewrite Hp];
      rewrite (bool_decide_eq_false_2 _ Hloc);
      destruct (learning_rate a); run_monad; repeat split.
Qed.

(** X22, at a job in europe-west4 with a Tensorboard in us-central1. *)
Lemma evaluation_spec_rejected_before_submission_witness :
  outcome_of (tune_model ex_undeployed_backend ex_base ex_args_tensorboard tt)
  = Raises (Exc ValueError
              ["The Tensorboard must be in the same location as the tuning job."]
              None)
  /\ network_calls (trace_of (tune_model ex_undeployed_backend ex_base
                                ex_args_tensorboard tt)) = []
  /\ state_of (tune_model ex_undeployed_backend ex_base ex_args_tensorboard tt) = tt.
Proof.
  apply (proj2 (evaluation_spec_rejected_before_submission
                  ex_undeployed_backend ex_base ex_args_tensorboard _ tt eq_refl)
               "gs://bucket/eval.jsonl" "us-central1" eq_refl eq_refl).
  - right. exists "projects/p/locations/us-central1/tensorboards/1".
    split; reflexivity.
  - discriminate.
Defined.

End TuningExtraSpec.


Module ChatExtraSpec.
Import Chat.

(** The loop of the streaming call contacts no service, and it touches
    the session only when it runs to its end: then every chunk it yielded
    had a string as text, and the answer recorded is the text accumulated
    before followed by those strings in order. *)
Lemma stream_loop_exhausted message items err full pulls s :
  trace_of (stream_loop message items err full pulls s) = []
  /\ exists rs st,
       outcome_of (stream_loop message items err full pulls s) = Returns (rs, st)
       /\ match st with
          | GenExhausted =>
              exists ts,
                map text rs = map PyStr ts
                /\ (List.length rs < pulls)%nat
                /\ _message_history
                     (state_of (stream_loop message items err full pulls s))
                   = (_message_history s
                      ++ [{| content := PyStr message; author := "user" |};
                          {| content := PyStr (full ++ foldr String.append "" ts);
                             author := "bot" |}])%list
          | _ => state_of (stream_loop message items err full pulls s) = s
          end.
Proof.
  revert items full. induction pulls as [|pulls IH]; intros items full; cbn.
  - split; [reflexivity|]. exists [], GenSuspended. split; reflexivity.
  - destruct items as [|d rest].
    + destruct err as [e|]; cbn.
      * split; [reflexivity|]. exists [], (GenRaised e). split; reflexivity.
      * split; [reflexivity|]. exists [], GenExhausted. split; [reflexivity|].
        exists []. split; [reflexivity|]. split; [cbn; lia|].
        cbn. rewrite <- app_assoc.
        replace (full ++ "") with full; [reflexivity|].
        clear. induction full as [|c u IHu]; [reflexivity|].
        rewrite UriSpec.append_String, <- IHu. reflexivity.
    + destruct (_parse_chat_prediction_response _ 0 0) as [r|e]; cbn.
      2:{ split; [reflexivity|]. exists [], (GenRaised e). split; reflexivity. }
      destruct (text r) as [| | | |t| |] eqn:Ht; cbn;
        try (split; [reflexivity|]; eexists [], (GenRaised _); split; reflexivity).
      unfold bind, ret.
      destruct (IH rest (full ++ t)) as (Htr & rs & st & Hout & Hst).
      destruct (stream_loop message rest err (full ++ t) pulls s) as [[tr s'] o].
      cbn in Htr, Hout, Hst. subst tr o. cbn.
      split; [reflexivity|]. exists (r :: rs), st. split; [reflexivity|].
      destruct st; try exact Hst.
      destruct Hst as (ts & Hts & Hlen & Hh). exists (t :: ts).
      split; [cbn; rewrite Ht, Hts; reflexivity|]. split; [cbn; lia|].
      rewrite Hh. cbn [foldr]. rewrite UriSpec.append_assoc. reflexivity.
Qed.

(** X23.  A streamed answer joins the history exactly when the stream is
    read to its end.  A generator that stopped for any other reason (it is
    suspended at a chunk, the stream broke, a chunk could not be parsed, a
    chunk had no text) leaves the session as it was.  One that ran to its end
    needed more reads than it yielded chunks, and has appended the question
    and then, as one message of the model, the texts of all chunks it yielded
    joined in order. *)
Theorem streaming_history_when_exhausted B message a pulls s :
  exists rs st,
    outcome_of (send_message_streaming B message a pulls s) = Returns (rs, st)
    /\ match st with
       | GenExhausted =>
           exists ts,
             map text rs = map PyStr ts
             /\ (List.length rs < pulls)%nat
             /\ _message_history
                  (state_of (send_message_streaming B message a pulls s))
                = (_message_history s
                   ++ [{| content := PyStr message; author := "user" |};
                       {| content := PyStr (foldr String.append "" ts);
                          author := "bot" |}])%list
       | _ => state_of (send_message_streaming B message a pulls s) = s
       end.
Proof.
  unfold send_message_streaming. destruct pulls as [|pulls].
  - exists [], GenSuspended. split; reflexivity.
  - unfold bind, get_self, emit. cbv beta.
    match goal with
    | |- context [stream_loop ?m ?items ?err ?full ?n s] =>
        destruct (stream_loop_exhausted m items err full n s)
          as (_ & rs & st & Hout & Hst);
        destruct (stream_loop m items err full n s) as [[t s'] o]
    end.
    change (o = Returns (rs, st)) in Hout. subst o.
    exists rs, st. split; [reflexivity|]. exact Hst.
Qed.

(** X24.  A session remembers the exchange: after a [send_message] that
    returned, the request prepared for the next message carries, in order,
    the messages the session had before, the question just asked, the text
    of the answer (whatever the parser took for it, [None] included) and
    then the new message; its parameters are those the session would have
    sent before. *)
Theorem next_request_carries_exchange B m1 a1 s tr s' r m2 a2 :
  send_message B m1 a1 s = (tr, s', Returns r) ->
  py_getitem_key (instance (_prepare_request s' m2 a2)) "messages"
  = Returns
      (PyList
         (map (fun past_message =>
                 PyDict [("author", PyStr (author past_message));
                         ("content", content past_message)])
              (_message_history s)
          ++ [PyDict [("author", PyStr "user"); ("content", PyStr m1)];
              PyDict [("author", PyStr "bot"); ("content", text r)];
              PyDict [("author", PyStr "user"); ("content", PyStr m2)]])%list)
  /\ parameters (_prepare_request s' m2 a2) = parameters (_prepare_request s m2 a2)
  /\ py_get (instance (_prepare_request s' m2 a2)) "context" PyNone
     = py_get (instance (_prepare_request s m2 a2)) "context" PyNone
  /\ py_get (instance (_prepare_request s' m2 a2)) "examples" PyNone
     = py_get (instance (_prepare_request s m2 a2)) "examples" PyNone.
Proof.
  unfold send_message. run_monad.
  destruct (endpoint_predict B _ _ _) as [resp|e]; [|discriminate].
  destruct (_parse_chat_prediction_response resp 0 0) as [r0|e]; cbn; [|discriminate].
  intros [= <- <- <-]. unfold _prepare_request. cbn.
  rewrite !map_app, <- !app_assoc. cbn.
  destruct (truthy (_context s)); destruct (_examples s) as [[|ex exs]|]; cbn;
    repeat split; reflexivity.
Qed.

(** X24, at a session with two earlier messages. *)
Lemma next_request_carries_exchange_witness :
  py_getitem_key
    (instance
       (_prepare_request
          (state_of (send_message (ex_chat_backend ex_prediction)
                       "How are you?" no_args ex_session))
          "And you?" no_args))
    "messages"
  = Returns
      (PyList
         [PyDict [("author", PyStr "user"); ("content", PyStr "Hi")];
          PyDict [("author", PyStr "bot"); ("content", PyStr "Hello!")];
          PyDict [("author", PyStr "user"); ("content", PyStr "How are you?")];
          PyDict [("author", PyStr "bot"); ("content", PyStr "Hello!")];
          PyDict [("author", PyStr "user"); ("content", PyStr "And you?")]]).
Proof.
  apply (proj1 (next_request_carries_exchange
                  (ex_chat_backend ex_prediction) "How are you?" no_args
                  ex_session _ _ _ "And you?" no_args eq_refl)).
Defined.

(** X25.  Which generation parameters a chat request carries.  The
    temperature given with the message wins whenever it is not [None], so a
    temperature of 0 is sent; otherwise the session's is used, and none is
    sent when both are [None].  For the other four the value given with the
    message is used only if it is truthy: a 0 or an empty list falls back on
    the session's value, and a parameter whose value is falsy in both places
    is not sent at all. *)
Theorem request_parameter_precedence self message a :
  exists d,
    parameters (_prepare_request self message a) = PyDict d
    /\ (let t := match temperature a with
                 | PyNone => _temperature self
                 | t => t
                 end in
        dict_lookup "temperature" d
        = match t with PyNone => None | _ => Some t end)
    /\ (let v := py_or (max_output_tokens a) (_max_output_tokens self) in
        dict_lookup "maxDecodeSteps" d = if truthy v then Some v else None)
    /\ (let v := py_or (top_p a) (_top_p self) in
        dict_lookup "topP" d = if truthy v then Some v else None)
    /\ (let v := py_or (top_k a) (_top_k self) in
        dict_lookup "topK" d = if truthy v then Some v else None)
    /\ (let v := py_or (stop_sequences a) (_stop_sequences self) in
        dict_lookup "stopSequences" d = if truthy v then Some v else None).
Proof.
  eexists. split; [reflexivity|]. unfold set_if_truthy.
  generalize (py_or (max_output_tokens a) (_max_output_tokens self)) as v1.
  generalize (py_or (top_p a) (_top_p self)) as v2.
  generalize (py_or (top_k a) (_top_k self)) as v3.
  generalize (py_or (stop_sequences a) (_stop_sequences self)) as v4.
  generalize (match temperature a with
              | PyNone => _temperature self
              | t => t
              end) as t.
  intros t v4 v3 v2 v1. cbv zeta.
  destruct (truthy v1), (truthy v2), (truthy v3), (truthy v4), t; cbn;
    repeat split; reflexivity.
Qed.

End ChatExtraSpec.


Module LaunchSpec.
Import Launch.

Lemma length_take_chars n s :
  String.length (take_chars n s) = Nat.min n (String.length s).
Proof.
  revert s. induction n as [|n IH]; intros [|c s]; cbn; try reflexivity.
  rewrite IH. reflexivity.
Qed.

Lemma take_chars_all n s :
  (String.length s <= n)%nat -> take_chars n s = s.
Proof.
  revert s. induction n as [|n IH]; intros [|c s] H; cbn in *; try reflexivity.
  - lia.
  - rewrite IH by lia. reflexivity.
Qed.

Lemma take_chars_app u v : take_chars (String.length u) (u ++ v) = u.
Proof.
  induction u as [|c u IH]; [reflexivity|].
  rewrite UriSpec.append_String. cbn [String.length take_chars].
  rewrite IH. reflexivity.
Qed.

Lemma length_drop_chars n s :
  String.length (drop_chars n s) = (String.length s - n)%nat.
Proof.
  revert s. induction n as [|n IH]; intros [|c s]; cbn; try reflexivity.
  apply IH.
Qed.

Lemma drop_chars_all n s :
  (String.length s <= n)%nat -> drop_chars n s = EmptyString.
Proof.
  revert s. induction n as [|n IH]; intros [|c s] H; cbn in *; try reflexivity.
  - lia.
  - apply IH. lia.
Qed.

(** X26.  The display name [_launch_tuning_job] makes up never exceeds
    128 characters.  When the description of the tuning followed by the
    dataset fits, the name is just that.  Otherwise, if the description and
    an ellipsis fit, the name has exactly 128 characters: the description,
    the ellipsis and the end of the dataset name, its start being cut.  A
    non-empty display name given by the caller is used as it is, whatever
    its length. *)
Theorem display_name_keeps_dataset_tail E model_id tuning_parameters dataset :
  (String.length (generated_display_name E model_id tuning_parameters dataset)
   <= 128)%nat
  /\ ((String.length (display_name_prefix E model_id tuning_parameters)
       + String.length dataset <= 128)%nat ->
      generated_display_name E model_id tuning_parameters dataset
      = display_name_prefix E model_id tuning_parameters ++ dataset)
  /\ ((String.length (display_name_prefix E model_id tuning_parameters) + 3
       <= 128)%nat ->
      (128 < String.length (display_name_prefix E model_id tuning_parameters)
             + String.length dataset)%nat ->
      generated_display_name E model_id tuning_parameters dataset
      = display_name_prefix E model_id tuning_parameters ++ "..."
          ++ drop_chars
               (String.length (display_name_prefix E model_id tuning_parameters)
                + 3 + String.length dataset - 128)%nat
               dataset
      /\ String.length (generated_display_name E model_id tuning_parameters dataset)
         = 128%nat)
  /\ (forall given,
        given <> EmptyString ->
        display_name E (Some given) model_id tuning_parameters dataset = given).
Proof.
  unfold generated_display_name.
  set (prefix := display_name_prefix E model_id tuning_parameters).
  change (Z.to_nat 128) with 128%nat.
  split; [|split; [|split]].
  - rewrite length_take_chars. lia.
  - intros Hfit. rewrite UriSpec.length_append.
    destruct (Z.leb_spec (Z.of_nat (String.length dataset + String.length prefix)) 128);
      [|lia].
    apply take_chars_all. rewrite UriSpec.length_append. lia.
  - intros Hpre Hlong. rewrite UriSpec.length_append.
    destruct (Z.leb_spec (Z.of_nat (String.length dataset + String.length prefix)) 128);
      [lia|].
    rewrite UriSpec.length_append. change (String.length "...") with 3%nat.
    assert (Hcut :
      take_chars 128
        ((prefix ++ "...")
         ++ slice_from (- (128 - Z.of_nat (String.length prefix + 3))) dataset)
      = (prefix ++ "...")
        ++ drop_chars (String.length prefix + 3 + String.length dataset - 128)%nat
             dataset).
    { destruct (decide (String.length prefix + 3 = 128)%nat) as [Heq|Hne].
      - replace (String.length prefix + 3 + String.length dataset - 128)%nat
          with (String.length dataset) by lia.
        rewrite (drop_chars_all (String.length dataset) dataset) by lia.
        rewrite Heq. change (- (128 - Z.of_nat 128)) with 0.
        replace 128%nat with (String.length (prefix ++ "..."))
          by (rewrite UriSpec.length_append; exact Heq).
        rewrite take_chars_app.
        clear. induction (prefix ++ "...") as [|c u IHu]; [reflexivity|].
        rewrite UriSpec.append_String, <- IHu. reflexivity.
      - unfold slice_from.
        destruct (Z.ltb_spec (- (128 - Z.of_nat (String.length prefix + 3))) 0);
          [|lia].
        replace (Z.to_nat
                   (Z.max 0
                      (Z.of_nat (String.length dataset)
                       + - (128 - Z.of_nat (String.length prefix + 3)))))
          with (String.length prefix + 3 + String.length dataset - 128)%nat by lia.
        apply take_chars_all.
        rewrite !UriSpec.length_append, length_drop_chars.
        change (String.length "...") with 3%nat. lia. }
    rewrite Hcut, UriSpec.append_assoc. split; [reflexivity|].
    rewrite !UriSpec.length_append, length_drop_chars.
    change (String.length "...") with 3%nat. lia.
  - intros [|c n] Hne; [congruence|reflexivity].
Qed.

(** X26, at a short dataset URI and no tuning parameters. *)
Lemma display_name_keeps_dataset_tail_witness :
  generated_display_name ex_env "text-bison@001" ∅ "gs://bucket/train.jsonl"
  = "text-bison@001 tuned on gs://bucket/train.jsonl".
Proof.
  etransitivity.
  - apply (proj1 (proj2 (display_name_keeps_dataset_tail
                           ex_env "text-bison@001" ∅ "gs://bucket/train.jsonl"))).
    vm_compute. lia.
  - reflexivity.
Defined.

(** X27.  What the pipeline is given.  Every tuning parameter reaches
    the pipeline under its own key and wins over the argument of the same
    name.  Unless a tuning parameter says otherwise, the pipeline's location
    is us-central1 wherever the job runs, and the dataset goes under
    [dataset_name] when it starts with projects/, under [dataset_uri] when it
    starts with gs://, and under no key at all otherwise. *)
Theorem pipeline_arguments_keys E project model_id model_display_name dataset
    tuning_parameters :
  (forall k v,
      tuning_parameters !! k = Some v ->
      pipeline_arguments E project model_id model_display_name dataset
        tuning_parameters !! k = Some v)
  /\ (tuning_parameters !! "location" = None ->
      pipeline_arguments E project model_id model_display_name dataset
        tuning_parameters !! "location" = Some (PyStr "us-central1"))
  /\ (tuning_parameters !! "dataset_name" = None ->
      pipeline_arguments E project model_id model_display_name dataset
        tuning_parameters !! "dataset_name"
      = if startswith dataset "projects/" then Some (PyStr dataset) else None)
  /\ (tuning_parameters !! "dataset_uri" = None ->
      pipeline_arguments E project model_id model_display_name dataset
        tuning_parameters !! "dataset_uri"
      = if startswith dataset "gs://" then Some (PyStr dataset) else None).
Proof.
  unfold pipeline_arguments, Tuning._TUNED_MODEL_LOCATION.
  split; [|split; [|split]].
  - intros k v Hk. apply lookup_union_Some_l. exact Hk.
  - intros Hk. rewrite (lookup_union_r _ _ _ Hk).
    destruct (encryption_spec_key_name E) as [[|c key]|];
      destruct (startswith dataset "gs://");
      destruct (startswith dataset "projects/");
      simplify_map_eq; reflexivity.
  - intros Hk. rewrite (lookup_union_r _ _ _ Hk).
    destruct (encryption_spec_key_name E) as [[|c key]|];
      destruct (startswith dataset "gs://");
      destruct (startswith dataset "projects/");
      simplify_map_eq; reflexivity.
  - intros Hk. rewrite (lookup_union_r _ _ _ Hk).
    destruct (encryption_spec_key_name E) as [[|c key]|];
      destruct (startswith dataset "gs://");
      destruct (startswith dataset "projects/");
      simplify_map_eq; reflexivity.
Qed.

(** X27, at a local path: the pipeline gets no dataset. *)
Lemma pipeline_arguments_keys_witness :
  pipeline_arguments ex_env "p" "text-bison@001" "tuned" "train.jsonl" ∅
    !! "dataset_uri"
  = None
  /\ pipeline_arguments ex_env "p" "text-bison@001" "tuned" "train.jsonl" ∅
       !! "dataset_name"
     = None.
Proof.
  split.
  - apply (proj2 (proj2 (proj2 (pipeline_arguments_keys
                                  ex_env "p" "text-bison@001" "tuned"
                                  "train.jsonl" ∅)))).
    reflexivity.
  - apply (proj1 (proj2 (proj2 (pipeline_arguments_keys
                                  ex_env "p" "text-bison@001" "tuned"
                                  "train.jsonl" ∅)))).
    reflexivity.
Defined.

(** X28.  How [_launch_tuning_job] treats the training data, once the
    staging bucket is there.  Data that is neither a string nor a DataFrame
    is refused with a [TypeError] only after the bucket was looked up, and
    nothing is uploaded or submitted.  A string is never uploaded.  A
    DataFrame is uploaded once, right after the bucket lookup, to
    training_data.jsonl in the directory of the tuned model; if the upload
    fails nothing is submitted.  A pipeline that is submitted is the given
    template in the given job location, and its dataset is the string, or
    the path the DataFrame was uploaded to. *)
Theorem launch_training_data E training_data model_id tuning_pipeline_uri
    tuning_parameters model_display_name tuning_job_location bucket :
  create_gcs_bucket_for_pipeline_artifacts_if_it_does_not_exist E = Returns bucket ->
  let run := _launch_tuning_job E training_data model_id tuning_pipeline_uri
               tuning_parameters model_display_name tuning_job_location in
  let submitted dataset tr :=
    forall template parameter_values location,
      In (EvPipelineSubmit template parameter_values location) tr ->
      template = tuning_pipeline_uri /\ location = tuning_job_location
      /\ exists p,
           project E = Returns p
           /\ parameter_values
              = pipeline_arguments E p model_id
                  (display_name E model_display_name model_id tuning_parameters
                     dataset)
                  dataset tuning_parameters in
  match training_data with
  | Tuning.TrainingOther =>
      run = ([EvStagingBucket],
             Raises (Exc TypeError
                       ["Unsupported training_data type: " ++ training_data_type E]
                       None))
  | Tuning.TrainingUri uri =>
      exists tr,
        run.1 = EvStagingBucket :: tr
        /\ List.filter is_upload tr = [] /\ submitted uri tr
  | Tuning.TrainingDataFrame df =>
      let dataset_uri :=
        Uri._uri_join (tuned_model_dir E bucket model_id) "training_data.jsonl" in
      exists tr,
        run.1 = EvStagingBucket :: EvUploadDataFrame df dataset_uri :: tr
        /\ List.filter is_upload tr = [] /\ submitted dataset_uri tr
        /\ (forall e, _upload_pandas_df_to_gcs E df dataset_uri = Raises e ->
                      run = ([EvStagingBucket; EvUploadDataFrame df dataset_uri],
                             Raises e))
  end.
Proof.
  intros Hb run submitted. subst run.
  unfold _launch_tuning_job, _generate_tuned_model_dir_uri,
    _get_tuned_models_dir_uri, tuned_model_dir.
  unfold wbind at 3 4, wcall at 1, wret at 1 2. rewrite Hb. cbv beta iota zeta.
  destruct training_data as [uri|df|].
  - unfold wbind, wret, wlift, wcall.
    destruct (project E) as [p|e] eqn:Hp.
    + eexists. split; [reflexivity|]. split; [reflexivity|].
      intros t pv l [H|[]]. injection H as <- <- <-.
      split; [reflexivity|]. split; [reflexivity|]. exists p. split; reflexivity.
    + exists []. split; [reflexivity|]. split; [reflexivity|]. intros t pv l [].
  - unfold wbind, wret, wlift, wcall.
    destruct (_upload_pandas_df_to_gcs E df _) as [[]|e0] eqn:Hu.
    + destruct (project E) as [p|e] eqn:Hp.
      * eexists. split; [reflexivity|]. split; [reflexivity|].
        split; [|discriminate].
        intros t pv l [H|[]]. injection H as <- <- <-.
        split; [reflexivity|]. split; [reflexivity|]. exists p. split; reflexivity.
      * exists []. split; [reflexivity|]. split; [reflexivity|].
        split; [intros t pv l []|discriminate].
    + exists []. split; [reflexivity|]. split; [reflexivity|].
      split; [intros t pv l []|]. intros e [= <-]. reflexivity.
  - reflexivity.
Qed.

(** X28, at a DataFrame and the bucket of the sample project. *)
Lemma launch_training_data_witness :
  exists tr,
    (_launch_tuning_job ex_env (Tuning.TrainingDataFrame (PyList []))
       "text-bison@001" "https://pipelines/tune-large-model" ∅ None
       (Some "europe-west4")).1
    = EvStagingBucket
      :: EvUploadDataFrame (PyList [])
           ("gs://p-vertex-pipelines-us-central1/tuned_language_models/"
            ++ "text-bison@001/tuned_model_2023-08-01-12-00-00-abcde/"
            ++ "training_data.jsonl")
      :: tr.
Proof.
  destruct (launch_training_data ex_env (Tuning.TrainingDataFrame (PyList []))
              "text-bison@001" "https://pipelines/tune-large-model" ∅ None
              (Some "europe-west4") _ eq_refl) as (tr & Htr & _).
  exists tr. exact Htr.
Defined.

End LaunchSpec.
